(** * labtasker: the task store of [labtasker/database.py] and the helpers of
    [labtasker/server/db_utils.py], embedded in Rocq.

    Documents are Python dictionaries (insertion-ordered, one entry per key)
    holding JSON-like values.  The queue and worker collections have a fixed
    schema and are records; tasks are dictionaries because [$set] updates
    with caller-chosen keys reach them.  The clock ([get_current_time]) is
    passed in as [now], in milliseconds. *)

From Stdlib Require Import String List ZArith Bool Lia QArith Ascii Sorted.
Import ListNotations.

Local Open Scope string_scope.
Local Open Scope Z_scope.

(** ** Values *)

(** [VFloat] holds the rational a Python float denotes, in lowest terms;
    [VDate] a datetime as milliseconds since the epoch. *)
Unset Elimination Schemes.
Inductive value : Type :=
| VNone
| VBool (b : bool)
| VInt (n : Z)
| VFloat (q : Q)
| VStr (s : string)
| VDate (ms : Z)
| VList (items : list value)
| VDict (entries : list (string * value)).
Set Elimination Schemes.

Abbreviation dict := (list (string * value)).

(** Induction over values that reaches the members of lists and
    dictionaries. *)
Section ValueInd.
Variable P : value -> Prop.
Hypothesis HNone : P VNone.
Hypothesis HBool : forall b, P (VBool b).
Hypothesis HInt : forall n, P (VInt n).
Hypothesis HFloat : forall q, P (VFloat q).
Hypothesis HStr : forall s, P (VStr s).
Hypothesis HDate : forall ms, P (VDate ms).
Hypothesis HList : forall l, Forall P l -> P (VList l).
Hypothesis HDict : forall d, Forall (fun kv => P (snd kv)) d -> P (VDict d).

Fixpoint value_ind (v : value) : P v :=
  match v with
  | VNone => HNone
  | VBool b => HBool b
  | VInt n => HInt n
  | VFloat q => HFloat q
  | VStr s => HStr s
  | VDate ms => HDate ms
  | VList l =>
      HList l
        ((fix members (l : list value) : Forall P l :=
            match l with
            | [] => Forall_nil P
            | x :: r => Forall_cons x (value_ind x) (members r)
            end) l)
  | VDict d =>
      HDict d
        ((fix members (d : dict) : Forall (fun kv => P (snd kv)) d :=
            match d with
            | [] => Forall_nil _
            | kv :: r => Forall_cons kv (value_ind (snd kv)) (members r)
            end) d)
  end.
End ValueInd.

(** Structural equality: the same value of the same type.  It stands for
    Python's [==] where the code compares against a string (an id, a status),
    and tells whether an update changed a document.  The store's own
    equality, which compares numbers by value, is [Mongo.bson_eqb]. *)
Fixpoint value_eqb (a b : value) {struct a} : bool :=
  match a, b with
  | VNone, VNone => true
  | VBool x, VBool y => Bool.eqb x y
  | VInt x, VInt y => Z.eqb x y
  | VFloat x, VFloat y => Z.eqb (Qnum x) (Qnum y) && Pos.eqb (Qden x) (Qden y)
  | VStr x, VStr y => String.eqb x y
  | VDate x, VDate y => Z.eqb x y
  | VList xs, VList ys =>
      (fix go (xs ys : list value) {struct xs} : bool :=
         match xs, ys with
         | [], [] => true
         | x :: xr, y :: yr => value_eqb x y && go xr yr
         | _, _ => false
         end) xs ys
  | VDict xs, VDict ys =>
      (fix go (xs ys : dict) {struct xs} : bool :=
         match xs, ys with
         | [], [] => true
         | (k, x) :: xr, (k', y) :: yr =>
             String.eqb k k' && value_eqb x y && go xr yr
         | _, _ => false
         end) xs ys
  | _, _ => false
  end.

(** Python truthiness ([if x:], [x or y]). *)
Definition truthy (v : value) : bool :=
  match v with
  | VNone => false
  | VBool b => b
  | VInt n => negb (n =? 0)
  | VFloat q => negb (Qnum q =? 0)
  | VStr s => negb (String.eqb s "")
  | VDate _ => true
  | VList l => match l with [] => false | _ => true end
  | VDict d => match d with [] => false | _ => true end
  end.

(** What Python raises, and what a call returns. *)
Inductive error : Type :=
| HTTPException (status_code : Z)
| KeyError
| TypeError
| AttributeError
| DuplicateKeyError
| OperationFailure
| InvalidStateTransition.

Inductive result (A : Type) : Type :=
| Ok (a : A)
| Raise (e : error).
Arguments Ok {A} a.
Arguments Raise {A} e.

Definition HTTP_400_BAD_REQUEST : Z := 400.

(** ** Python dictionaries *)

Module PyDict.

(** [d.get(k)], [k in d], [d[k]] *)
Fixpoint get (k : string) (d : dict) : option value :=
  match d with
  | [] => None
  | (k', v) :: r => if String.eqb k k' then Some v else get k r
  end.

Definition contains (k : string) (d : dict) : bool :=
  match get k d with Some _ => true | None => false end.

(** [d[k] = v]: an existing key keeps its place, a new key goes last. *)
Fixpoint setitem (k : string) (v : value) (d : dict) : dict :=
  match d with
  | [] => [(k, v)]
  | (k', v') :: r =>
      if String.eqb k k' then (k, v) :: r else (k', v') :: setitem k v r
  end.

(** [d.update(other)] as the new contents of [d]; also [{**d, **other}]. *)
Definition update (d other : dict) : dict :=
  fold_left (fun acc kv => setitem (fst kv) (snd kv) acc) other d.

Definition keys (d : dict) : list string := map fst d.

(** [set(a.keys()) == set(b.keys())] *)
Definition same_key_set (a b : dict) : bool :=
  forallb (fun k => contains k b) (keys a)
  && forallb (fun k => contains k a) (keys b).

End PyDict.

(** ** The document store

    The part of MongoDB's behaviour the code relies on: field paths, equality
    and [$ne] conditions, [$and] / [$or], [$set] updates, the sort order of
    [find_one_and_update].  Documents whose compared fields hold arrays, and
    operators other than those named, are outside this fragment: the store
    runs them, the model has no meaning for them and answers
    [OperationFailure].  What is proved below about a filter or an update
    document that the caller supplies is therefore stated for the fragment:
    [filter_supported] for filters, an update document that is empty or one
    [$set] for updates. *)

Module Mongo.

(** [a.b.c] as its components. *)
Fixpoint split_dots (s cur : string) : list string :=
  match s with
  | EmptyString => [cur]
  | String c r =>
      if Ascii.eqb c "."%char then cur :: split_dots r ""
      else split_dots r (cur ++ String c "")
  end.

Definition path_of (key : string) : list string := split_dots key "".

Fixpoint get_path (p : list string) (v : value) : option value :=
  match p, v with
  | [], _ => Some v
  | k :: r, VDict d =>
      match PyDict.get k d with
      | Some x => get_path r x
      | None => None
      end
  | _ :: _, _ => None
  end.

Definition field (key : string) (doc : dict) : option value :=
  get_path (path_of key) (VDict doc).

(** Equality as the store compares values: numbers by value, whatever their
    type ([10] and [10.0] are equal); other scalars within their type;
    arrays item by item and embedded documents field by field, in order. *)
Fixpoint bson_eqb (a b : value) {struct a} : bool :=
  match a, b with
  | VNone, VNone => true
  | VBool x, VBool y => Bool.eqb x y
  | VInt x, VInt y => Z.eqb x y
  | VInt x, VFloat y => Qeq_bool (inject_Z x) y
  | VFloat x, VInt y => Qeq_bool x (inject_Z y)
  | VFloat x, VFloat y => Qeq_bool x y
  | VStr x, VStr y => String.eqb x y
  | VDate x, VDate y => Z.eqb x y
  | VList xs, VList ys =>
      (fix go (xs ys : list value) {struct xs} : bool :=
         match xs, ys with
         | [], [] => true
         | x :: xr, y :: yr => bson_eqb x y && go xr yr
         | _, _ => false
         end) xs ys
  | VDict xs, VDict ys =>
      (fix go (xs ys : dict) {struct xs} : bool :=
         match xs, ys with
         | [], [] => true
         | (k, x) :: xr, (k', y) :: yr =>
             String.eqb k k' && bson_eqb x y && go xr yr
         | _, _ => false
         end) xs ys
  | _, _ => false
  end.

(** [{key: v}]: a null operand also matches a missing field. *)
Definition field_eq (x : option value) (v : value) : bool :=
  match x with
  | None => bson_eqb v VNone
  | Some a => bson_eqb a v
  end.

Definition is_operator (k : string) : bool := prefix "$" k.

(** The condition on one field: [{"$ne": v}] or an operand to equal. *)
Definition field_cond (x : option value) (c : value) : bool :=
  match c with
  | VDict [(op, v)] =>
      if String.eqb op "$ne" then negb (field_eq x v) else field_eq x c
  | _ => field_eq x c
  end.

(** One entry of a filter, given how filters nested in it are judged. *)
Definition clause (nested : value -> bool) (doc : dict) (k : string)
  (c : value) : bool :=
  if String.eqb k "$and" then
    match c with
    | VList fs => forallb nested fs
    | _ => false
    end
  else if String.eqb k "$or" then
    match c with
    | VList fs => existsb nested fs
    | _ => false
    end
  else field_cond (field k doc) c.

(** A filter is the conjunction of its entries. *)
Fixpoint matches (doc : dict) (f : value) {struct f} : bool :=
  match f with
  | VDict clauses =>
      forallb (fun kc => clause (matches doc) doc (fst kc) (snd kc)) clauses
  | _ => false
  end.

(** Conditions of the fragment: no operator other than a lone [$ne]. *)
Definition cond_supported (c : value) : bool :=
  match c with
  | VDict [(op, _)] => String.eqb op "$ne" || negb (is_operator op)
  | VDict d => forallb (fun kv => negb (is_operator (fst kv))) d
  | _ => true
  end.

Definition clause_supported (nested : value -> bool) (k : string)
  (c : value) : bool :=
  if String.eqb k "$and" || String.eqb k "$or" then
    match c with
    | VList (g :: gr) => forallb nested (g :: gr)
    | _ => false
    end
  else negb (is_operator k) && cond_supported c.

Fixpoint filter_supported (f : value) {struct f} : bool :=
  match f with
  | VDict clauses =>
      forallb (fun kc => clause_supported filter_supported (fst kc) (snd kc))
        clauses
  | _ => false
  end.

(** *** [$set] *)

Fixpoint set_path (p : list string) (v : value) (d : dict) {struct p}
  : option dict :=
  match p with
  | [] => None
  | k :: r =>
      match r with
      | [] => Some (PyDict.setitem k v d)
      | _ :: _ =>
          match PyDict.get k d with
          | None =>
              match set_path r v [] with
              | Some sub => Some (PyDict.setitem k (VDict sub) d)
              | None => None
              end
          | Some (VDict sub) =>
              match set_path r v sub with
              | Some sub' => Some (PyDict.setitem k (VDict sub') d)
              | None => None
              end
          | Some _ => None
          end
      end
  end.

Fixpoint is_prefix (p q : list string) : bool :=
  match p, q with
  | [], _ => true
  | a :: pr, b :: qr => String.eqb a b && is_prefix pr qr
  | _ :: _, [] => false
  end.

(** No path of one [$set] may run through another. *)
Fixpoint conflict_free (ps : list (list string)) : bool :=
  match ps with
  | [] => true
  | p :: r =>
      forallb (fun q => negb (is_prefix p q || is_prefix q p)) r
      && conflict_free r
  end.

Fixpoint set_all (sets : dict) (doc : dict) : option dict :=
  match sets with
  | [] => Some doc
  | (k, v) :: r =>
      match set_path (path_of k) v doc with
      | Some doc' => set_all r doc'
      | None => None
      end
  end.

Definition doc_eqb (a b : dict) : bool := value_eqb (VDict a) (VDict b).

(** [{"$set": sets}] on one document; [_id] is immutable. *)
Definition apply_set (sets : dict) (doc : dict) : option dict :=
  if conflict_free (map (fun kv => path_of (fst kv)) sets) then
    match set_all sets doc with
    | Some doc' =>
        if field_eq (PyDict.get "_id" doc')
             (match PyDict.get "_id" doc with Some i => i | None => VNone end)
        then Some doc' else None
    | None => None
    end
  else None.

Definition update_supported (u : dict) : bool :=
  match u with
  | [(op, VDict _)] => String.eqb op "$set"
  | _ => false
  end.

Definition apply_update (u : dict) (doc : dict) : option dict :=
  match u with
  | [(op, VDict sets)] =>
      if String.eqb op "$set" then apply_set sets doc else None
  | _ => None
  end.

(** *** Collections of task documents, in natural order *)

Definition find (f : dict) (c : list dict) : result (list dict) :=
  if filter_supported (VDict f) then
    Ok (filter (fun d => matches d (VDict f)) c)
  else Raise OperationFailure.

(** [update_one]: the collection afterwards and [modified_count]. *)
Fixpoint update_first (f u : dict) (c : list dict) : option (list dict * Z) :=
  match c with
  | [] => Some ([], 0)
  | d :: r =>
      if matches d (VDict f) then
        match apply_update u d with
        | Some d' => Some (d' :: r, if doc_eqb d' d then 0 else 1)
        | None => None
        end
      else
        match update_first f u r with
        | Some (r', n) => Some (d :: r', n)
        | None => None
        end
  end.

Definition update_one (f u : dict) (c : list dict) : result (list dict * Z) :=
  if filter_supported (VDict f) && update_supported u then
    match update_first f u c with
    | Some out => Ok out
    | None => Raise OperationFailure
    end
  else Raise OperationFailure.

(** [update_many]: documents before a refused one stay written. *)
Fixpoint update_each (f u : dict) (c : list dict) : list dict * option Z :=
  match c with
  | [] => ([], Some 0)
  | d :: r =>
      if matches d (VDict f) then
        match apply_update u d with
        | Some d' =>
            let '(r', n) := update_each f u r in
            (d' :: r', option_map (Z.add (if doc_eqb d' d then 0 else 1)) n)
        | None => (d :: r, None)
        end
      else
        let '(r', n) := update_each f u r in (d :: r', n)
  end.

Definition update_many (f u : dict) (c : list dict)
  : list dict * result Z :=
  if filter_supported (VDict f) && update_supported u then
    let '(c', n) := update_each f u c in
    (c', match n with Some k => Ok k | None => Raise OperationFailure end)
  else (c, Raise OperationFailure).

(** *** Sort order *)

Definition bson_rank (x : option value) : Z :=
  match x with
  | None | Some VNone => 1
  | Some (VInt _) | Some (VFloat _) => 2
  | Some (VStr _) => 3
  | Some (VDict _) => 4
  | Some (VList _) => 5
  | Some (VBool _) => 8
  | Some (VDate _) => 9
  end.

Definition as_number (x : option value) : option Q :=
  match x with
  | Some (VInt n) => Some (inject_Z n)
  | Some (VFloat q) => Some q
  | _ => None
  end.

(** Values of different types by type rank; embedded documents and arrays
    are not ordered among themselves here. *)
Definition bson_compare (x y : option value) : comparison :=
  match Z.compare (bson_rank x) (bson_rank y) with
  | Eq =>
      match x, y with
      | Some (VStr a), Some (VStr b) => String.compare a b
      | Some (VBool a), Some (VBool b) => Bool.compare a b
      | Some (VDate a), Some (VDate b) => Z.compare a b
      | _, _ =>
          match as_number x, as_number y with
          | Some a, Some b => Qcompare a b
          | _, _ => Eq
          end
      end
  | c => c
  end.

(** [sort=[(field, direction), ...]]: does [a] come strictly before [b]? *)
Fixpoint sorts_before (spec : list (string * Z)) (a b : dict) : bool :=
  match spec with
  | [] => false
  | (key, dir) :: r =>
      match bson_compare (field key a) (field key b) with
      | Eq => sorts_before r a b
      | Lt => 0 <? dir
      | Gt => dir <? 0
      end
  end.

(** The first document of the sorted matches; among documents the sort
    does not separate, the earliest in natural order. *)
Fixpoint first_sorted (spec : list (string * Z)) (f : dict)
  (i : nat) (c : list dict) (best : option (nat * dict))
  : option (nat * dict) :=
  match c with
  | [] => best
  | d :: r =>
      first_sorted spec f (S i) r
        (if matches d (VDict f) then
           match best with
           | None => Some (i, d)
           | Some (_, b) => if sorts_before spec d b then Some (i, d) else best
           end
         else best)
  end.

Fixpoint replace_nth (i : nat) (d : dict) (c : list dict) : list dict :=
  match c, i with
  | [], _ => []
  | _ :: r, O => d :: r
  | x :: r, S j => x :: replace_nth j d r
  end.

(** [find_one_and_update(f, u, sort, return_document=AFTER)]: one store
    operation giving the collection afterwards and the post-image. *)
Definition find_one_and_update (f u : dict) (spec : list (string * Z))
  (c : list dict) : result (list dict * option dict) :=
  if filter_supported (VDict f) && update_supported u then
    match first_sorted spec f 0%nat c None with
    | None => Ok (c, None)
    | Some (i, d) =>
        match apply_update u d with
        | Some d' => Ok (replace_nth i d' c, Some d')
        | None => Raise OperationFailure
        end
    end
  else Raise OperationFailure.

End Mongo.

(** ** [labtasker/server/db_utils.py] *)

(** Modelled from the spec: [flatten_dict] of [labtasker/utils.py], which is
    not among the sources.  A nested mapping becomes dotted-key entries, one
    per leaf, under [parent_key] when that is not empty. *)
Fixpoint flatten_entries (parent_key : string) (v : value) {struct v} : dict :=
  match v with
  | VDict d =>
      (fix items (d : dict) : dict :=
         match d with
         | [] => []
         | (k, x) :: r =>
             let new_key :=
               if String.eqb parent_key "" then k
               else parent_key ++ "." ++ k in
             (match x with
              | VDict _ => flatten_entries new_key x
              | _ => [(new_key, x)]
              end ++ items r)%list
         end) d
  | _ => []
  end.

Definition flatten_dict (d : dict) (parent_key : string) : dict :=
  PyDict.update [] (flatten_entries parent_key (VDict d)).

(** [sanitize_query]: the caller's filter under the queue's scope. *)
Definition sanitize_query (queue_id : string) (query : dict) : dict :=
  [("$and", VList [VDict [("queue_id", VStr queue_id)]; VDict query])].

Fixpoint arg_match (required provided : value) {struct required} : bool :=
  match required with
  | VNone => true
  | VDict req =>
      match provided with
      | VNone => false
      | VDict prov =>
          if negb (PyDict.same_key_set req prov) then false
          else
            (fix items (kvs : dict) : bool :=
               match kvs with
               | [] => true
               | (key, v) :: r =>
                   match PyDict.get key prov with
                   | Some p => if negb (arg_match v p) then false else items r
                   | None => false
                   end
               end) req
      | _ => false
      end
  | _ => false
  end.






(** ** [labtasker/fsm.py] (not among the sources) *)

Module TaskState.
(** Modelled from the spec: the member [PENDING] of the enum [TaskState] of
    [fsm.py], stored under its name. *)
Definition PENDING : value := VStr "pending".
(** Modelled from the spec: the member [RUNNING] of [TaskState]. *)
Definition RUNNING : value := VStr "running".
(** Modelled from the spec: the member [SUCCESS] of [TaskState]. *)
Definition SUCCESS : value := VStr "success".
(** Modelled from the spec: the member [FAILED] of [TaskState]. *)
Definition FAILED : value := VStr "failed".
(** Modelled from the spec: the member [CANCELLED] of [TaskState]. *)
Definition CANCELLED : value := VStr "cancelled".
End TaskState.

Module WorkerState.
(** Modelled from the spec: the enum [WorkerState] of [fsm.py]. *)
Inductive t : Type := ACTIVE | SUSPENDED | FAILED.

Definition eqb (a b : t) : bool :=
  match a, b with
  | ACTIVE, ACTIVE | SUSPENDED, SUSPENDED | FAILED, FAILED => true
  | _, _ => false
  end.
End WorkerState.

Module TaskFSM.
(** Modelled from the spec: the class [TaskFSM] of [fsm.py], constructed
    from [(state, retries, max_retries)]. *)
Record t : Type := make { state : value; retries : value; max_retries : value }.

(** Modelled from the spec: the [fail] event of [TaskFSM] (section 4.1).  A
    running task returns to [PENDING] while [retries + 1 < max_retries] and
    is [FAILED] otherwise; [retries] is incremented.  Other states refuse. *)
Definition fail (fsm : t) : result t :=
  if value_eqb (state fsm) TaskState.RUNNING then
    match retries fsm, max_retries fsm with
    | VInt r, VInt m =>
        Ok (make (if r + 1 <? m then TaskState.PENDING else TaskState.FAILED)
                 (VInt (r + 1)) (VInt m))
    | _, _ => Raise TypeError
    end
  else Raise InvalidStateTransition.
End TaskFSM.

(** ** [labtasker/database.py] *)

Record Queue : Type := mkQueue {
  q_id : string;
  q_queue_name : string;
  q_password : string;
  q_created_at : Z;
  q_last_modified : Z;
  q_metadata : value
}.

Record Worker : Type := mkWorker {
  w_id : string;
  w_queue_id : string;
  w_status : WorkerState.t;
  w_worker_name : option string;
  w_metadata : value;
  w_retries : Z;
  w_max_retries : Z;
  w_created_at : Z;
  w_last_modified : Z
}.

Record Db : Type := mkDb {
  queues : list Queue;
  tasks : list dict;
  workers : list Worker
}.

Definition with_tasks (db : Db) (ts : list dict) : Db :=
  mkDb (queues db) ts (workers db).

Definition Priority_MEDIUM : Z := 10.

(** [self.queues.find_one({"queue_name": queue_name})] *)
Definition find_queue (db : Db) (queue_name : string) : option Queue :=
  List.find (fun q => String.eqb (q_queue_name q) queue_name) (queues db).

(** [self.workers.find_one({"_id": worker_id, "queue_id": queue_id})] *)
Definition worker_is (worker_id queue_id : string) (w : Worker) : bool :=
  String.eqb (w_id w) worker_id && String.eqb (w_queue_id w) queue_id.

Definition find_worker (db : Db) (worker_id queue_id : string)
  : option Worker :=
  List.find (worker_is worker_id queue_id) (workers db).

(** [delete_one]: the collection afterwards and [deleted_count]. *)
Fixpoint delete_first {A : Type} (p : A -> bool) (c : list A) : list A * Z :=
  match c with
  | [] => ([], 0)
  | x :: r =>
      if p x then (r, 1)
      else let '(r', n) := delete_first p r in (x :: r', n)
  end.

Definition opt_str (s : option string) : value :=
  match s with
  | Some x => VStr x
  | None => VNone
  end.

Definition opt_int (n : option Z) : value :=
  match n with
  | Some x => VInt x
  | None => VNone
  end.

(** [x or {}] for an optional dictionary argument. *)
Definition or_empty (d : option dict) : dict :=
  match d with
  | Some x => x
  | None => []
  end.

Definition query (db : Db) (queue_name : string) (query : dict)
  : result (list dict) :=
  match find_queue db queue_name with
  | None => Raise (HTTPException 404)
  | Some queue =>
      match PyDict.get "queue_id" query with
      | None => Raise KeyError
      | Some qid =>
          if negb (value_eqb qid (VStr (q_id queue))) then
            Raise (HTTPException 400)
          else Mongo.find query (tasks db)
      end
  end.

Definition update (db : Db) (now : Z) (queue_name : string)
  (query update : dict) : result bool * Db :=
  match find_queue db queue_name with
  | None => (Raise (HTTPException 404), db)
  | Some queue =>
      match PyDict.get "queue_id" query with
      | None => (Raise KeyError, db)
      | Some qid =>
          if negb (value_eqb qid (VStr (q_id queue))) then
            (Raise (HTTPException 400), db)
          else
            let stamped : result dict :=
              match PyDict.get "$set" update with
              | Some s =>
                  if truthy s then
                    match s with
                    | VDict sets =>
                        Ok (PyDict.setitem "$set"
                              (VDict (PyDict.setitem "last_modified"
                                        (VDate now) sets)) update)
                    | _ => Raise TypeError
                    end
                  else
                    Ok (PyDict.setitem "$set"
                          (VDict [("last_modified", VDate now)]) update)
              | None =>
                  Ok (PyDict.setitem "$set"
                        (VDict [("last_modified", VDate now)]) update)
              end in
            match stamped with
            | Raise e => (Raise e, db)
            | Ok update' =>
                let '(ts, n) := Mongo.update_many query update' (tasks db) in
                (match n with
                 | Ok modified_count => Ok (0 <? modified_count)
                 | Raise e => Raise e
                 end, with_tasks db ts)
            end
      end
  end.

(** [uuid4()] is the argument [new_id]. *)
Definition create_task (db : Db) (now : Z) (new_id : string)
  (queue_name : string) (task_name : option string)
  (args metadata : option dict) (heartbeat_timeout : option Z)
  (task_timeout : option Z) (max_retries priority : Z)
  : result string * Db :=
  match find_queue db queue_name with
  | None => (Raise (HTTPException 404), db)
  | Some queue =>
      let task : dict :=
        [("_id", VStr new_id);
         ("queue_id", VStr (q_id queue));
         ("status", TaskState.PENDING);
         ("task_name", opt_str task_name);
         ("created_at", VDate now);
         ("start_time", VNone);
         ("last_heartbeat", VNone);
         ("last_modified", VDate now);
         ("heartbeat_timeout", opt_int heartbeat_timeout);
         ("task_timeout", opt_int task_timeout);
         ("max_retries", VInt max_retries);
         ("retries", VInt 0);
         ("priority", VInt priority);
         ("metadata", VDict (or_empty metadata));
         ("args", VDict (or_empty args));
         ("summary", VDict []);
         ("worker_id", VNone)] in
      if existsb (fun t => Mongo.field_eq (PyDict.get "_id" t) (VStr new_id))
           (tasks db)
      then (Raise DuplicateKeyError, db)
      else (Ok new_id, with_tasks db (tasks db ++ [task])%list)
  end.

Definition delete_worker (db : Db) (now : Z) (queue_name worker_id : string)
  (cascade_update : bool) : result bool * Db :=
  match find_queue db queue_name with
  | None => (Raise (HTTPException 404), db)
  | Some queue =>
      let '(ws, deleted_count) :=
        delete_first (worker_is worker_id (q_id queue)) (workers db) in
      let db1 := mkDb (queues db) (tasks db) ws in
      if deleted_count =? 0 then (Raise (HTTPException 404), db1)
      else if cascade_update then
        let '(ts, n) :=
          Mongo.update_many
            [("queue_id", VStr (q_id queue)); ("worker_id", VStr worker_id)]
            [("$set", VDict [("worker_id", VNone);
                             ("last_modified", VDate now)])]
            (tasks db1) in
        (match n with
         | Ok _ => Ok true
         | Raise e => Raise e
         end, with_tasks db1 ts)
      else (Ok true, db1)
  end.

Definition queue_eqb (a b : Queue) : bool :=
  String.eqb (q_id a) (q_id b)
  && String.eqb (q_queue_name a) (q_queue_name b)
  && String.eqb (q_password a) (q_password b)
  && (q_created_at a =? q_created_at b)
  && (q_last_modified a =? q_last_modified b)
  && value_eqb (q_metadata a) (q_metadata b).

(** [self.queues.update_one({"_id": id}, {"$set": ...})] *)
Fixpoint replace_queue (id : string) (q' : Queue) (c : list Queue)
  : list Queue * Z :=
  match c with
  | [] => ([], 0)
  | q :: r =>
      if String.eqb (q_id q) id then (q' :: r, if queue_eqb q' q then 0 else 1)
      else let '(r', n) := replace_queue id q' r in (q :: r', n)
  end.

(** [hash_password] belongs to the security module, an argument here. *)
Definition update_queue (hash_password : string -> string)
  (db : Db) (now : Z) (queue_name : string)
  (new_queue_name new_password : option string)
  (metadata_update : option dict) : result bool * Db :=
  match find_queue db queue_name with
  | None => (Raise (HTTPException 404), db)
  | Some queue =>
      let queue_name' :=
        match new_queue_name with
        | Some n => if truthy (VStr n) then n else q_queue_name queue
        | None => q_queue_name queue
        end in
      let password :=
        match new_password with
        | Some p =>
            if truthy (VStr p) then hash_password p else q_password queue
        | None => q_password queue
        end in
      let metadata : result value :=
        match metadata_update with
        | Some m =>
            if truthy (VDict m) then
              (* [queue["metadata"].update(metadata_update)] returns None *)
              match q_metadata queue with
              | VDict _ => Ok VNone
              | _ => Raise AttributeError
              end
            else Ok (q_metadata queue)
        | None => Ok (q_metadata queue)
        end in
      match metadata with
      | Raise e => (Raise e, db)
      | Ok metadata =>
          let queue' :=
            mkQueue (q_id queue) queue_name' password
              (q_created_at queue) now metadata in
          if existsb
               (fun q => String.eqb (q_queue_name q) queue_name'
                         && negb (String.eqb (q_id q) (q_id queue)))
               (queues db)
          then (Raise DuplicateKeyError, db)
          else
            let '(qs, modified_count) :=
              replace_queue (q_id queue) queue' (queues db) in
            (Ok (0 <? modified_count), mkDb qs (tasks db) (workers db))
      end
  end.

Definition fetch_sort : list (string * Z) :=
  [("priority", -1); ("created_at", 1)].

(** [parse_timeout] belongs to [labtasker/utils.py], an argument here. *)
Definition fetch_task (parse_timeout : string -> result Z)
  (db : Db) (now : Z) (queue_name : string)
  (worker_id eta_max : option string) (extra_filter : option dict)
  : result (option dict) * Db :=
  let task_timeout : result value :=
    match eta_max with
    | Some e =>
        if truthy (VStr e) then
          match parse_timeout e with
          | Ok n => Ok (VInt n)
          | Raise err => Raise err
          end
        else Ok VNone
    | None => Ok VNone
    end in
  match task_timeout with
  | Raise e => (Raise e, db)
  | Ok task_timeout =>
      match find_queue db queue_name with
      | None => (Raise (HTTPException 404), db)
      | Some queue =>
          let worker_check : result unit :=
            if truthy (opt_str worker_id) then
              match
                find_worker db
                  (match worker_id with Some w => w | None => "" end)
                  (q_id queue)
              with
              | None => Raise (HTTPException 404)
              | Some worker_info =>
                  if negb (WorkerState.eqb (w_status worker_info)
                             WorkerState.ACTIVE)
                  then Raise (HTTPException 400)
                  else Ok tt
              end
            else Ok tt in
          match worker_check with
          | Raise e => (Raise e, db)
          | Ok _ =>
              let query :=
                PyDict.update
                  [("queue_id", VStr (q_id queue));
                   ("status", TaskState.PENDING)]
                  (or_empty extra_filter) in
              let sets : dict :=
                [("status", TaskState.RUNNING);
                 ("start_time", VDate now);
                 ("last_heartbeat", VDate now);
                 ("last_modified", VDate now);
                 ("worker_id", opt_str worker_id)] in
              let sets :=
                if truthy task_timeout then
                  PyDict.setitem "task_timeout" task_timeout sets
                else sets in
              match
                Mongo.find_one_and_update query [("$set", VDict sets)]
                  fetch_sort (tasks db)
              with
              | Ok (ts, found) => (Ok found, with_tasks db ts)
              | Raise e => (Raise e, db)
              end
          end
      end
  end.

Definition update_task_and_reset_pending (db : Db) (now : Z)
  (queue_name task_id : string) (task_setting_update : option dict)
  : result bool * Db :=
  match find_queue db queue_name with
  | None => (Raise (HTTPException 404), db)
  | Some queue =>
      let task_setting_update := or_empty task_setting_update in
      let task_setting_update := flatten_dict task_setting_update "" in
      let task_setting_update :=
        PyDict.setitem "last_modified" (VDate now) task_setting_update in
      let task_setting_update :=
        PyDict.setitem "status" TaskState.PENDING task_setting_update in
      let task_setting_update :=
        PyDict.setitem "retries" (VInt 0) task_setting_update in
      match
        Mongo.update_one
          [("_id", VStr task_id); ("queue_id", VStr (q_id queue))]
          [("$set", VDict task_setting_update)] (tasks db)
      with
      | Ok (ts, modified_count) =>
          (Ok (0 <? modified_count), with_tasks db ts)
      | Raise e => (Raise e, db)
      end
  end.

Definition cancel_task (db : Db) (queue_name task_id : string)
  : result bool * Db :=
  match find_queue db queue_name with
  | None => (Raise (HTTPException 404), db)
  | Some queue =>
      match
        Mongo.update_one
          [("_id", VStr task_id); ("queue_id", VStr (q_id queue))]
          [("$set", VDict [("status", TaskState.CANCELLED)])] (tasks db)
      with
      | Ok (ts, modified_count) =>
          (Ok (0 <? modified_count), with_tasks db ts)
      | Raise e => (Raise e, db)
      end
  end.

(** *** The timeout sweeper *)

(** [{"$ne": None}] *)
Definition ne_null (x : option value) : bool :=
  negb (Mongo.field_eq x VNone).

(** [{"$divide": [{"$subtract": [now, "$f"]}, 1000]}]: two dates differ by
    their distance in milliseconds; there is no number for a field that
    holds no date. *)
Definition elapsed (now : Z) (x : option value) : option Q :=
  match x with
  | Some (VDate t) => Some (Qmake (now - t) 1000)
  | _ => None
  end.

(** [{"$gt": [a, "$f"]}] between numbers; false when either side is
    none. *)
Definition expr_gt (a : option Q) (x : option value) : bool :=
  match a, Mongo.as_number x with
  | Some p, Some q =>
      match Qcompare p q with
      | Gt => true
      | _ => false
      end
  | _, _ => false
  end.

(** The query of [handle_timeouts], clause by clause. *)
Definition timed_out (now : Z) (task : dict) : bool :=
  Mongo.field_eq (PyDict.get "status" task) TaskState.RUNNING
  && ((ne_null (PyDict.get "last_heartbeat" task)
       && ne_null (PyDict.get "heartbeat_timeout" task)
       && expr_gt (elapsed now (PyDict.get "last_heartbeat" task))
            (PyDict.get "heartbeat_timeout" task))
      || (ne_null (PyDict.get "task_timeout" task)
          && ne_null (PyDict.get "start_time" task)
          && expr_gt (elapsed now (PyDict.get "start_time" task))
               (PyDict.get "task_timeout" task))).

Definition get_or_none (k : string) (d : dict) : value :=
  match PyDict.get k d with
  | Some v => v
  | None => VNone
  end.

(** The body of the [try]: [None] when an exception was caught. *)
Definition sweep_one (now : Z) (id : value) (task : dict) (ts : list dict)
  : option (list dict * bool) :=
  match PyDict.get "status" task with
  | None => None
  | Some st =>
      match
        TaskFSM.fail
          (TaskFSM.make st (get_or_none "retries" task)
             (get_or_none "max_retries" task))
      with
      | Raise _ => None
      | Ok fsm =>
          match
            Mongo.update_one [("_id", id)]
              [("$set",
                 VDict
                   [("status", TaskFSM.state fsm);
                    ("retries", TaskFSM.retries fsm);
                    ("last_modified", VDate now);
                    ("summary.labtasker_error",
                      VStr "Either heartbeat or task execution timed out")])]
              ts
          with
          | Ok (ts', modified_count) => Some (ts', 0 <? modified_count)
          | Raise _ => None
          end
      end
  end.

Fixpoint sweep (now : Z) (found : list dict) (ts : list dict)
  (transitioned_tasks : list value) : result (list value) * list dict :=
  match found with
  | [] => (Ok transitioned_tasks, ts)
  | task :: rest =>
      match PyDict.get "_id" task with
      | None => (Raise KeyError, ts)
      | Some id =>
          match sweep_one now id task ts with
          | Some (ts', true) =>
              sweep now rest ts' (transitioned_tasks ++ [id])%list
          | Some (ts', false) => sweep now rest ts' transitioned_tasks
          | None => sweep now rest ts transitioned_tasks
          end
      end
  end.

Definition handle_timeouts (db : Db) (now : Z) : result (list value) * Db :=
  let found := filter (timed_out now) (tasks db) in
  let '(r, ts) := sweep now found (tasks db) [] in
  (r, with_tasks db ts).

(** ** More of [labtasker/server/db_utils.py] *)

Definition HTTP_500_INTERNAL_SERVER_ERROR : Z := 500.

(** [merge_filter] of any number of filters under [logical_op]. *)
Definition merge_filter (filters : list value) (logical_op : string)
  : result value :=
  if negb (existsb (String.eqb logical_op) ["and"; "or"; "nor"]) then
    Raise (HTTPException HTTP_500_INTERNAL_SERVER_ERROR)
  else
    let valid_filters := filter truthy filters in
    match valid_filters with
    | [] => Ok (VDict [])
    | [f] => Ok f
    | _ :: _ :: _ => Ok (VDict [("$" ++ logical_op, VList valid_filters)])
    end.

(** The keys [sanitize_dict] refuses: [re.match(r"^\$", k)] and
    [k.startswith(".")]. *)
Definition operator_like (k : string) : bool := prefix "$" k || prefix "." k.

(** [_recr_sanitize] of [sanitize_dict]. *)
Fixpoint recr_sanitize_dict (v : value) {struct v} : result value :=
  match v with
  | VDict d =>
      match
        (fix items (d : dict) : result dict :=
           match d with
           | [] => Ok []
           | (k, x) :: r =>
               if operator_like k then
                 Raise (HTTPException HTTP_400_BAD_REQUEST)
               else
                 match
                   match x with
                   | VDict _ => recr_sanitize_dict x
                   | _ => Ok x
                   end
                 with
                 | Raise e => Raise e
                 | Ok x' =>
                     match items r with
                     | Raise e => Raise e
                     | Ok r' => Ok ((k, x') :: r')
                     end
                 end
           end) d
      with
      | Ok d' => Ok (VDict d')
      | Raise e => Raise e
      end
  | _ => Ok v
  end.

Definition sanitize_dict (dic : dict) : result dict :=
  match recr_sanitize_dict (VDict dic) with
  | Ok (VDict d) => Ok d
  | Ok _ => Ok dic
  | Raise e => Raise e
  end.

(** Is there a key that looks like an operator, reached through nested
    dictionaries only? *)
Fixpoint has_operator_key (v : value) {struct v} : bool :=
  match v with
  | VDict d =>
      (fix items (d : dict) : bool :=
         match d with
         | [] => false
         | (k, x) :: r => operator_like k || has_operator_key x || items r
         end) d
  | _ => false
  end.

(** A value [arg_match] cannot take as [required]: neither [None] nor a
    dictionary, at the top or under some key. *)
Fixpoint has_scalar_leaf (v : value) {struct v} : bool :=
  match v with
  | VNone => false
  | VDict d =>
      (fix items (d : dict) : bool :=
         match d with
         | [] => false
         | (_, x) :: r => has_scalar_leaf x || items r
         end) d
  | _ => true
  end.

(** ** More of [labtasker/database.py] *)

(** What [self.security.hash_password] gives: a hash, a [ValueError], or
    another exception. *)
Inductive hashing : Type :=
| Hashed (h : string)
| HashValueError
| HashException.

Definition HTTP_409_CONFLICT : Z := 409.

(** [uuid4()] is the argument [new_id]; the queues collection is unique in
    [_id] and, by its index, in [queue_name]. *)
Definition create_queue (hash_password : string -> hashing) (db : Db)
  (now : Z) (new_id : string) (queue_name password : string)
  (metadata : option dict) : result string * Db :=
  if negb (truthy (VStr queue_name)) then
    (Raise (HTTPException 400), db)
  else
    match hash_password password with
    | HashValueError => (Raise (HTTPException HTTP_400_BAD_REQUEST), db)
    | HashException =>
        (Raise (HTTPException HTTP_500_INTERNAL_SERVER_ERROR), db)
    | Hashed h =>
        let queue :=
          mkQueue new_id queue_name h now now (VDict (or_empty metadata)) in
        if existsb
             (fun q => String.eqb (q_id q) new_id
                       || String.eqb (q_queue_name q) queue_name)
             (queues db)
        then (Raise (HTTPException HTTP_409_CONFLICT), db)
        else
          (Ok new_id,
           mkDb (queues db ++ [queue])%list (tasks db) (workers db))
    end.

(** [uuid4()] is the argument [new_id]; the workers collection is unique in
    [_id]. *)
Definition create_worker (db : Db) (now : Z) (new_id : string)
  (queue_name : string) (worker_name : option string)
  (metadata : option dict) (max_retries : Z) : result string * Db :=
  match find_queue db queue_name with
  | None => (Raise (HTTPException 404), db)
  | Some queue =>
      let worker :=
        mkWorker new_id (q_id queue) WorkerState.ACTIVE worker_name
          (VDict (or_empty metadata)) 0 max_retries now now in
      if existsb (fun w => String.eqb (w_id w) new_id) (workers db)
      then (Raise DuplicateKeyError, db)
      else
        (Ok new_id,
         mkDb (queues db) (tasks db) (workers db ++ [worker])%list)
  end.

(** [self.tasks.delete_many(f)] *)
Definition tasks_delete_many (f : dict) (c : list dict) : list dict :=
  filter (fun t => negb (Mongo.matches t (VDict f))) c.

(** [self.tasks.delete_one(f)]: the collection afterwards and
    [deleted_count]. *)
Definition tasks_delete_one (f : dict) (c : list dict) : list dict * Z :=
  delete_first (fun t => Mongo.matches t (VDict f)) c.

Definition delete_queue (db : Db) (queue_name : string)
  (cascade_delete : bool) : result bool * Db :=
  match find_queue db queue_name with
  | None => (Raise (HTTPException 404), db)
  | Some queue =>
      let '(qs, _) :=
        delete_first (fun q => String.eqb (q_id q) (q_id queue))
          (queues db) in
      if cascade_delete then
        (Ok true,
         mkDb qs
           (tasks_delete_many [("queue_id", VStr (q_id queue))] (tasks db))
           (filter
              (fun w => negb (String.eqb (w_queue_id w) (q_id queue)))
              (workers db)))
      else (Ok true, mkDb qs (tasks db) (workers db))
  end.

Definition delete_task (db : Db) (queue_name task_id : string)
  : result bool * Db :=
  match find_queue db queue_name with
  | None => (Raise (HTTPException 404), db)
  | Some queue =>
      let '(ts, deleted_count) :=
        tasks_delete_one
          [("_id", VStr task_id); ("queue_id", VStr (q_id queue))]
          (tasks db) in
      if deleted_count =? 0 then (Raise (HTTPException 404), db)
      else (Ok (0 <? deleted_count), with_tasks db ts)
  end.

(** The operations of [TaskFSM] that [update_task_status] calls; [fsm.py] is
    not among the sources, so they are arguments. *)
Record FsmOps : Type := mkFsmOps {
  from_db_entry : dict -> result TaskFSM.t;
  complete : TaskFSM.t -> result TaskFSM.t;
  fail : TaskFSM.t -> result TaskFSM.t;
  cancel : TaskFSM.t -> result TaskFSM.t
}.

(** The [try] of [update_task_status]: whatever is raised inside comes out
    as 400. *)
Definition report_event (ops : FsmOps) (task : dict) (report_status : string)
  : result TaskFSM.t :=
  match from_db_entry ops task with
  | Raise _ => Raise (HTTPException HTTP_400_BAD_REQUEST)
  | Ok fsm =>
      match
        if String.eqb report_status "success" then complete ops fsm
        else if String.eqb report_status "failed" then fail ops fsm
        else if String.eqb report_status "cancelled" then cancel ops fsm
        else Raise (HTTPException HTTP_400_BAD_REQUEST)
      with
      | Raise _ => Raise (HTTPException HTTP_400_BAD_REQUEST)
      | Ok fsm' => Ok fsm'
      end
  end.

Definition update_task_status (ops : FsmOps) (db : Db) (now : Z)
  (queue_name task_id report_status : string)
  (summary_update : option dict) : result bool * Db :=
  match find_queue db queue_name with
  | None => (Raise (HTTPException 404), db)
  | Some queue =>
      match
        List.find
          (fun t =>
             Mongo.matches t
               (VDict [("_id", VStr task_id);
                       ("queue_id", VStr (q_id queue))]))
          (tasks db)
      with
      | None => (Raise (HTTPException 404), db)
      | Some task =>
          match report_event ops task report_status with
          | Raise e => (Raise e, db)
          | Ok fsm =>
              let summary_update := or_empty summary_update in
              let summary_update := flatten_dict summary_update "summary" in
              let sets :=
                PyDict.update
                  [("status", TaskFSM.state fsm);
                   ("retries", TaskFSM.retries fsm);
                   ("last_modified", VDate now)]
                  summary_update in
              match
                Mongo.update_one [("_id", VStr task_id)]
                  [("$set", VDict sets)] (tasks db)
              with
              | Ok (ts, modified_count) =>
                  (Ok (0 <? modified_count), with_tasks db ts)
              | Raise e => (Raise e, db)
              end
          end
      end
  end.

(** ** Predicates on stored tasks, for the statements below *)

(** The filter of the cascade in [delete_worker]: a task of this queue
    bound to this worker. *)
Definition bound_to (queue_id worker_id : string) (t : dict) : bool :=
  value_eqb (get_or_none "queue_id" t) (VStr queue_id)
  && value_eqb (get_or_none "worker_id" t) (VStr worker_id).

(** What the cascade writes into a task. *)
Definition unbind (now : Z) (t : dict) : dict :=
  PyDict.setitem "last_modified" (VDate now)
    (PyDict.setitem "worker_id" VNone t).

(** The store's key: every task has a string [_id] ([create_task] writes
    [str(uuid4())]) and no two tasks share one. *)
Definition id_str (t : dict) : option string :=
  match PyDict.get "_id" t with
  | Some (VStr s) => Some s
  | _ => None
  end.

Definition has_id (s : string) (t : dict) : bool :=
  match id_str t with
  | Some s' => String.eqb s' s
  | None => false
  end.

Fixpoint ids_unique (ts : list dict) : bool :=
  match ts with
  | [] => true
  | t :: r =>
      match id_str t with
      | Some s => negb (existsb (has_id s) r) && ids_unique r
      | None => false
      end
  end.

(** The sort keys of a task as [create_task] writes them: an integer
    priority and a creation date. *)
Definition priority_of (t : dict) : option Z :=
  match PyDict.get "priority" t with
  | Some (VInt p) => Some p
  | _ => None
  end.

Definition created_of (t : dict) : option Z :=
  match PyDict.get "created_at" t with
  | Some (VDate c) => Some c
  | _ => None
  end.

Definition sort_keys (t : dict) : option (Z * Z) :=
  match priority_of t, created_of t with
  | Some p, Some c => Some (p, c)
  | _, _ => None
  end.

Definition has_sort_keys (t : dict) : bool :=
  match sort_keys t with
  | Some _ => true
  | None => false
  end.

(** A Python dictionary has one entry per key. *)
Fixpoint keys_unique (d : dict) : bool :=
  match d with
  | [] => true
  | (k, _) :: r => negb (PyDict.contains k r) && keys_unique r
  end.

(** A pending task of the queue: the base query of [fetch_task]. *)
Definition pending_in (queue_id : string) (t : dict) : bool :=
  value_eqb (get_or_none "queue_id" t) (VStr queue_id)
  && value_eqb (get_or_none "status" t) TaskState.PENDING.

(** The fields [fetch_task] writes into the task it claims. *)
Definition fetch_written : list string :=
  ["status"; "start_time"; "last_heartbeat"; "last_modified"; "worker_id";
   "task_timeout"].

(** [a] is claimed no later than [b]: higher priority, or the same priority
    and not created later. *)
Definition claim_order (a b : dict) : Prop :=
  match sort_keys a, sort_keys b with
  | Some (pa, ca), Some (pb, cb) => pb < pa \/ (pb = pa /\ ca <= cb)
  | _, _ => False
  end.

Definition strictly_higher (a b : dict) : Prop :=
  match priority_of a, priority_of b with
  | Some pa, Some pb => pb < pa
  | _, _ => False
  end.

(** No two tasks of the store have the same priority. *)
Fixpoint all_distinct (ps : list (option Z)) : bool :=
  match ps with
  | [] => true
  | p :: r =>
      negb (existsb
              (fun q =>
                 match p, q with
                 | Some x, Some y => x =? y
                 | _, _ => true
                 end) r)
      && all_distinct r
  end.

Definition distinct_priorities (ts : list dict) : bool :=
  all_distinct (map priority_of ts).

(** A client that fetches [n] times in a row, one tick apart, and keeps the
    tasks it was given; it stops at the first null or error. *)
Fixpoint fetch_all (parse_timeout : string -> result Z) (db : Db) (now : Z)
  (queue_name : string) (n : nat) : list dict * Db :=
  match n with
  | O => ([], db)
  | S m =>
      match fetch_task parse_timeout db now queue_name None None None with
      | (Ok (Some t), db') =>
          let '(r, db'') :=
            fetch_all parse_timeout db' (now + 1) queue_name m in
          (t :: r, db'')
      | (_, db') => ([], db')
      end
  end.

(** The filter [{"_id": task_id, "queue_id": queue_id}]: the task with this
    id, as a task of this queue. *)
Definition is_task (task_id queue_id : string) (t : dict) : bool :=
  value_eqb (get_or_none "_id" t) (VStr task_id)
  && value_eqb (get_or_none "queue_id" t) (VStr queue_id).

(** The fields [update_task_status] and [handle_timeouts] write. *)
Definition report_written : list string :=
  ["status"; "retries"; "last_modified"; "summary"].

(** The workers collection's key: no two workers share an [_id]. *)
Fixpoint worker_ids_unique (ws : list Worker) : bool :=
  match ws with
  | [] => true
  | w :: r =>
      negb (existsb (fun x => String.eqb (w_id x) (w_id w)) r)
      && worker_ids_unique r
  end.

(** The fields [update_task_and_reset_pending] writes when it is given no
    settings. *)
Definition reset_written : list string :=
  ["last_modified"; "status"; "retries"].

(** The tasks of [db'] are those of [db] by id: as many, in the same order,
    each under the string id it had; in particular the ids of [db'] are
    pairwise distinct exactly when those of [db] are. *)
Definition same_task_ids (db db' : Db) : Prop :=
  map id_str (tasks db') = map id_str (tasks db)
  /\ ids_unique (tasks db') = ids_unique (tasks db).

(** Documents of the fragment: no field, at any depth, holds an array (the
    store looks into arrays when it matches, the model does not). *)
Fixpoint array_free (v : value) {struct v} : bool :=
  match v with
  | VList _ => false
  | VDict d =>
      (fix items (d : dict) : bool :=
         match d with
         | [] => true
         | (_, x) :: r => array_free x && items r
         end) d
  | _ => true
  end.

Definition no_arrays (ts : list dict) : bool :=
  forallb (fun t => array_free (VDict t)) ts.

(** An update document of the fragment: [{}], or [{"$set": sets}]. *)
Definition set_document (sets : option dict) : dict :=
  match sets with
  | None => []
  | Some s => [("$set", VDict s)]
  end.

(** ** Sample stores *)

Module Sample.

Definition hash_password (p : string) : string := "hashed:" ++ p.

(** No [eta_max] of the samples needs parsing. *)
Definition parse_timeout (_ : string) : result Z := Raise (HTTPException 400).

Definition exp1 : Queue :=
  mkQueue "Q1" "exp1" "hashed:pw123" 0 0 (VDict [("owner", VStr "ann")]).

Definition other : Queue :=
  mkQueue "Q2" "other" "hashed:pw" 0 0 (VDict []).

Definition w1 : Worker :=
  mkWorker "W1" "Q1" WorkerState.ACTIVE None (VDict []) 0 3 0 0.

Definition task (id queue_id : string) (status : value) (priority : Z)
  (created_at : Z) (start last_hb : value) (hb_timeout task_timeout : value)
  (worker_id : value) : dict :=
  [("_id", VStr id);
   ("queue_id", VStr queue_id);
   ("status", status);
   ("task_name", VNone);
   ("created_at", VDate created_at);
   ("start_time", start);
   ("last_heartbeat", last_hb);
   ("last_modified", VDate created_at);
   ("heartbeat_timeout", hb_timeout);
   ("task_timeout", task_timeout);
   ("max_retries", VInt 3);
   ("retries", VInt 0);
   ("priority", VInt priority);
   ("metadata", VDict []);
   ("args", VDict []);
   ("summary", VDict []);
   ("worker_id", worker_id)].

(** Two pending tasks: A (priority 10, older) and B (priority 20). *)
Definition pendingA : dict :=
  task "A" "Q1" TaskState.PENDING 10 0 VNone VNone (VInt 60) VNone VNone.
Definition pendingB : dict :=
  task "B" "Q1" TaskState.PENDING 20 1 VNone VNone (VInt 60) VNone VNone.

(** A task already claimed by W1 at time 5. *)
Definition runningC : dict :=
  task "C" "Q1" TaskState.RUNNING 10 2 (VDate 5) (VDate 5) (VInt 60) VNone
    (VStr "W1").

(** A running task with neither timeout, started at time 0. *)
Definition runningD : dict :=
  task "D" "Q1" TaskState.RUNNING 10 0 (VDate 0) (VDate 0) VNone VNone
    (VStr "W1").

(** A running task with a one-second heartbeat timeout, silent since 0. *)
Definition runningE : dict :=
  task "E" "Q1" TaskState.RUNNING 10 0 (VDate 0) (VDate 0) (VInt 1) VNone
    VNone.

(** A pending task of the other queue. *)
Definition pendingF : dict :=
  task "F" "Q2" TaskState.PENDING 10 3 VNone VNone (VInt 60) VNone VNone.

Definition db_pending : Db := mkDb [exp1; other] [pendingA; pendingB] [w1].
Definition db_two_queues : Db := mkDb [exp1; other] [pendingF] [w1].
Definition db_running : Db := mkDb [exp1; other] [runningC] [w1].
Definition db_sweep : Db := mkDb [exp1; other] [runningD; runningE] [w1].
Definition db_worker : Db :=
  mkDb [exp1; other] [pendingA; runningC; runningD] [w1].

(** [args = {model: {name: "x", lr: 0.1}}] *)
Definition args_model : value :=
  VDict [("name", VStr "x");
         ("lr", VFloat (Qmake 3602879701896397 36028797018963968))].
Definition args : value := VDict [("model", args_model)].

End Sample.

(** ** Further samples *)

Module Scenario.

Definition hash_password (p : string) : hashing := Hashed ("hashed:" ++ p).

(** A parser that knows one duration, thirty seconds. *)
Definition parse_timeout (s : string) : result Z :=
  if String.eqb s "30s" then Ok 30 else Raise (HTTPException 400).

(** Modelled from the spec: [TaskFSM.from_db_entry], [complete] and [cancel]
    of [fsm.py] (section 4.1): the machine is built from the stored
    [status], [retries] and [max_retries]; a running task completes to
    SUCCESS; a pending or running task cancels to CANCELLED; other states
    refuse. *)
Definition fsm : FsmOps :=
  mkFsmOps
    (fun t =>
       Ok (TaskFSM.make (get_or_none "status" t) (get_or_none "retries" t)
             (get_or_none "max_retries" t)))
    (fun m =>
       if value_eqb (TaskFSM.state m) TaskState.RUNNING then
         Ok (TaskFSM.make TaskState.SUCCESS (TaskFSM.retries m)
               (TaskFSM.max_retries m))
       else Raise InvalidStateTransition)
    TaskFSM.fail
    (fun m =>
       if value_eqb (TaskFSM.state m) TaskState.RUNNING
          || value_eqb (TaskFSM.state m) TaskState.PENDING then
         Ok (TaskFSM.make TaskState.CANCELLED (TaskFSM.retries m)
               (TaskFSM.max_retries m))
       else Raise InvalidStateTransition).

(** The worker W2 as [create_worker] registers it at time 50. *)
Definition w2 : Worker :=
  mkWorker "W2" "Q1" WorkerState.ACTIVE None (VDict []) 0 3 50 50.

(** A suspended worker of the first queue. *)
Definition w3 : Worker :=
  mkWorker "W3" "Q1" WorkerState.SUSPENDED None (VDict []) 0 3 0 0.

(** The task T as [create_task] stores it at time 50. *)
Definition submitted : dict :=
  Sample.task "T" "Q1" TaskState.PENDING 10 50 VNone VNone VNone VNone VNone.

(** A task that was cancelled, and one that succeeded. *)
Definition cancelledG : dict :=
  Sample.task "G" "Q1" TaskState.CANCELLED 10 4 VNone VNone (VInt 60) VNone
    VNone.
Definition doneH : dict :=
  Sample.task "H" "Q1" TaskState.SUCCESS 10 5 (VDate 6) (VDate 7) (VInt 60)
    VNone (VStr "W1").

(** The filters [{"priority": 10.0}] and
    [{"queue_id": "Q1", "priority": 20.0}]: numbers given as floats, where
    the tasks store integers. *)
Definition ten : dict := [("priority", VFloat (Qmake 10 1))].
Definition q1_twenty : dict :=
  [("queue_id", VStr "Q1"); ("priority", VFloat (Qmake 20 1))].

Definition db_finished : Db :=
  mkDb [Sample.exp1; Sample.other] [cancelledG; doneH] [Sample.w1; w3].

End Scenario.

(** * Properties *)

(** ** Dictionaries and values *)

Lemma get_setitem_same (k : string) (v : value) (d : dict) :
  PyDict.get k (PyDict.setitem k v d) = Some v.
Proof.
  induction d as [|[k' v'] r IH]; simpl.
  - now rewrite String.eqb_refl.
  - destruct (String.eqb k k') eqn:E; simpl.
    + now rewrite String.eqb_refl.
    + now rewrite E.
Qed.

Lemma get_setitem_other (k k' : string) (v : value) (d : dict) :
  String.eqb k k' = false ->
  PyDict.get k (PyDict.setitem k' v d) = PyDict.get k d.
Proof.
  intros Hne. induction d as [|[k0 v0] r IH]; simpl.
  - now rewrite Hne.
  - destruct (String.eqb k' k0) eqn:E; simpl.
    + apply String.eqb_eq in E. subst k0. now rewrite Hne.
    + now rewrite IH.
Qed.

Lemma value_eqb_refl (v : value) : value_eqb v v = true.
Proof.
  induction v as [| b | n | q | s | ms | l IH | d IH] using value_ind; simpl.
  - reflexivity.
  - now destruct b.
  - apply Z.eqb_refl.
  - now rewrite Z.eqb_refl, Pos.eqb_refl.
  - apply String.eqb_refl.
  - apply Z.eqb_refl.
  - induction IH as [|x r Hx _ IHr]; [reflexivity|]. now rewrite Hx, IHr.
  - induction IH as [|[k x] r Hx _ IHr]; [reflexivity|].
    simpl in Hx. now rewrite String.eqb_refl, Hx, IHr.
Qed.

Lemma value_eqb_eq (a b : value) : value_eqb a b = true -> a = b.
Proof.
  revert b.
  induction a as [| x | x | x | x | x | l IH | d IH] using value_ind;
    intros [| y | y | y | y | y | l' | d']; simpl; try discriminate.
  - reflexivity.
  - intros H. apply Bool.eqb_prop in H. now subst.
  - intros H. apply Z.eqb_eq in H. now subst.
  - intros H. apply andb_prop in H. destruct H as [H1 H2].
    apply Z.eqb_eq in H1. apply Pos.eqb_eq in H2.
    destruct x, y; simpl in *. now subst.
  - intros H. apply String.eqb_eq in H. now subst.
  - intros H. apply Z.eqb_eq in H. now subst.
  - revert l'. induction IH as [|x r Hx _ IHr]; intros [|y r'] H;
      try discriminate; [reflexivity|].
    apply andb_prop in H. destruct H as [H1 H2].
    apply Hx in H1. apply IHr in H2. injection H2 as H2. now subst.
  - revert d'. induction IH as [|[k x] r Hx _ IHr]; intros [|[k' y] r'] H;
      try discriminate; [reflexivity|].
    apply andb_prop in H. destruct H as [H H3].
    apply andb_prop in H. destruct H as [H1 H2].
    apply String.eqb_eq in H1. apply Hx in H2. apply IHr in H3.
    injection H3 as H3. now subst.
Qed.

Lemma value_eqb_neq (a b : value) : a <> b -> value_eqb a b = false.
Proof.
  intros Hne. destruct (value_eqb a b) eqn:E; [|reflexivity].
  apply value_eqb_eq in E. contradiction.
Qed.

(** The store's equality against an operand that is no number. *)
Lemma bson_eqb_str (a : value) (s : string) :
  Mongo.bson_eqb a (VStr s) = value_eqb a (VStr s).
Proof. now destruct a. Qed.

Lemma bson_eqb_none (a : value) : Mongo.bson_eqb a VNone = value_eqb a VNone.
Proof. now destruct a. Qed.

Lemma bson_eqb_str_l (s : string) (b : value) :
  Mongo.bson_eqb (VStr s) b = value_eqb (VStr s) b.
Proof. now destruct b. Qed.

Lemma bson_eqb_none_l (b : value) :
  Mongo.bson_eqb VNone b = value_eqb VNone b.
Proof. now destruct b. Qed.

Lemma bson_eqb_refl (v : value) : Mongo.bson_eqb v v = true.
Proof.
  induction v as [| b | n | q | s | ms | l IH | d IH] using value_ind; simpl.
  - reflexivity.
  - now destruct b.
  - apply Z.eqb_refl.
  - apply Qeq_bool_iff. reflexivity.
  - apply String.eqb_refl.
  - apply Z.eqb_refl.
  - induction IH as [|x r Hx _ IHr]; [reflexivity|]. now rewrite Hx, IHr.
  - induction IH as [|[k x] r Hx _ IHr]; [reflexivity|].
    simpl in Hx. now rewrite String.eqb_refl, Hx, IHr.
Qed.

(** ** [arg_match] *)

(** C7 (as the code has it): for [args = {model: {name: "x", lr: 0.1}}],
    [arg_match] with [required = {model: {name: None}}] and
    [provided = args.model] returns false, because the key sets [{model}] and
    [{name, lr}] differ; with [required = {model: {size: None}}] it returns
    false as well. *)
Theorem arg_match_scenario :
  arg_match (VDict [("model", VDict [("name", VNone)])]) Sample.args_model
  = false
  /\ arg_match (VDict [("model", VDict [("size", VNone)])]) Sample.args_model
     = false.
Proof. split; reflexivity. Qed.

(** The first call of the scenario does not return true. *)
Lemma arg_match_scenario_first_is_false :
  arg_match (VDict [("model", VDict [("name", VNone)])]) Sample.args_model
  <> true.
Proof. discriminate. Qed.

Lemma contains_in_keys (k : string) (d : dict) :
  PyDict.contains k d = true -> In k (PyDict.keys d).
Proof.
  unfold PyDict.contains, PyDict.keys.
  induction d as [|[k' v] r IH]; simpl; [discriminate|].
  destruct (String.eqb k k') eqn:Ek; intros H.
  - left. apply String.eqb_eq in Ek. now subst.
  - right. now apply IH.
Qed.

(** What the key-set comparison asks for: every key of [provided], no
    other. *)
Lemma arg_match_needs_equal_key_sets (req prov : dict) :
  arg_match (VDict req) (VDict prov) = true ->
  forall k, PyDict.contains k req = PyDict.contains k prov.
Proof.
  simpl. destruct (PyDict.same_key_set req prov) eqn:E; [|discriminate].
  intros _ k. unfold PyDict.same_key_set in E.
  apply andb_prop in E. destruct E as [E1 E2].
  rewrite forallb_forall in E1, E2.
  destruct (PyDict.contains k req) eqn:Hr.
  - symmetry. apply E1. now apply contains_in_keys.
  - destruct (PyDict.contains k prov) eqn:Hp; [|reflexivity].
    rewrite <- Hr. apply E2. now apply contains_in_keys.
Qed.

(** ** Filters *)

Lemma field_top (k : string) (d : dict) :
  Mongo.path_of k = [k] -> Mongo.field k d = PyDict.get k d.
Proof.
  unfold Mongo.field. intros ->. simpl. now destruct (PyDict.get k d).
Qed.

Lemma field_eq_str (x : option value) (s : string) :
  Mongo.field_eq x (VStr s) = true -> x = Some (VStr s).
Proof.
  destruct x as [a|]; simpl; [|discriminate].
  rewrite bson_eqb_str. intros H. apply value_eqb_eq in H. now subst.
Qed.

Lemma matches_nil (t : dict) : Mongo.matches t (VDict []) = true.
Proof. reflexivity. Qed.

Lemma matches_cons (t : dict) (k : string) (c : value) (r : dict) :
  Mongo.matches t (VDict ((k, c) :: r))
  = Mongo.clause (Mongo.matches t) t k c && Mongo.matches t (VDict r).
Proof. reflexivity. Qed.

Arguments Mongo.matches : simpl never.
Arguments Mongo.filter_supported : simpl never.

(** A filter with a string under a top-level key selects only documents
    that hold this string there. *)
Lemma matches_top_key (k s : string) (q t : dict) :
  Mongo.path_of k = [k] ->
  Mongo.is_operator k = false ->
  PyDict.get k q = Some (VStr s) ->
  Mongo.matches t (VDict q) = true ->
  PyDict.get k t = Some (VStr s).
Proof.
  intros Hp Hop. induction q as [|[k' c] r IH]; simpl; [discriminate|].
  rewrite matches_cons.
  destruct (String.eqb k k') eqn:E.
  - apply String.eqb_eq in E. subst k'. intros Hc H. injection Hc as ->.
    apply andb_prop in H. destruct H as [H _].
    unfold Mongo.clause in H.
    destruct (String.eqb k "$and") eqn:Ea.
    { apply String.eqb_eq in Ea. subst k. discriminate. }
    destruct (String.eqb k "$or") eqn:Eo.
    { apply String.eqb_eq in Eo. subst k. discriminate. }
    simpl in H. rewrite field_top in H by exact Hp.
    now apply field_eq_str.
  - intros Hc H. apply andb_prop in H. destruct H as [_ H]. now apply IH.
Qed.

Lemma matches_queue_id (qid : string) (q t : dict) :
  PyDict.get "queue_id" q = Some (VStr qid) ->
  Mongo.matches t (VDict q) = true ->
  PyDict.get "queue_id" t = Some (VStr qid).
Proof. now apply matches_top_key. Qed.

Lemma update_each_scope (f u : dict) (P : dict -> Prop) (c : list dict) :
  (forall t, Mongo.matches t (VDict f) = true -> P t) ->
  Forall2 (fun t t' => t' = t \/ P t) c (fst (Mongo.update_each f u c)).
Proof.
  intros HP. induction c as [|d r IH]; simpl; [constructor|].
  destruct (Mongo.matches d (VDict f)) eqn:Em.
  - destruct (Mongo.apply_update u d) as [d'|].
    + destruct (Mongo.update_each f u r) as [r' n]. simpl in *.
      constructor; [right; now apply HP | exact IH].
    + simpl. constructor; [now left|].
      clear. induction r; constructor; auto.
  - destruct (Mongo.update_each f u r) as [r' n]. simpl in *.
    constructor; [now left | exact IH].
Qed.

Lemma update_many_scope (f u : dict) (P : dict -> Prop) (c : list dict) :
  (forall t, Mongo.matches t (VDict f) = true -> P t) ->
  Forall2 (fun t t' => t' = t \/ P t) c (fst (Mongo.update_many f u c)).
Proof.
  intros HP. unfold Mongo.update_many.
  destruct (Mongo.filter_supported (VDict f) && Mongo.update_supported u).
  - pose proof (update_each_scope f u P c HP) as H.
    destruct (Mongo.update_each f u c) as [c' n]. exact H.
  - simpl. clear. induction c; constructor; auto.
Qed.

(** ** The general [query] and [update] *)

(** C10: on a queue that resolves, [query] and [update] read
    [query["queue_id"]] before anything else is done with the filter; a filter
    without this key makes both raise [KeyError] (no 400, no scope added), and
    the store is as it was. *)
Theorem query_update_missing_queue_id (db : Db) (now : Z)
  (queue_name : string) (queue : Queue) (q u : dict) :
  find_queue db queue_name = Some queue ->
  PyDict.get "queue_id" q = None ->
  query db queue_name q = Raise KeyError
  /\ update db now queue_name q u = (Raise KeyError, db).
Proof.
  intros Hq Hk. unfold query, update. now rewrite Hq, Hk.
Qed.

Lemma query_update_missing_queue_id_witness :
  find_queue Sample.db_pending "exp1" = Some Sample.exp1
  /\ PyDict.get "queue_id" [("status", TaskState.PENDING)] = None
  /\ query Sample.db_pending "exp1" [("status", TaskState.PENDING)]
     = Raise KeyError
  /\ update Sample.db_pending 5 "exp1" [("status", TaskState.PENDING)]
       [("$set", VDict [("priority", VInt 0)])]
     = (Raise KeyError, Sample.db_pending).
Proof.
  split; [reflexivity|]. split; [reflexivity|].
  apply (query_update_missing_queue_id Sample.db_pending 5 "exp1" Sample.exp1);
    reflexivity.
Defined.

Lemma in_setitem_same (k : string) (v : value) (d : dict) :
  In (k, v) (PyDict.setitem k v d).
Proof.
  induction d as [|[k' v'] r IH]; simpl; [now left|].
  destruct (String.eqb k k'); [now left | now right].
Qed.

Lemma in_setitem_other (k k' : string) (v v' : value) (d : dict) :
  String.eqb k' k = false ->
  In (k, v) d -> In (k, v) (PyDict.setitem k' v' d).
Proof.
  intros Hne. induction d as [|[k0 v0] r IH]; simpl; [contradiction|].
  intros [Heq|Hin].
  - injection Heq as -> ->. rewrite Hne. now left.
  - destruct (String.eqb k' k0); right; auto.
Qed.

(** ** What a [$set] writes, at any depth *)

Lemma get_path_set_same (p : list string) (v : value) :
  forall d d',
    Mongo.set_path p v d = Some d' ->
    Mongo.get_path p (VDict d') = Some v.
Proof.
  induction p as [|k r IH]; intros d d'; [discriminate|].
  cbn [Mongo.set_path]. destruct r as [|k2 r].
  - intros [= <-]. cbn [Mongo.get_path]. now rewrite get_setitem_same.
  - destruct (PyDict.get k d) as [[| | | | | | |sub]|]; try discriminate.
    + destruct (Mongo.set_path (k2 :: r) v sub) as [sub'|] eqn:E;
        [|discriminate].
      intros [= <-]. cbn [Mongo.get_path]. rewrite get_setitem_same.
      now apply (IH sub).
    + destruct (Mongo.set_path (k2 :: r) v []) as [sub'|] eqn:E;
        [|discriminate].
      intros [= <-]. cbn [Mongo.get_path]. rewrite get_setitem_same.
      now apply (IH []).
Qed.

Lemma get_path_set_other (q : list string) (v : value) :
  forall p d d',
    Mongo.is_prefix p q = false ->
    Mongo.is_prefix q p = false ->
    Mongo.set_path q v d = Some d' ->
    Mongo.get_path p (VDict d') = Mongo.get_path p (VDict d).
Proof.
  induction q as [|k r IH]; intros p d d' Hpq Hqp; [discriminate|].
  destruct p as [|a pr]; [discriminate|].
  cbn [Mongo.is_prefix] in Hpq, Hqp. cbn [Mongo.set_path Mongo.get_path].
  destruct (String.eqb a k) eqn:Eak.
  - apply String.eqb_eq in Eak. subst a.
    rewrite String.eqb_refl in Hqp. simpl in Hpq, Hqp.
    destruct r as [|k2 r]; [discriminate|].
    destruct (PyDict.get k d) as [[| | | | | | |sub]|] eqn:Eg;
      try discriminate.
    + destruct (Mongo.set_path (k2 :: r) v sub) as [sub'|] eqn:E;
        [|discriminate].
      intros [= <-]. rewrite get_setitem_same.
      now apply (IH pr sub sub').
    + destruct (Mongo.set_path (k2 :: r) v []) as [sub'|] eqn:E;
        [|discriminate].
      intros [= <-]. rewrite get_setitem_same.
      rewrite (IH pr [] sub' Hpq Hqp E).
      destruct pr; [discriminate|reflexivity].
  - assert (Hg : forall x, PyDict.get a (PyDict.setitem k x d)
                           = PyDict.get a d)
      by (intros x; now apply get_setitem_other).
    destruct r as [|k2 r].
    + intros [= <-]. now rewrite Hg.
    + destruct (PyDict.get k d) as [[| | | | | | |sub]|]; try discriminate.
      * destruct (Mongo.set_path (k2 :: r) v sub); [|discriminate].
        intros [= <-]. now rewrite Hg.
      * destruct (Mongo.set_path (k2 :: r) v []); [|discriminate].
        intros [= <-]. now rewrite Hg.
Qed.

Lemma set_all_get_other (sets : dict) :
  forall p d d',
    (forall kv, In kv sets ->
                Mongo.is_prefix p (Mongo.path_of (fst kv)) = false
                /\ Mongo.is_prefix (Mongo.path_of (fst kv)) p = false) ->
    Mongo.set_all sets d = Some d' ->
    Mongo.get_path p (VDict d') = Mongo.get_path p (VDict d).
Proof.
  induction sets as [|[k0 v0] r IH]; intros p d d' Hno; simpl.
  - now intros [= <-].
  - destruct (Mongo.set_path (Mongo.path_of k0) v0 d) as [d1|] eqn:E;
      [|discriminate].
    intros H. rewrite (IH p d1 d'); [| |exact H].
    + destruct (Hno (k0, v0)) as [H1 H2]; [now left|].
      now apply (get_path_set_other (Mongo.path_of k0) v0).
    + intros kv Hkv. apply Hno. now right.
Qed.

(** In a [$set] the store accepts, every entry ends up in the document:
    the field at its key, dotted or not, holds the value given for it. *)
Lemma set_all_writes (sets : dict) :
  forall d d' k v,
    Mongo.conflict_free (map (fun kv => Mongo.path_of (fst kv)) sets) = true ->
    In (k, v) sets ->
    Mongo.set_all sets d = Some d' ->
    Mongo.field k d' = Some v.
Proof.
  induction sets as [|[k0 v0] r IH]; intros d d' k v Hcf Hin; [contradiction|].
  simpl in Hcf. apply andb_prop in Hcf. destruct Hcf as [Hhd Hcf].
  simpl. destruct (Mongo.set_path (Mongo.path_of k0) v0 d) as [d1|] eqn:E;
    [|discriminate].
  intros H. destruct Hin as [Heq|Hin].
  - injection Heq as -> ->. unfold Mongo.field.
    rewrite (set_all_get_other r (Mongo.path_of k) d1 d'); [| |exact H].
    + now apply (get_path_set_same _ _ d).
    + intros kv Hkv. rewrite forallb_forall in Hhd.
      specialize (Hhd (Mongo.path_of (fst kv))).
      assert (Hi : In (Mongo.path_of (fst kv))
                     (map (fun kv => Mongo.path_of (fst kv)) r))
        by (apply in_map_iff; now exists kv).
      apply Hhd in Hi. apply negb_true_iff, orb_false_iff in Hi.
      exact Hi.
  - now apply (IH d1 d').
Qed.

Lemma apply_update_writes (sets d d' : dict) (k : string) (v : value) :
  Mongo.apply_update [("$set", VDict sets)] d = Some d' ->
  In (k, v) sets ->
  Mongo.field k d' = Some v.
Proof.
  unfold Mongo.apply_update, Mongo.apply_set. simpl.
  destruct (Mongo.conflict_free _) eqn:Ecf; [|discriminate].
  destruct (Mongo.set_all sets d) as [x|] eqn:Es; [|discriminate].
  destruct (Mongo.field_eq _ _); [|discriminate].
  intros [= <-] Hin. now apply (set_all_writes sets d x).
Qed.

(** [update_many] rewrites documents that match the filter, and only
    these; when it returns, it has rewritten every one of them. *)
Lemma update_each_selects (f u : dict) (c : list dict) :
  Forall2
    (fun t t' =>
       if Mongo.matches t (VDict f)
       then t' = t \/ Mongo.apply_update u t = Some t'
       else t' = t)
    c (fst (Mongo.update_each f u c)).
Proof.
  induction c as [|d r IH]; cbn [Mongo.update_each]; [constructor|].
  destruct (Mongo.matches d (VDict f)) eqn:Em.
  - destruct (Mongo.apply_update u d) as [d'|] eqn:Ea.
    + destruct (Mongo.update_each f u r) as [r' n]. simpl in *.
      constructor; [rewrite Em; now right | exact IH].
    + simpl. constructor; [rewrite Em; now left|].
      clear. induction r as [|x r IH]; constructor; [|exact IH].
      destruct (Mongo.matches x (VDict f)); auto.
  - destruct (Mongo.update_each f u r) as [r' n]. simpl in *.
    constructor; [now rewrite Em | exact IH].
Qed.

Lemma update_each_all (f u : dict) (c : list dict) :
  snd (Mongo.update_each f u c) <> None ->
  Forall2
    (fun t t' =>
       if Mongo.matches t (VDict f)
       then Mongo.apply_update u t = Some t'
       else t' = t)
    c (fst (Mongo.update_each f u c)).
Proof.
  induction c as [|d r IH]; cbn [Mongo.update_each]; [constructor|].
  destruct (Mongo.matches d (VDict f)) eqn:Em.
  - destruct (Mongo.apply_update u d) as [d'|] eqn:Ea.
    + destruct (Mongo.update_each f u r) as [r' n]. simpl in *.
      intros Hn. constructor; [now rewrite Em|].
      apply IH. now destruct n.
    + simpl. intros H. now contradiction H.
  - destruct (Mongo.update_each f u r) as [r' n]. simpl in *.
    intros Hn. constructor; [now rewrite Em | now apply IH].
Qed.

(** What [update] hands to the store, for an update document of the
    fragment: the caller's filter, and the caller's [$set] with
    [last_modified] put to the time of the call. *)
Lemma update_in_fragment (db : Db) (now : Z) (queue_name : string)
  (queue : Queue) (q : dict) (sets : option dict) :
  find_queue db queue_name = Some queue ->
  PyDict.get "queue_id" q = Some (VStr (q_id queue)) ->
  Mongo.filter_supported (VDict q) = true ->
  update db now queue_name q (set_document sets)
  = (match
       snd (Mongo.update_each q
              [("$set",
                 VDict (PyDict.setitem "last_modified" (VDate now)
                          (or_empty sets)))] (tasks db))
     with
     | Some k => Ok (0 <? k)
     | None => Raise OperationFailure
     end,
     with_tasks db
       (fst (Mongo.update_each q
               [("$set",
                  VDict (PyDict.setitem "last_modified" (VDate now)
                           (or_empty sets)))] (tasks db)))).
Proof.
  intros Hq Hk Hs. unfold update. rewrite Hq, Hk, value_eqb_refl.
  cbn [negb].
  assert (E : match PyDict.get "$set" (set_document sets) with
              | Some s =>
                  if truthy s then
                    match s with
                    | VDict sets0 =>
                        Ok (PyDict.setitem "$set"
                              (VDict (PyDict.setitem "last_modified"
                                        (VDate now) sets0))
                              (set_document sets))
                    | _ => Raise TypeError
                    end
                  else
                    Ok (PyDict.setitem "$set"
                          (VDict [("last_modified", VDate now)])
                          (set_document sets))
              | None =>
                  Ok (PyDict.setitem "$set"
                        (VDict [("last_modified", VDate now)])
                        (set_document sets))
              end
              = Ok [("$set",
                      VDict (PyDict.setitem "last_modified" (VDate now)
                               (or_empty sets)))]).
  { destruct sets as [[|e s]|]; reflexivity. }
  cbv zeta. rewrite E. unfold Mongo.update_many. rewrite Hs.
  cbn [Mongo.update_supported String.eqb Ascii.eqb Bool.eqb andb].
  now destruct (Mongo.update_each _ _ (tasks db)) as [ts [n|]].
Qed.

(** C6 (as the code has it): on a queue that resolves, for a filter that
    carries a [queue_id] entry.  An entry other than the queue's id makes
    [query] and [update] fail with 400 and leaves the store alone.  With the
    queue's own id the filter goes to the store as the caller gave it, no
    scope is added: for a filter of the fragment, on tasks that hold no
    arrays, [query] returns the tasks that match the caller's filter, and
    these have this [queue_id]; [update],
    given an update document that is empty or one [$set], leaves every task
    that does not match the caller's filter as it was, and a task it
    rewrites matches the filter, carries the time of the call as
    [last_modified] and holds every other entry of the caller's [$set]; when
    [update] returns, every matching task has been rewritten so. *)
Theorem query_update_scope_check (db : Db) (now : Z) (queue_name : string)
  (queue : Queue) (q : dict) (v : value) :
  find_queue db queue_name = Some queue ->
  PyDict.get "queue_id" q = Some v ->
  (v <> VStr (q_id queue) ->
   forall u,
     query db queue_name q = Raise (HTTPException HTTP_400_BAD_REQUEST)
     /\ update db now queue_name q u
        = (Raise (HTTPException HTTP_400_BAD_REQUEST), db))
  /\ (v = VStr (q_id queue) ->
      Mongo.filter_supported (VDict q) = true ->
      no_arrays (tasks db) = true ->
      query db queue_name q
      = Ok (filter (fun t => Mongo.matches t (VDict q)) (tasks db))
      /\ (forall t,
             Mongo.matches t (VDict q) = true ->
             PyDict.get "queue_id" t = Some (VStr (q_id queue)))
      /\ forall sets,
           Forall2
             (fun t t' =>
                if Mongo.matches t (VDict q) then
                  t' = t
                  \/ (PyDict.get "last_modified" t' = Some (VDate now)
                      /\ forall k x,
                           In (k, x) (or_empty sets) ->
                           k <> "last_modified" ->
                           Mongo.field k t' = Some x)
                else t' = t)
             (tasks db)
             (tasks (snd (update db now queue_name q (set_document sets))))
           /\ (forall b,
                  fst (update db now queue_name q (set_document sets))
                  = Ok b ->
                  Forall2
                    (fun t t' =>
                       if Mongo.matches t (VDict q) then
                         PyDict.get "last_modified" t' = Some (VDate now)
                         /\ forall k x,
                              In (k, x) (or_empty sets) ->
                              k <> "last_modified" ->
                              Mongo.field k t' = Some x
                       else t' = t)
                    (tasks db)
                    (tasks (snd (update db now queue_name q
                                   (set_document sets)))))).
Proof.
  intros Hq Hk. split.
  - intros Hne u. unfold query, update. rewrite Hq, Hk.
    now rewrite (value_eqb_neq _ _ Hne).
  - intros -> Hs _.
    assert (Hw : forall sets t t',
               Mongo.apply_update
                 [("$set",
                    VDict (PyDict.setitem "last_modified" (VDate now)
                             (or_empty sets)))] t = Some t' ->
               PyDict.get "last_modified" t' = Some (VDate now)
               /\ forall k x,
                    In (k, x) (or_empty sets) ->
                    k <> "last_modified" ->
                    Mongo.field k t' = Some x).
    { intros sets t t' Ha. split.
      - rewrite <- (field_top "last_modified" t' eq_refl).
        apply (apply_update_writes _ _ _ _ _ Ha). apply in_setitem_same.
      - intros k x Hin Hne. apply (apply_update_writes _ _ _ _ _ Ha).
        apply in_setitem_other; [|exact Hin].
        apply String.eqb_neq. congruence. }
    split; [|split].
    + unfold query. rewrite Hq, Hk, value_eqb_refl. cbn [negb].
      unfold Mongo.find. now rewrite Hs.
    + intros t Hm. now apply (matches_queue_id _ q).
    + intros sets. rewrite (update_in_fragment _ _ _ _ _ sets Hq Hk Hs).
      cbn [fst snd tasks with_tasks]. split.
      * eapply Forall2_impl; [|apply update_each_selects].
        intros t t'. cbv beta.
        destruct (Mongo.matches t (VDict q)); [|auto].
        intros [->|Ha]; [now left|]. right. now apply (Hw sets t).
      * intros b Hb.
        eapply Forall2_impl; [|apply update_each_all].
        -- intros t t'. cbv beta.
           destruct (Mongo.matches t (VDict q)); [|auto].
           intros Ha. now apply (Hw sets t).
        -- intros Hn. rewrite Hn in Hb. discriminate.
Qed.

Lemma query_update_scope_check_witness :
  find_queue Sample.db_pending "exp1" = Some Sample.exp1
  /\ PyDict.get "queue_id" Scenario.q1_twenty = Some (VStr "Q1")
  /\ Mongo.filter_supported (VDict Scenario.q1_twenty) = true
  /\ no_arrays (tasks Sample.db_pending) = true
  /\ query Sample.db_pending "exp1" Scenario.q1_twenty
     = Ok [Sample.pendingB]
  /\ update Sample.db_pending 5 "exp1" Scenario.q1_twenty
       (set_document (Some [("priority", VInt 5)]))
     = (Ok true,
        with_tasks Sample.db_pending
          [Sample.pendingA;
           PyDict.setitem "last_modified" (VDate 5)
             (PyDict.setitem "priority" (VInt 5) Sample.pendingB)])
  /\ Forall2
       (fun t t' =>
          if Mongo.matches t (VDict Scenario.q1_twenty) then
            PyDict.get "last_modified" t' = Some (VDate 5)
            /\ forall k x,
                 In (k, x) [("priority", VInt 5)] ->
                 k <> "last_modified" ->
                 Mongo.field k t' = Some x
          else t' = t)
       (tasks Sample.db_pending)
       (tasks
          (snd (update Sample.db_pending 5 "exp1" Scenario.q1_twenty
                  (set_document (Some [("priority", VInt 5)]))))).
Proof.
  split; [reflexivity|]. split; [reflexivity|]. split; [reflexivity|].
  split; [reflexivity|]. split; [reflexivity|]. split; [reflexivity|].
  exact (proj2
           (proj2
              (proj2
                 (proj2
                    (query_update_scope_check Sample.db_pending 5 "exp1"
                       Sample.exp1 Scenario.q1_twenty (VStr "Q1") eq_refl
                       eq_refl)
                    eq_refl eq_refl eq_refl))
              (Some [("priority", VInt 5)]))
           true eq_refl).
Defined.

(** The service adds no scope of its own: a filter without [queue_id] is
    not run under [sanitize_query]'s conjunction (which would give the two
    pending tasks of the queue); the call raises. *)
Lemma query_does_not_add_scope :
  let q := [("status", TaskState.PENDING)] in
  Mongo.find (sanitize_query "Q1" q) (tasks Sample.db_pending)
  = Ok [Sample.pendingA; Sample.pendingB]
  /\ query Sample.db_pending "exp1" q = Raise KeyError
  /\ query Sample.db_pending "exp1" q
     <> Mongo.find (sanitize_query "Q1" q) (tasks Sample.db_pending).
Proof. repeat split; try reflexivity. discriminate. Qed.

(** ** [$set] on top-level fields *)

Lemma apply_update_set (sets doc t : dict) :
  Mongo.apply_update [("$set", VDict sets)] doc = Some t ->
  Mongo.set_all sets doc = Some t.
Proof.
  unfold Mongo.apply_update, Mongo.apply_set. simpl.
  destruct (Mongo.conflict_free _); [|discriminate].
  destruct (Mongo.set_all sets doc) as [d'|]; [|discriminate].
  now destruct (Mongo.field_eq _ _).
Qed.

Lemma find_one_and_update_post_image (f u : dict) (spec : list (string * Z))
  (c ts : list dict) (t : dict) :
  Mongo.find_one_and_update f u spec c = Ok (ts, Some t) ->
  exists i d,
    Mongo.first_sorted spec f 0%nat c None = Some (i, d)
    /\ Mongo.apply_update u d = Some t
    /\ ts = Mongo.replace_nth i t c.
Proof.
  unfold Mongo.find_one_and_update.
  destruct (Mongo.filter_supported (VDict f) && Mongo.update_supported u);
    [|discriminate].
  destruct (Mongo.first_sorted spec f 0%nat c None) as [[i d]|];
    [|discriminate].
  destruct (Mongo.apply_update u d) as [d'|] eqn:E; [|discriminate].
  intros H. injection H as <- <-. now exists i, d.
Qed.

Ltac get_after_sets :=
  repeat (rewrite get_setitem_other by reflexivity);
  try rewrite get_setitem_same; try reflexivity.

(** ** [fetch_task] *)

(** The post-image [fetch_task] returns carries what its [$set] wrote. *)
Lemma fetch_task_claim_fields (parse_timeout : string -> result Z)
  (db db' : Db) (now : Z) (queue_name : string)
  (worker_id eta_max : option string) (extra_filter : option dict)
  (t : dict) :
  fetch_task parse_timeout db now queue_name worker_id eta_max extra_filter
  = (Ok (Some t), db') ->
  PyDict.get "status" t = Some TaskState.RUNNING
  /\ PyDict.get "worker_id" t = Some (opt_str worker_id)
  /\ PyDict.get "start_time" t = Some (VDate now)
  /\ PyDict.get "last_heartbeat" t = Some (VDate now).
Proof.
  unfold fetch_task.
  match goal with
  | |- context [match ?s with Ok _ => _ | Raise _ => _ end = _] =>
      destruct s as [task_timeout|e]
  end; [|discriminate].
  destruct (find_queue db queue_name) as [queue|]; [|discriminate].
  match goal with
  | |- context [match ?s with Ok _ => _ | Raise _ => _ end = _] =>
      destruct s as [_|e]
  end; [|discriminate].
  match goal with
  | |- context [Mongo.find_one_and_update ?f ?u ?sp ?c] =>
      destruct (Mongo.find_one_and_update f u sp c) as [[ts found]|e] eqn:E
  end; [|discriminate].
  intros H. injection H as -> _.
  apply find_one_and_update_post_image in E.
  destruct E as (i & d & _ & Hu & _).
  apply apply_update_set in Hu.
  destruct (truthy task_timeout); simpl in Hu; injection Hu as <-;
    repeat split; get_after_sets.
Qed.

(** C2: a task that [fetch_task] returns has status [RUNNING], the
    [worker_id] of the call (null when none was given), and [start_time] and
    [last_heartbeat] at the time of the claim. *)
Theorem fetch_task_returns_claimed (parse_timeout : string -> result Z)
  (db db' : Db) (now : Z) (queue_name : string)
  (worker_id eta_max : option string) (extra_filter : option dict)
  (t : dict) :
  fetch_task parse_timeout db now queue_name worker_id eta_max extra_filter
  = (Ok (Some t), db') ->
  PyDict.get "status" t = Some TaskState.RUNNING
  /\ PyDict.get "worker_id" t = Some (opt_str worker_id)
  /\ PyDict.get "start_time" t = Some (VDate now)
  /\ PyDict.get "last_heartbeat" t = Some (VDate now).
Proof. apply fetch_task_claim_fields. Qed.

Lemma fetch_task_returns_claimed_witness :
  exists t db',
    fetch_task Sample.parse_timeout Sample.db_pending 100 "exp1"
      (Some "W1") None None = (Ok (Some t), db')
    /\ PyDict.get "_id" t = Some (VStr "B")
    /\ PyDict.get "status" t = Some TaskState.RUNNING
    /\ PyDict.get "worker_id" t = Some (VStr "W1")
    /\ PyDict.get "start_time" t = Some (VDate 100)
    /\ PyDict.get "last_heartbeat" t = Some (VDate 100).
Proof.
  eexists. eexists. split; [vm_compute; reflexivity|].
  split; [reflexivity|].
  eapply (fetch_task_returns_claimed Sample.parse_timeout Sample.db_pending _
            100 "exp1" (Some "W1") None None).
  vm_compute. reflexivity.
Defined.

(** ** [delete_worker] *)

Lemma delete_first_found {A : Type} (p : A -> bool) (c : list A) (w : A) :
  List.find p c = Some w ->
  exists pre post,
    c = (pre ++ w :: post)%list /\ delete_first p c = ((pre ++ post)%list, 1).
Proof.
  induction c as [|x r IH]; simpl; [discriminate|].
  destruct (p x) eqn:E.
  - intros H. injection H as ->. now exists [], r.
  - intros H. destruct (IH H) as (pre & post & -> & Hd).
    exists (x :: pre), post. simpl. now rewrite Hd.
Qed.

Lemma field_eq_get_or_none (k s : string) (t : dict) :
  Mongo.field_eq (PyDict.get k t) (VStr s)
  = value_eqb (get_or_none k t) (VStr s).
Proof.
  unfold get_or_none.
  destruct (PyDict.get k t); simpl; [apply bson_eqb_str | reflexivity].
Qed.

Lemma matches_bound_to (qid wid : string) (t : dict) :
  Mongo.matches t (VDict [("queue_id", VStr qid); ("worker_id", VStr wid)])
  = bound_to qid wid t.
Proof.
  rewrite !matches_cons, matches_nil. unfold Mongo.clause. simpl.
  rewrite !field_top by reflexivity. rewrite andb_true_r.
  unfold bound_to. now rewrite !field_eq_get_or_none.
Qed.

Lemma id_kept (x : option value) :
  Mongo.field_eq x (match x with Some i => i | None => VNone end) = true.
Proof. destruct x; simpl; [apply bson_eqb_refl | reflexivity]. Qed.

Lemma cascade_apply (now : Z) (t : dict) :
  Mongo.apply_update
    [("$set", VDict [("worker_id", VNone); ("last_modified", VDate now)])] t
  = Some (unbind now t).
Proof.
  unfold Mongo.apply_update, Mongo.apply_set. simpl.
  rewrite !get_setitem_other by reflexivity. now rewrite id_kept.
Qed.

Lemma cascade_update_each (now : Z) (qid wid : string) (c : list dict) :
  exists n,
    Mongo.update_each
      [("queue_id", VStr qid); ("worker_id", VStr wid)]
      [("$set", VDict [("worker_id", VNone); ("last_modified", VDate now)])]
      c
    = (map (fun t => if bound_to qid wid t then unbind now t else t) c,
       Some n).
Proof.
  induction c as [|d r [n IH]]; [now exists 0|].
  cbn [Mongo.update_each map]. rewrite matches_bound_to, IH.
  destruct (bound_to qid wid d).
  - rewrite cascade_apply. eexists. reflexivity.
  - now exists n.
Qed.

(** C9: [delete_worker] with [cascade_update] removes the worker's record
    and rewrites exactly the tasks of the queue bound to this worker: their
    [worker_id] becomes null and [last_modified] the time of the call, and
    every other field (status, retries, start_time, last_heartbeat, ...)
    reads as before; all other tasks are as they were. *)
Theorem delete_worker_cascade (db : Db) (now : Z)
  (queue_name worker_id : string) (queue : Queue) (w : Worker) :
  find_queue db queue_name = Some queue ->
  find_worker db worker_id (q_id queue) = Some w ->
  exists pre post ts,
    workers db = (pre ++ w :: post)%list
    /\ delete_worker db now queue_name worker_id true
       = (Ok true, mkDb (queues db) ts (pre ++ post))
    /\ Forall2
         (fun t t' =>
            if bound_to (q_id queue) worker_id t then
              PyDict.get "worker_id" t' = Some VNone
              /\ PyDict.get "last_modified" t' = Some (VDate now)
              /\ (forall k,
                     k <> "worker_id" -> k <> "last_modified" ->
                     PyDict.get k t' = PyDict.get k t)
            else t' = t)
         (tasks db) ts.
Proof.
  intros Hq Hw. unfold find_worker in Hw.
  destruct (delete_first_found _ _ _ Hw) as (pre & post & Hws & Hd).
  destruct (cascade_update_each now (q_id queue) worker_id (tasks db))
    as [n Hn].
  exists pre, post.
  exists (map (fun t => if bound_to (q_id queue) worker_id t
                        then unbind now t else t) (tasks db)).
  split; [exact Hws|]. split.
  - unfold delete_worker. rewrite Hq, Hd. simpl.
    unfold Mongo.update_many.
    replace (Mongo.filter_supported _ && Mongo.update_supported _) with true
      by reflexivity.
    now rewrite Hn.
  - clear. induction (tasks db) as [|t r IH]; simpl; constructor;
      [|exact IH].
    destruct (bound_to (q_id queue) worker_id t); [|reflexivity].
    unfold unbind. repeat split.
    + now rewrite get_setitem_other, get_setitem_same.
    + apply get_setitem_same.
    + intros k H1 H2.
      rewrite !get_setitem_other; [reflexivity| |];
        now apply String.eqb_neq.
Qed.

Lemma delete_worker_cascade_witness :
  find_queue Sample.db_worker "exp1" = Some Sample.exp1
  /\ find_worker Sample.db_worker "W1" "Q1" = Some Sample.w1
  /\ exists pre post ts,
       workers Sample.db_worker = (pre ++ Sample.w1 :: post)%list
       /\ delete_worker Sample.db_worker 50 "exp1" "W1" true
          = (Ok true, mkDb (queues Sample.db_worker) ts (pre ++ post))
       /\ Forall2
            (fun t t' =>
               if bound_to "Q1" "W1" t then
                 PyDict.get "worker_id" t' = Some VNone
                 /\ PyDict.get "last_modified" t' = Some (VDate 50)
                 /\ (forall k,
                        k <> "worker_id" -> k <> "last_modified" ->
                        PyDict.get k t' = PyDict.get k t)
               else t' = t)
            (tasks Sample.db_worker) ts.
Proof.
  split; [reflexivity|]. split; [reflexivity|].
  apply (delete_worker_cascade Sample.db_worker 50 "exp1" "W1" Sample.exp1
           Sample.w1); reflexivity.
Defined.

(** ** The store's key *)

Lemma ids_unique_some (ts : list dict) (t : dict) :
  ids_unique ts = true -> In t ts -> exists s, id_str t = Some s.
Proof.
  induction ts as [|x r IH]; simpl; [contradiction|].
  destruct (id_str x) as [s|] eqn:E; [|discriminate].
  intros H [<-|Hin].
  - now exists s.
  - apply andb_prop in H. now apply IH.
Qed.

Lemma ids_unique_inj (ts : list dict) (a b : dict) :
  ids_unique ts = true -> In a ts -> In b ts ->
  id_str a = id_str b -> a = b.
Proof.
  induction ts as [|x r IH]; simpl; [contradiction|].
  destruct (id_str x) as [s|] eqn:E; [|discriminate].
  intros H Ha Hb Hab. apply andb_prop in H. destruct H as [Hx Hr].
  assert (Hno : forall y, In y r -> id_str y <> Some s).
  { intros y Hy Hys. apply negb_true_iff in Hx.
    assert (existsb (has_id s) r = true); [|congruence].
    apply existsb_exists. exists y. split; [exact Hy|].
    unfold has_id. rewrite Hys. apply String.eqb_refl. }
  destruct Ha as [<-|Ha], Hb as [<-|Hb].
  - reflexivity.
  - exfalso. apply (Hno b Hb). congruence.
  - exfalso. apply (Hno a Ha). congruence.
  - now apply IH.
Qed.

Lemma apply_update_id (u d d' : dict) :
  Mongo.apply_update u d = Some d' -> id_str d' = id_str d.
Proof.
  unfold Mongo.apply_update.
  destruct u as [|[op [| | | | | | |sets]] [|]]; try discriminate.
  destruct (String.eqb op "$set"); [|discriminate].
  unfold Mongo.apply_set.
  destruct (Mongo.conflict_free _); [|discriminate].
  destruct (Mongo.set_all sets d) as [x|]; [|discriminate].
  destruct (Mongo.field_eq _ _) eqn:E; [|discriminate].
  intros H. injection H as ->. unfold id_str.
  destruct (PyDict.get "_id" d') as [a|], (PyDict.get "_id" d) as [i|];
    simpl in E; try reflexivity.
  - destruct a, i; try discriminate; try reflexivity.
    apply String.eqb_eq in E. now subst.
  - now destruct a.
  - now destruct i.
Qed.

Lemma matches_id (s : string) (d : dict) :
  Mongo.matches d (VDict [("_id", VStr s)]) = has_id s d.
Proof.
  rewrite matches_cons, matches_nil, andb_true_r. unfold Mongo.clause.
  simpl. rewrite field_top by reflexivity. unfold has_id, id_str.
  destruct (PyDict.get "_id" d) as [[| | | | x | | |]|]; try reflexivity.
Qed.

(** [update_one] by [_id] keeps every key, and every document with another
    key as it is. *)
Lemma update_first_by_id (s : string) (u : dict) (ts ts' : list dict)
  (n : Z) :
  Mongo.update_first [("_id", VStr s)] u ts = Some (ts', n) ->
  map id_str ts' = map id_str ts
  /\ (forall i t,
         nth_error ts i = Some t -> id_str t <> Some s ->
         nth_error ts' i = Some t).
Proof.
  revert ts' n. induction ts as [|d r IH]; intros ts' n.
  - simpl. intros H. injection H as <- _. now split.
  - cbn [Mongo.update_first]. rewrite matches_id.
    destruct (has_id s d) eqn:Eh.
    + destruct (Mongo.apply_update u d) as [d'|] eqn:Eu; [|discriminate].
      intros H. injection H as <- _. split.
      * simpl. now rewrite (apply_update_id _ _ _ Eu).
      * intros [|i] t Hn Hs; simpl in *; [|exact Hn].
        injection Hn as <-. exfalso. apply Hs.
        unfold has_id in Eh. destruct (id_str d) as [s'|]; [|discriminate].
        apply String.eqb_eq in Eh. now subst.
    + destruct (Mongo.update_first [("_id", VStr s)] u r) as [[r' m]|] eqn:Er;
        [|discriminate].
      intros H. injection H as <- _.
      destruct (IH r' m eq_refl) as [Hm Hk]. split.
      * simpl. now rewrite Hm.
      * intros [|i] t Hn Hs; simpl in *; [exact Hn|]. now apply Hk.
Qed.

(** ** [handle_timeouts] *)

Lemma null_not_ne_null (k : string) (t : dict) :
  get_or_none k t = VNone -> ne_null (PyDict.get k t) = false.
Proof.
  unfold ne_null, get_or_none.
  destruct (PyDict.get k t) as [v|]; intros H; subst; reflexivity.
Qed.

Lemma untimed_not_selected (now : Z) (t : dict) :
  get_or_none "heartbeat_timeout" t = VNone ->
  get_or_none "task_timeout" t = VNone ->
  timed_out now t = false.
Proof.
  intros Hh Ht. unfold timed_out.
  rewrite (null_not_ne_null _ _ Hh), (null_not_ne_null _ _ Ht).
  rewrite andb_false_r. simpl. apply andb_false_r.
Qed.

Lemma id_str_get (t : dict) (s : string) :
  id_str t = Some s -> PyDict.get "_id" t = Some (VStr s).
Proof.
  unfold id_str.
  destruct (PyDict.get "_id" t) as [[| | | | x | | |]|]; try discriminate.
  now intros [= ->].
Qed.

Lemma sweep_one_by_id (now : Z) (s : string) (task : dict)
  (ts ts' : list dict) (b : bool) :
  sweep_one now (VStr s) task ts = Some (ts', b) ->
  exists u n, Mongo.update_first [("_id", VStr s)] u ts = Some (ts', n).
Proof.
  unfold sweep_one.
  destruct (PyDict.get "status" task) as [st|]; [|discriminate].
  destruct (TaskFSM.fail _) as [fsm|e]; [|discriminate].
  unfold Mongo.update_one.
  destruct (Mongo.filter_supported _ && Mongo.update_supported _);
    [|discriminate].
  match goal with
  | |- context [Mongo.update_first ?f ?u ts] =>
      destruct (Mongo.update_first f u ts) as [[ts1 n]|] eqn:E;
        [|discriminate]; intros H; injection H as <- _; now exists u, n
  end.
Qed.

(** The loop of the sweeper touches only the documents it found. *)
Lemma sweep_spares (now : Z) (found : list dict) :
  forall (ts : list dict) (acc : list value),
    (forall f, In f found -> exists s, id_str f = Some s) ->
    exists ids ts',
      sweep now found ts acc = (Ok ids, ts')
      /\ map id_str ts' = map id_str ts
      /\ (forall i t,
             nth_error ts i = Some t ->
             (forall f, In f found -> id_str f <> id_str t) ->
             nth_error ts' i = Some t)
      /\ (forall x,
             In x ids ->
             In x acc \/ exists f, In f found /\ PyDict.get "_id" f = Some x).
Proof.
  induction found as [|task rest IH]; intros ts acc Hids.
  - exists acc, ts. simpl. repeat split; auto.
  - destruct (Hids task (or_introl eq_refl)) as [s Hs].
    pose proof (id_str_get _ _ Hs) as Hg.
    assert (Hrest : forall f, In f rest -> exists s, id_str f = Some s).
    { intros f Hf. apply Hids. now right. }
    cbn [sweep]. rewrite Hg.
    destruct (sweep_one now (VStr s) task ts) as [[ts1 b]|] eqn:E.
    + destruct (sweep_one_by_id _ _ _ _ _ _ E) as (u & n & Hu).
      destruct (update_first_by_id _ _ _ _ _ Hu) as [Hm Hk].
      destruct (IH ts1 (if b then (acc ++ [VStr s])%list else acc) Hrest)
        as (ids & ts' & Hsw & Hm' & Hk' & Hin).
      exists ids, ts'. split; [now destruct b|].
      split; [congruence|]. split.
      * intros i t Hn Hne. apply Hk'.
        -- apply Hk; [exact Hn|]. intros Ht.
           apply (Hne task (or_introl eq_refl)). congruence.
        -- intros f Hf. apply Hne. now right.
      * intros x Hx. destruct (Hin x Hx) as [Ha|(f & Hf & Hfx)].
        -- destruct b; [|now left].
           apply in_app_or in Ha. destruct Ha as [Ha|[<-|[]]]; [now left|].
           right. exists task. split; [now left | exact Hg].
        -- right. exists f. split; [now right | exact Hfx].
    + destruct (IH ts acc Hrest) as (ids & ts' & Hsw & Hm' & Hk' & Hin).
      exists ids, ts'. split; [exact Hsw|]. split; [exact Hm'|]. split.
      * intros i t Hn Hne. apply Hk'; [exact Hn|].
        intros f Hf. apply Hne. now right.
      * intros x Hx. destruct (Hin x Hx) as [Ha|(f & Hf & Hfx)];
          [now left|].
        right. exists f. split; [now right | exact Hfx].
Qed.

(** C8: in a store whose tasks have distinct string ids, a running task
    whose [heartbeat_timeout] and [task_timeout] are both null (or absent)
    is not matched by the sweeper's query, whatever [now], [start_time] and
    [last_heartbeat] are; after [handle_timeouts] it is stored unchanged and
    its id is not among the ids returned. *)
Theorem handle_timeouts_spares_untimed (db : Db) (now : Z) (i : nat)
  (t : dict) :
  ids_unique (tasks db) = true ->
  nth_error (tasks db) i = Some t ->
  PyDict.get "status" t = Some TaskState.RUNNING ->
  get_or_none "heartbeat_timeout" t = VNone ->
  get_or_none "task_timeout" t = VNone ->
  timed_out now t = false
  /\ exists ids db',
       handle_timeouts db now = (Ok ids, db')
       /\ nth_error (tasks db') i = Some t
       /\ ~ In (get_or_none "_id" t) ids.
Proof.
  intros Hu Hn _ Hh Ht.
  pose proof (untimed_not_selected now t Hh Ht) as Hno.
  split; [exact Hno|].
  assert (Hfound : forall f, In f (filter (timed_out now) (tasks db)) ->
                             In f (tasks db) /\ f <> t).
  { intros f Hf. apply filter_In in Hf. destruct Hf as [Hf Hto].
    split; [exact Hf|]. intros ->. congruence. }
  assert (Hin : In t (tasks db)) by (eapply nth_error_In; eauto).
  destruct (sweep_spares now (filter (timed_out now) (tasks db))
              (tasks db) [])
    as (ids & ts' & Hsw & _ & Hk & Hids).
  { intros f Hf. apply (ids_unique_some (tasks db)); [exact Hu|].
    now apply Hfound. }
  exists ids, (with_tasks db ts'). unfold handle_timeouts. rewrite Hsw.
  split; [reflexivity|]. split.
  - simpl. apply Hk; [exact Hn|].
    intros f Hf Heq. destruct (Hfound f Hf) as [Hf1 Hf2]. apply Hf2.
    now apply (ids_unique_inj (tasks db)).
  - intros Hi. destruct (Hids _ Hi) as [[]|(f & Hf & Hfx)].
    destruct (Hfound f Hf) as [Hf1 Hf2]. apply Hf2.
    apply (ids_unique_inj (tasks db)); auto.
    destruct (ids_unique_some _ _ Hu Hin) as [s Hs].
    unfold get_or_none in Hfx. rewrite (id_str_get _ _ Hs) in Hfx.
    rewrite Hs. unfold id_str. now rewrite Hfx.
Qed.

Lemma handle_timeouts_spares_untimed_witness :
  ids_unique (tasks Sample.db_sweep) = true
  /\ nth_error (tasks Sample.db_sweep) 0 = Some Sample.runningD
  /\ timed_out 100000 Sample.runningD = false
  /\ exists ids db',
       handle_timeouts Sample.db_sweep 100000 = (Ok ids, db')
       /\ nth_error (tasks db') 0 = Some Sample.runningD
       /\ ~ In (get_or_none "_id" Sample.runningD) ids.
Proof.
  split; [reflexivity|]. split; [reflexivity|].
  apply (handle_timeouts_spares_untimed Sample.db_sweep 100000 0
           Sample.runningD); reflexivity.
Defined.

(** ** [sanitize_update] *)



(** ** What one [$set] leaves in a top-level field *)

Lemma set_path_other (k : string) (p : list string) (v : value)
  (d d' : dict) :
  Mongo.is_prefix [k] p = false ->
  Mongo.set_path p v d = Some d' ->
  PyDict.get k d' = PyDict.get k d.
Proof.
  destruct p as [|k1 rest]; simpl; [discriminate|].
  rewrite andb_true_r. intros Hne.
  destruct rest as [|k2 rest].
  - intros [= <-]. now apply get_setitem_other.
  - destruct (PyDict.get k1 d) as [[| | | | | | |sub]|]; try discriminate.
    + destruct (Mongo.set_path (k2 :: rest) v sub) as [sub'|];
        [|discriminate].
      intros [= <-]. now apply get_setitem_other.
    + destruct (Mongo.set_path (k2 :: rest) v []) as [sub'|];
        [|discriminate].
      intros [= <-]. now apply get_setitem_other.
Qed.

Lemma set_all_other (k : string) (sets : dict) :
  forall d d',
    (forall kv, In kv sets -> Mongo.is_prefix [k] (Mongo.path_of (fst kv))
                              = false) ->
    Mongo.set_all sets d = Some d' ->
    PyDict.get k d' = PyDict.get k d.
Proof.
  induction sets as [|[k0 v0] r IH]; intros d d' Hno; simpl.
  - now intros [= <-].
  - destruct (Mongo.set_path (Mongo.path_of k0) v0 d) as [d1|] eqn:E;
      [|discriminate].
    intros H. rewrite (IH d1 d'); [| |exact H].
    + apply (set_path_other k (Mongo.path_of k0) v0); [|exact E].
      apply (Hno (k0, v0)). now left.
    + intros kv Hkv. apply Hno. now right.
Qed.

Lemma is_prefix_top_sym (k : string) (p : list string) :
  negb (Mongo.is_prefix [k] p || Mongo.is_prefix p [k]) = true ->
  Mongo.is_prefix [k] p = false.
Proof.
  destruct (Mongo.is_prefix [k] p); [discriminate|reflexivity].
Qed.

(** In a [$set] the store accepts, a top-level key ends up with the value
    given for it. *)
Lemma set_all_top (k : string) (v : value) (sets : dict) :
  forall d d',
    Mongo.conflict_free (map (fun kv => Mongo.path_of (fst kv)) sets) = true ->
    Mongo.path_of k = [k] ->
    In (k, v) sets ->
    Mongo.set_all sets d = Some d' ->
    PyDict.get k d' = Some v.
Proof.
  induction sets as [|[k0 v0] r IH]; intros d d' Hcf Hp Hin; [contradiction|].
  simpl in Hcf. apply andb_prop in Hcf. destruct Hcf as [Hhd Hcf].
  simpl. destruct (Mongo.set_path (Mongo.path_of k0) v0 d) as [d1|] eqn:E;
    [|discriminate].
  intros H. destruct Hin as [Heq|Hin].
  - injection Heq as -> ->. rewrite Hp in E. simpl in E. injection E as <-.
    rewrite (set_all_other k r (PyDict.setitem k v d) d');
      [apply get_setitem_same| |exact H].
    intros kv Hkv. rewrite forallb_forall in Hhd.
    specialize (Hhd (Mongo.path_of (fst kv))).
    rewrite Hp in Hhd. apply is_prefix_top_sym. apply Hhd.
    apply in_map_iff. now exists kv.
  - now apply (IH d1 d').
Qed.

Lemma update_first_shape (f u : dict) (ts : list dict) :
  forall ts' n,
    Mongo.update_first f u ts = Some (ts', n) ->
    Forall2 (fun t t' => t' = t \/ Mongo.apply_update u t = Some t') ts ts'.
Proof.
  induction ts as [|d r IH]; intros ts' n; cbn [Mongo.update_first].
  - intros [= <- _]. constructor.
  - destruct (Mongo.matches d (VDict f)).
    + destruct (Mongo.apply_update u d) as [d'|] eqn:E; [|discriminate].
      intros [= <- _]. constructor; [now right|].
      clear. induction r; constructor; auto.
    + destruct (Mongo.update_first f u r) as [[r' m]|]; [|discriminate].
      intros [= <- _]. constructor; [now left|]. now apply (IH r' m).
Qed.


(** ** [update_task_and_reset_pending] *)

Lemma matches_task_of (task_id qid : string) (t : dict) :
  Mongo.matches t (VDict [("_id", VStr task_id); ("queue_id", VStr qid)])
  = value_eqb (get_or_none "_id" t) (VStr task_id)
    && value_eqb (get_or_none "queue_id" t) (VStr qid).
Proof.
  rewrite !matches_cons, matches_nil, andb_true_r. unfold Mongo.clause.
  simpl. rewrite !field_top by reflexivity.
  now rewrite !field_eq_get_or_none.
Qed.

Lemma Forall2_same {A : Type} (R : A -> A -> Prop) (l : list A) :
  (forall a, R a a) -> Forall2 R l l.
Proof. intros H. induction l; constructor; auto. Qed.






(** ** Where the code leaves the specification *)

(** C1 (the code at the failing input): [extra_filter] is spread over the
    base query after [queue_id] and [status], so its entries replace them.
    With [extra_filter = {"status": "running"}] the task C, which is RUNNING
    and bound to W1 since time 5, is claimed again: it comes back with a new
    [start_time] and no worker, though no task of the queue is PENDING. *)
Theorem fetch_task_extra_filter_overrides_status :
  PyDict.get "status" Sample.runningC = Some TaskState.RUNNING
  /\ fetch_task Sample.parse_timeout Sample.db_running 100 "exp1" None None
       None
     = (Ok None, Sample.db_running)
  /\ exists t,
       fetch_task Sample.parse_timeout Sample.db_running 100 "exp1" None None
         (Some [("status", TaskState.RUNNING)])
       = (Ok (Some t), with_tasks Sample.db_running [t])
       /\ PyDict.get "_id" t = Some (VStr "C")
       /\ PyDict.get "start_time" t = Some (VDate 100)
       /\ PyDict.get "worker_id" t = Some VNone.
Proof.
  split; [reflexivity|]. split; [reflexivity|].
  eexists. split; [vm_compute; reflexivity|]. repeat split.
Qed.

(** The same spread lets [extra_filter] replace the queue scope: a fetch on
    queue exp1 claims task F of the other queue. *)
Lemma fetch_task_extra_filter_overrides_queue :
  PyDict.get "queue_id" Sample.pendingF = Some (VStr "Q2")
  /\ q_id Sample.exp1 = "Q1"
  /\ exists t,
       fetch_task Sample.parse_timeout Sample.db_two_queues 100 "exp1" None
         None (Some [("queue_id", VStr "Q2")])
       = (Ok (Some t), with_tasks Sample.db_two_queues [t])
       /\ PyDict.get "_id" t = Some (VStr "F")
       /\ PyDict.get "status" t = Some TaskState.RUNNING.
Proof.
  split; [reflexivity|]. split; [reflexivity|].
  eexists. split; [vm_compute; reflexivity|]. repeat split.
Qed.

(** C3 (the code at the failing input): [cancel_task] writes the status
    only.  Task A, last modified at time 0, is CANCELLED afterwards and its
    [last_modified] still reads 0. *)
Theorem cancel_task_keeps_last_modified :
  PyDict.get "last_modified" Sample.pendingA = Some (VDate 0)
  /\ exists t,
       cancel_task Sample.db_pending "exp1" "A"
       = (Ok true, with_tasks Sample.db_pending [t; Sample.pendingB])
       /\ PyDict.get "status" t = Some TaskState.CANCELLED
       /\ PyDict.get "last_modified" t = Some (VDate 0).
Proof.
  split; [reflexivity|].
  eexists. split; [vm_compute; reflexivity|]. split; reflexivity.
Qed.

(** No call of [cancel_task] changes [last_modified] of any task. *)
Lemma cancel_task_never_stamps (db : Db) (queue_name task_id : string) :
  Forall2
    (fun t t' => PyDict.get "last_modified" t' = PyDict.get "last_modified" t)
    (tasks db) (tasks (snd (cancel_task db queue_name task_id))).
Proof.
  assert (Hsame : forall ts : list dict,
             Forall2
               (fun t t' =>
                  PyDict.get "last_modified" t'
                  = PyDict.get "last_modified" t) ts ts).
  { induction ts; constructor; auto. }
  unfold cancel_task.
  destruct (find_queue db queue_name) as [queue|]; [|apply Hsame].
  match goal with
  | |- context [Mongo.update_one ?f ?u ?c] =>
      destruct (Mongo.update_one f u c) as [[ts n]|e] eqn:E
  end; simpl; [|apply Hsame].
  unfold Mongo.update_one in E.
  destruct (Mongo.filter_supported _ && Mongo.update_supported _);
    [|discriminate].
  match type of E with
  | context [Mongo.update_first ?f ?u ?c] =>
      destruct (Mongo.update_first f u c) as [[ts1 m]|] eqn:Ef; [|discriminate]
  end.
  injection E as <- _. apply update_first_shape in Ef.
  eapply Forall2_impl; [|exact Ef].
  intros t t' [->|Hu]; [reflexivity|].
  apply apply_update_set in Hu. simpl in Hu. injection Hu as <-.
  now apply get_setitem_other.
Qed.

(** C4 (the code at the failing input): [dict.update] returns [None], and
    that is what [update_queue] stores.  Merging [{"b": 2}] into the metadata
    [{"owner": "ann"}] of queue exp1 leaves the queue with null metadata. *)
Theorem update_queue_metadata_becomes_null :
  q_metadata Sample.exp1 = VDict [("owner", VStr "ann")]
  /\ PyDict.update [("owner", VStr "ann")] [("b", VInt 2)]
     = [("owner", VStr "ann"); ("b", VInt 2)]
  /\ update_queue Sample.hash_password Sample.db_pending 7 "exp1" None None
       (Some [("b", VInt 2)])
     = (Ok true,
        mkDb
          [mkQueue "Q1" "exp1" "hashed:pw123" 0 7 VNone; Sample.other]
          (tasks Sample.db_pending) (workers Sample.db_pending)).
Proof. repeat split. Qed.

(** Whenever [update_queue] gets a non-empty [metadata_update] and writes
    the queue, the metadata written is null. *)
Lemma update_queue_never_merges (hash_password : string -> string)
  (db db' : Db) (now : Z) (queue_name : string)
  (new_queue_name new_password : option string) (k : string) (v : value)
  (m : dict) (b : bool) (queue : Queue) :
  find_queue db queue_name = Some queue ->
  update_queue hash_password db now queue_name new_queue_name new_password
    (Some ((k, v) :: m)) = (Ok b, db') ->
  exists q',
    In q' (queues db') /\ q_id q' = q_id queue /\ q_metadata q' = VNone.
Proof.
  intros Hq. unfold update_queue. rewrite Hq. simpl.
  destruct (q_metadata queue); try discriminate.
  destruct (existsb _ _); [discriminate|].
  match goal with
  | |- context [replace_queue ?i ?q ?c] =>
      destruct (replace_queue i q c) as [qs n] eqn:E;
        assert (Hin : In q qs)
  end.
  { unfold find_queue in Hq. revert qs n E.
    induction (queues db) as [|x r IH]; intros qs n; simpl in *;
      [discriminate|].
    destruct (String.eqb (q_queue_name x) queue_name) eqn:En.
    - injection Hq as ->. rewrite String.eqb_refl.
      intros [= <- _]. now left.
    - destruct (String.eqb (q_id x) (q_id queue)).
      + intros [= <- _]. now left.
      + destruct (replace_queue _ _ r) as [r' m'] eqn:Er.
        intros [= <- _]. right. now apply (IH Hq r' m'). }
  intros [= _ <-]. eexists. split; [exact Hin|]. split; reflexivity.
Qed.

(** ** The order in which [fetch_task] claims *)

Lemma bson_compare_int (a b : Z) :
  Mongo.bson_compare (Some (VInt a)) (Some (VInt b)) = Z.compare a b.
Proof.
  unfold Mongo.bson_compare. simpl. unfold Qcompare. simpl.
  now rewrite !Z.mul_1_r.
Qed.

Lemma bson_compare_date (a b : Z) :
  Mongo.bson_compare (Some (VDate a)) (Some (VDate b)) = Z.compare a b.
Proof. reflexivity. Qed.

Lemma sort_keys_fields (t : dict) (p c : Z) :
  sort_keys t = Some (p, c) ->
  PyDict.get "priority" t = Some (VInt p)
  /\ PyDict.get "created_at" t = Some (VDate c).
Proof.
  unfold sort_keys, priority_of, created_of.
  destruct (PyDict.get "priority" t) as [[| | x | | | | |]|]; try discriminate.
  destruct (PyDict.get "created_at" t) as [[| | | | | y | |]|];
    try discriminate.
  now intros [= -> ->].
Qed.

(** Priority descending, then creation date ascending. *)
Lemma sorts_before_keys (a b : dict) (pa ca pb cb : Z) :
  sort_keys a = Some (pa, ca) ->
  sort_keys b = Some (pb, cb) ->
  Mongo.sorts_before fetch_sort a b
  = (pb <? pa) || ((pa =? pb) && (ca <? cb)).
Proof.
  intros Ha Hb.
  destruct (sort_keys_fields _ _ _ Ha) as [Hpa Hca].
  destruct (sort_keys_fields _ _ _ Hb) as [Hpb Hcb].
  unfold fetch_sort. cbn [Mongo.sorts_before].
  rewrite !field_top by reflexivity.
  rewrite Hpa, Hpb, Hca, Hcb, bson_compare_int, bson_compare_date.
  destruct (Z.compare_spec pa pb) as [E|E|E].
  - subst. rewrite Z.ltb_irrefl, Z.eqb_refl. simpl.
    destruct (Z.compare_spec ca cb) as [F|F|F]; symmetry.
    + subst. apply Z.ltb_irrefl.
    + now apply Z.ltb_lt.
    + apply Z.ltb_ge. lia.
  - simpl. symmetry. apply orb_false_iff. split.
    + apply Z.ltb_ge. lia.
    + apply andb_false_iff. left. apply Z.eqb_neq. lia.
  - simpl. symmetry. apply orb_true_iff. left. apply Z.ltb_lt. lia.
Qed.

Lemma nth_error_snoc {A : Type} (l r : list A) (x : A) :
  nth_error (l ++ x :: r) (length l) = Some x.
Proof. induction l; simpl; auto. Qed.

(** [first_sorted] yields a matching document that no matching document
    sorts before, when the order is one. *)
Lemma first_sorted_inv (spec : list (string * Z)) (f : dict)
  (c : list dict) :
  forall (seen : list dict) (best : option (nat * dict)),
    (forall a, In a (seen ++ c) -> Mongo.matches a (VDict f) = true ->
               Mongo.sorts_before spec a a = false) ->
    (forall a b d,
        In a (seen ++ c) -> In b (seen ++ c) -> In d (seen ++ c) ->
        Mongo.matches a (VDict f) = true ->
        Mongo.matches b (VDict f) = true ->
        Mongo.matches d (VDict f) = true ->
        Mongo.sorts_before spec a b = true ->
        Mongo.sorts_before spec b d = true ->
        Mongo.sorts_before spec a d = true) ->
    match best with
    | None => forall a, In a seen -> Mongo.matches a (VDict f) = false
    | Some (j, b) =>
        nth_error (seen ++ c) j = Some b
        /\ Mongo.matches b (VDict f) = true
        /\ (forall a, In a seen -> Mongo.matches a (VDict f) = true ->
                      Mongo.sorts_before spec a b = false)
    end ->
    match Mongo.first_sorted spec f (length seen) c best with
    | None => forall a, In a (seen ++ c) -> Mongo.matches a (VDict f) = false
    | Some (j, b) =>
        nth_error (seen ++ c) j = Some b
        /\ Mongo.matches b (VDict f) = true
        /\ (forall a, In a (seen ++ c) -> Mongo.matches a (VDict f) = true ->
                      Mongo.sorts_before spec a b = false)
    end.
Proof.
  induction c as [|d r IH]; intros seen best Hirr Htr Hbest.
  - simpl. rewrite app_nil_r in *. exact Hbest.
  - cbn [Mongo.first_sorted].
    assert (Hsplit : (seen ++ d :: r = (seen ++ [d]) ++ r)%list)
      by now rewrite <- app_assoc.
    assert (Hlen : S (length seen) = length (seen ++ [d])%list)
      by (rewrite length_app; simpl; lia).
    assert (Hd : In d (seen ++ d :: r)) by (apply in_or_app; right; now left).
    assert (Hseen : forall a, In a seen -> In a (seen ++ d :: r))
      by (intros a Ha; apply in_or_app; now left).
    rewrite Hlen, Hsplit. apply IH.
    + now rewrite <- Hsplit.
    + now rewrite <- Hsplit.
    + rewrite <- Hsplit.
      destruct (Mongo.matches d (VDict f)) eqn:Em.
      * destruct best as [[j b]|].
        -- destruct Hbest as (Hn & Hm & Hmin).
           assert (Hb : In b (seen ++ d :: r))
             by (eapply nth_error_In; eauto).
           destruct (Mongo.sorts_before spec d b) eqn:Es.
           ++ split; [apply nth_error_snoc|]. split; [exact Em|].
              intros a Ha Hma. apply in_app_or in Ha.
              destruct Ha as [Ha|[<-|[]]]; [|now apply Hirr].
              destruct (Mongo.sorts_before spec a d) eqn:Ead; [|reflexivity].
              rewrite <- (Hmin a Ha Hma). symmetry.
              apply (Htr a d b); auto.
           ++ split; [exact Hn|]. split; [exact Hm|].
              intros a Ha Hma. apply in_app_or in Ha.
              destruct Ha as [Ha|[<-|[]]]; [now apply Hmin | exact Es].
        -- split; [apply nth_error_snoc|]. split; [exact Em|].
           intros a Ha Hma. apply in_app_or in Ha.
           destruct Ha as [Ha|[<-|[]]]; [|now apply Hirr].
           rewrite (Hbest a Ha) in Hma. discriminate.
      * destruct best as [[j b]|].
        -- destruct Hbest as (Hn & Hm & Hmin).
           split; [exact Hn|]. split; [exact Hm|].
           intros a Ha Hma. apply in_app_or in Ha.
           destruct Ha as [Ha|[<-|[]]]; [now apply Hmin|congruence].
        -- intros a Ha. apply in_app_or in Ha.
           destruct Ha as [Ha|[<-|[]]]; [now apply Hbest | exact Em].
Qed.

Lemma first_sorted_fetch (f : dict) (c : list dict) :
  (forall a, In a c -> has_sort_keys a = true) ->
  match Mongo.first_sorted fetch_sort f 0%nat c None with
  | None => forall a, In a c -> Mongo.matches a (VDict f) = false
  | Some (j, b) =>
      nth_error c j = Some b
      /\ Mongo.matches b (VDict f) = true
      /\ (forall a, In a c -> Mongo.matches a (VDict f) = true ->
                    Mongo.sorts_before fetch_sort a b = false)
  end.
Proof.
  intros Hk.
  assert (Hkeys : forall a, In a c -> exists p q, sort_keys a = Some (p, q)).
  { intros a Ha. specialize (Hk a Ha). unfold has_sort_keys in Hk.
    destruct (sort_keys a) as [[p q]|]; [|discriminate]. now exists p, q. }
  apply (first_sorted_inv fetch_sort f c [] None).
  - intros a Ha _. destruct (Hkeys a Ha) as (p & q & E).
    rewrite (sorts_before_keys a a p q p q E E).
    rewrite !Z.ltb_irrefl. now rewrite andb_false_r.
  - intros a b d Ha Hb Hd _ _ _.
    destruct (Hkeys a Ha) as (pa & ca & Ea).
    destruct (Hkeys b Hb) as (pb & cb & Eb).
    destruct (Hkeys d Hd) as (pd & cd & Ed).
    rewrite (sorts_before_keys a b pa ca pb cb Ea Eb).
    rewrite (sorts_before_keys b d pb cb pd cd Eb Ed).
    rewrite (sorts_before_keys a d pa ca pd cd Ea Ed).
    rewrite !orb_true_iff, !andb_true_iff, !Z.ltb_lt, !Z.eqb_eq. lia.
  - intros a [].
Qed.

Lemma setitem_fresh (k : string) (v : value) (d : dict) :
  PyDict.get k d = None -> PyDict.setitem k v d = (d ++ [(k, v)])%list.
Proof.
  induction d as [|[k' v'] r IH]; simpl; [reflexivity|].
  destruct (String.eqb k k'); [discriminate|].
  intros H. now rewrite IH.
Qed.

Lemma get_app (k : string) (a b : dict) :
  PyDict.get k (a ++ b)
  = match PyDict.get k a with
    | Some v => Some v
    | None => PyDict.get k b
    end.
Proof.
  induction a as [|[k' v'] r IH]; simpl; [reflexivity|].
  now destruct (String.eqb k k').
Qed.

Lemma get_none_not_key (k : string) (d : dict) :
  PyDict.get k d = None -> forall k', In k' (PyDict.keys d) -> k' <> k.
Proof.
  induction d as [|[k0 v0] r IH]; simpl; [contradiction|].
  destruct (String.eqb k k0) eqn:E; [discriminate|].
  intros H k' [<-|Hin].
  - apply String.eqb_neq in E. congruence.
  - now apply IH.
Qed.

(** Spreading a dictionary whose keys are new appends its entries. *)
Lemma update_fresh (extra : dict) :
  forall base,
    keys_unique extra = true ->
    (forall k, In k (PyDict.keys extra) -> PyDict.get k base = None) ->
    PyDict.update base extra = (base ++ extra)%list.
Proof.
  unfold PyDict.update.
  induction extra as [|[k v] r IH]; intros base Hu Hn; simpl.
  - now rewrite app_nil_r.
  - simpl in Hu. apply andb_prop in Hu. destruct Hu as [Hk Hr].
    rewrite setitem_fresh by (apply Hn; now left).
    rewrite IH; [now rewrite <- app_assoc | exact Hr |].
    intros k' Hk'. rewrite get_app, (Hn k') by now right.
    simpl. destruct (String.eqb k' k) eqn:E; [|reflexivity].
    apply String.eqb_eq in E. subst k'.
    apply negb_true_iff in Hk. unfold PyDict.contains in Hk.
    destruct (PyDict.get k r) eqn:Eg; [discriminate|].
    exfalso. now apply (get_none_not_key k r Eg k).
Qed.

Lemma matches_app (t : dict) (a b : dict) :
  Mongo.matches t (VDict (a ++ b))
  = Mongo.matches t (VDict a) && Mongo.matches t (VDict b).
Proof.
  induction a as [|[k c] r IH]; [reflexivity|].
  simpl app. rewrite !matches_cons, IH. now rewrite andb_assoc.
Qed.

Lemma matches_pending_in (qid : string) (t : dict) :
  Mongo.matches t
    (VDict [("queue_id", VStr qid); ("status", TaskState.PENDING)])
  = pending_in qid t.
Proof.
  rewrite !matches_cons, matches_nil. unfold Mongo.clause. simpl.
  rewrite !field_top by reflexivity. rewrite andb_true_r.
  unfold pending_in, TaskState.PENDING. now rewrite !field_eq_get_or_none.
Qed.

(** The query of [fetch_task] when [extra_filter] is a dictionary that
    names neither [queue_id] nor [status]. *)
Lemma fetch_query_scoped (qid : string) (extra : dict) (t : dict) :
  keys_unique extra = true ->
  PyDict.get "queue_id" extra = None ->
  PyDict.get "status" extra = None ->
  Mongo.matches t
    (VDict (PyDict.update
              [("queue_id", VStr qid); ("status", TaskState.PENDING)] extra))
  = pending_in qid t && Mongo.matches t (VDict extra).
Proof.
  intros Hu Hq Hs. rewrite update_fresh; [| exact Hu |].
  - now rewrite matches_app, matches_pending_in.
  - intros k Hk. simpl.
    destruct (String.eqb k "queue_id") eqn:E1.
    { apply String.eqb_eq in E1. subst.
      exfalso. now apply (get_none_not_key _ _ Hq "queue_id"). }
    destruct (String.eqb k "status") eqn:E2; [|reflexivity].
    apply String.eqb_eq in E2. subst.
    exfalso. now apply (get_none_not_key _ _ Hs "status").
Qed.

Lemma with_tasks_same (db : Db) : with_tasks db (tasks db) = db.
Proof. now destruct db. Qed.

(** What holds of [fetch_task] when [extra_filter] leaves [queue_id] and
    [status] alone, on tasks that carry their sort keys: a returned task is
    the claimed image of a pending task of the resolved queue that matches
    [extra_filter]; no such task has a higher priority, or the same priority
    and an earlier creation date; the store differs at this task only.  With
    no such task the result is null and the store is as before. *)
Lemma fetch_task_first_pending (parse_timeout : string -> result Z)
  (db db' : Db) (now : Z) (queue_name : string) (queue : Queue)
  (worker_id eta_max : option string) (extra_filter : option dict)
  (found : option dict) :
  find_queue db queue_name = Some queue ->
  keys_unique (or_empty extra_filter) = true ->
  PyDict.get "queue_id" (or_empty extra_filter) = None ->
  PyDict.get "status" (or_empty extra_filter) = None ->
  forallb has_sort_keys (tasks db) = true ->
  fetch_task parse_timeout db now queue_name worker_id eta_max extra_filter
  = (Ok found, db') ->
  match found with
  | None =>
      db' = db
      /\ forall t,
           In t (tasks db) ->
           pending_in (q_id queue) t
           && Mongo.matches t (VDict (or_empty extra_filter)) = false
  | Some t' =>
      exists i d p c,
        nth_error (tasks db) i = Some d
        /\ pending_in (q_id queue) d = true
        /\ Mongo.matches d (VDict (or_empty extra_filter)) = true
        /\ sort_keys d = Some (p, c)
        /\ (forall a pa ca,
               In a (tasks db) ->
               pending_in (q_id queue) a = true ->
               Mongo.matches a (VDict (or_empty extra_filter)) = true ->
               sort_keys a = Some (pa, ca) ->
               pa < p \/ (pa = p /\ c <= ca))
        /\ (forall k,
               existsb (String.eqb k) fetch_written = false ->
               PyDict.get k t' = PyDict.get k d)
        /\ tasks db' = Mongo.replace_nth i t' (tasks db)
  end.
Proof.
  intros Hq Hu Hnq Hns Hkeys. rewrite forallb_forall in Hkeys.
  unfold fetch_task.
  match goal with
  | |- context [match ?s with Ok _ => _ | Raise _ => _ end = _] =>
      destruct s as [task_timeout|e]
  end; [|discriminate].
  rewrite Hq.
  match goal with
  | |- context [match ?s with Ok _ => _ | Raise _ => _ end = _] =>
      destruct s as [_|e]
  end; [|discriminate].
  match goal with
  | |- context [Mongo.find_one_and_update ?f ?u ?sp ?c] =>
      remember f as query eqn:Equery; remember u as upd eqn:Eupd;
        destruct (Mongo.find_one_and_update query upd sp c)
        as [[ts fd]|e] eqn:E
  end; [|discriminate].
  intros H. injection H as <- <-.
  unfold Mongo.find_one_and_update in E.
  destruct (Mongo.filter_supported _ && Mongo.update_supported _);
    [|discriminate].
  pose proof (first_sorted_fetch query (tasks db) Hkeys) as Hfirst.
  assert (Hm : forall t,
             Mongo.matches t (VDict query)
             = pending_in (q_id queue) t
               && Mongo.matches t (VDict (or_empty extra_filter))).
  { intros t. subst query. now apply fetch_query_scoped. }
  destruct (Mongo.first_sorted fetch_sort query 0%nat (tasks db) None)
    as [[i d]|].
  - destruct (Mongo.apply_update upd d) as [d'|] eqn:Ea; [|discriminate].
    injection E as <- <-.
    destruct Hfirst as (Hn & Hmd & Hmin).
    rewrite Hm in Hmd. apply andb_prop in Hmd. destruct Hmd as [Hp Hx].
    assert (Hin : In d (tasks db)) by (eapply nth_error_In; eauto).
    pose proof (Hkeys d Hin) as Hk. unfold has_sort_keys in Hk.
    destruct (sort_keys d) as [[p c]|] eqn:Ed; [|discriminate].
    exists i, d, p, c. repeat split; auto.
    + intros a pa ca Ha Hpa Hxa Eka.
      specialize (Hmin a Ha). rewrite Hm, Hpa, Hxa in Hmin.
      specialize (Hmin eq_refl).
      rewrite (sorts_before_keys a d pa ca p c Eka Ed) in Hmin.
      apply orb_false_iff in Hmin. destruct Hmin as [H1 H2].
      apply Z.ltb_ge in H1. apply andb_false_iff in H2.
      destruct H2 as [H2|H2]; [apply Z.eqb_neq in H2 | apply Z.ltb_ge in H2];
        lia.
    + intros k Hk'. subst upd. apply apply_update_set in Ea.
      simpl in Hk'.
      repeat (apply orb_false_iff in Hk'; destruct Hk' as [? Hk']).
      destruct (truthy task_timeout); simpl in Ea; injection Ea as <-;
        now rewrite !get_setitem_other by assumption.
  - injection E as <- <-. split; [apply with_tasks_same|].
    intros t Ht. rewrite <- Hm. now apply Hfirst.
Qed.

Lemma fetch_task_first_pending_example :
  exists t',
    fetch_task Sample.parse_timeout Sample.db_pending 100 "exp1" None None None
    = (Ok (Some t'), with_tasks Sample.db_pending [Sample.pendingA; t'])
    /\ PyDict.get "_id" t' = Some (VStr "B")
    /\ sort_keys Sample.pendingA = Some (10, 0)
    /\ sort_keys Sample.pendingB = Some (20, 1).
Proof.
  eexists. split; [vm_compute; reflexivity|]. repeat split.
Qed.

Lemma nth_error_replace_same (i : nat) (x : dict) (c : list dict) (d : dict) :
  nth_error c i = Some d ->
  nth_error (Mongo.replace_nth i x c) i = Some x.
Proof.
  revert i. induction c as [|y r IH]; intros [|i]; simpl; try discriminate.
  - reflexivity.
  - apply IH.
Qed.

Lemma nth_error_replace_other (i j : nat) (x : dict) (c : list dict) :
  i <> j ->
  nth_error (Mongo.replace_nth i x c) j = nth_error c j.
Proof.
  revert i j. induction c as [|y r IH]; intros [|i] [|j] H; simpl;
    try reflexivity; try contradiction.
  apply IH. congruence.
Qed.

Lemma map_replace_nth {A : Type} (g : dict -> A) (i : nat) (x d : dict)
  (c : list dict) :
  nth_error c i = Some d -> g x = g d ->
  map g (Mongo.replace_nth i x c) = map g c.
Proof.
  revert i. induction c as [|y r IH]; intros [|i]; simpl; try discriminate.
  - intros [= ->] Hg. now rewrite Hg.
  - intros Hn Hg. now rewrite IH.
Qed.

Lemma in_replace_nth (i : nat) (x a : dict) (c : list dict) :
  In a (Mongo.replace_nth i x c) -> a = x \/ In a c.
Proof.
  revert i. induction c as [|y r IH]; intros [|i]; simpl; auto.
  - intros [<-|H]; auto.
  - intros [<-|H]; auto. destruct (IH i H); auto.
Qed.

Lemma fetch_task_keeps_queues (parse_timeout : string -> result Z)
  (db db' : Db) (now : Z) (queue_name : string)
  (worker_id eta_max : option string) (extra_filter : option dict)
  (r : result (option dict)) :
  fetch_task parse_timeout db now queue_name worker_id eta_max extra_filter
  = (r, db') ->
  queues db' = queues db /\ workers db' = workers db.
Proof.
  unfold fetch_task.
  repeat match goal with
         | |- context [match ?s with Ok _ => _ | Raise _ => _ end = _] =>
             destruct s
         | |- context [match find_queue ?a ?b with _ => _ end] =>
             destruct (find_queue a b)
         | |- context [let '(_, _) := ?p in _] => destruct p
         end;
    intros [= _ <-]; now split.
Qed.

Lemma sort_keys_frame (t d : dict) :
  (forall k, existsb (String.eqb k) fetch_written = false ->
             PyDict.get k t = PyDict.get k d) ->
  sort_keys t = sort_keys d.
Proof.
  intros H. unfold sort_keys, priority_of, created_of.
  now rewrite (H "priority" eq_refl), (H "created_at" eq_refl).
Qed.

(** Two fetches in a row: the second task is not one the first fetch
    should have preferred.  With pairwise distinct priorities in the store the
    second task's priority is strictly lower. *)
Theorem fetch_task_twice_in_order (parse_timeout : string -> result Z)
  (db db1 db2 : Db) (now now' : Z) (queue_name : string) (queue : Queue)
  (w w' eta eta' : option string) (extra_filter : option dict)
  (t1 t2 : dict) :
  find_queue db queue_name = Some queue ->
  keys_unique (or_empty extra_filter) = true ->
  PyDict.get "queue_id" (or_empty extra_filter) = None ->
  PyDict.get "status" (or_empty extra_filter) = None ->
  forallb has_sort_keys (tasks db) = true ->
  fetch_task parse_timeout db now queue_name w eta extra_filter
  = (Ok (Some t1), db1) ->
  fetch_task parse_timeout db1 now' queue_name w' eta' extra_filter
  = (Ok (Some t2), db2) ->
  claim_order t1 t2
  /\ forallb has_sort_keys (tasks db1) = true
  /\ map priority_of (tasks db1) = map priority_of (tasks db)
  /\ (distinct_priorities (tasks db) = true -> strictly_higher t1 t2).
Proof.
  intros Hq Hu Hnq Hns Hkeys F1 F2.
  pose proof (fetch_task_first_pending _ _ _ _ _ queue _ _ _ _
                Hq Hu Hnq Hns Hkeys F1) as H1.
  destruct H1 as (i & d1 & p1 & c1 & Hn1 & Hp1 & Hx1 & Ek1 & Hmin & Hfr1 & Hts).
  pose proof (sort_keys_frame _ _ Hfr1) as Esk1.
  assert (Hkeys1 : forallb has_sort_keys (tasks db1) = true).
  { rewrite forallb_forall in *. intros a Ha. rewrite Hts in Ha.
    apply in_replace_nth in Ha. destruct Ha as [->|Ha]; [|now apply Hkeys].
    unfold has_sort_keys. now rewrite Esk1, Ek1. }
  assert (Hpri : map priority_of (tasks db1) = map priority_of (tasks db)).
  { rewrite Hts. apply (map_replace_nth priority_of i t1 d1); [exact Hn1|].
    unfold priority_of. now rewrite (Hfr1 "priority" eq_refl). }
  assert (Hq1 : find_queue db1 queue_name = Some queue).
  { unfold find_queue in *.
    now rewrite (proj1 (fetch_task_keeps_queues _ _ _ _ _ _ _ _ _ F1)). }
  pose proof (fetch_task_first_pending _ _ _ _ _ queue _ _ _ _
                Hq1 Hu Hnq Hns Hkeys1 F2) as H2.
  destruct H2 as (j & d2 & p2 & c2 & Hn2 & Hp2 & Hx2 & Ek2 & _ & Hfr2 & _).
  pose proof (sort_keys_frame _ _ Hfr2) as Esk2.
  assert (Hij : i <> j).
  { intros <-. rewrite Hts, (nth_error_replace_same i t1 _ d1 Hn1) in Hn2.
    injection Hn2 as <-.
    destruct (fetch_task_claim_fields _ _ _ _ _ _ _ _ _ F1) as [Hst _].
    unfold pending_in, get_or_none in Hp2. rewrite Hst in Hp2.
    rewrite andb_false_r in Hp2. discriminate. }
  rewrite Hts, nth_error_replace_other in Hn2 by exact Hij.
  assert (Hin2 : In d2 (tasks db)) by (eapply nth_error_In; eauto).
  pose proof (Hmin d2 p2 c2 Hin2 Hp2 Hx2 Ek2) as Hord.
  split; [|split; [exact Hkeys1|split; [exact Hpri|]]].
  - unfold claim_order. now rewrite Esk1, Esk2, Ek1, Ek2.
  - intros Hd. unfold strictly_higher.
    assert (Ep1 : priority_of t1 = Some p1).
    { unfold sort_keys in Esk1, Ek1. unfold priority_of in *.
      rewrite (Hfr1 "priority" eq_refl).
      destruct (PyDict.get "priority" d1) as [[| | x | | | | |]|];
        try discriminate.
      destruct (created_of d1); [|discriminate]. now injection Ek1 as -> _. }
    assert (Ep2 : priority_of t2 = Some p2).
    { unfold sort_keys in Esk2, Ek2. unfold priority_of in *.
      rewrite (Hfr2 "priority" eq_refl).
      destruct (PyDict.get "priority" d2) as [[| | x | | | | |]|];
        try discriminate.
      destruct (created_of d2); [|discriminate]. now injection Ek2 as -> _. }
    rewrite Ep1, Ep2.
    destruct Hord as [Hlt|[Heq _]]; [exact Hlt|]. exfalso. subst p2.
    assert (Epd1 : priority_of d1 = Some p1).
    { unfold priority_of in *. now rewrite <- (Hfr1 "priority" eq_refl). }
    assert (Epd2 : priority_of d2 = Some p1).
    { unfold priority_of in *. now rewrite <- (Hfr2 "priority" eq_refl). }
    unfold distinct_priorities in Hd.
    assert (Hm1 : nth_error (map priority_of (tasks db)) i = Some (Some p1))
      by (rewrite nth_error_map, Hn1; simpl; now rewrite Epd1).
    assert (Hm2 : nth_error (map priority_of (tasks db)) j = Some (Some p1))
      by (rewrite nth_error_map, Hn2; simpl; now rewrite Epd2).
    clear -Hd Hm1 Hm2 Hij.
    revert i j Hij Hm1 Hm2.
    induction (map priority_of (tasks db)) as [|x r IH]; intros i j Hij Hi Hj.
    { destruct i; discriminate. }
    simpl in Hd. apply andb_prop in Hd. destruct Hd as [Hx Hr].
    apply negb_true_iff in Hx.
    assert (Hex : forall k, nth_error r k = Some (Some p1) ->
                            x = Some p1 -> False).
    { intros k Hk ->. 
      assert (existsb (fun q => match q with
                                | Some y => p1 =? y
                                | None => true
                                end) r = true); [|congruence].
      apply existsb_exists. exists (Some p1).
      split; [eapply nth_error_In; eauto | apply Z.eqb_refl]. }
    destruct i as [|i], j as [|j]; simpl in *.
    + contradiction.
    + injection Hi as ->. now apply (Hex j).
    + injection Hj as ->. now apply (Hex i).
    + apply (IH Hr i j); auto.
Qed.

Lemma fetch_task_preserves (parse_timeout : string -> result Z)
  (db db1 : Db) (now : Z) (queue_name : string) (queue : Queue)
  (found : option dict) :
  find_queue db queue_name = Some queue ->
  forallb has_sort_keys (tasks db) = true ->
  fetch_task parse_timeout db now queue_name None None None
  = (Ok found, db1) ->
  find_queue db1 queue_name = Some queue
  /\ forallb has_sort_keys (tasks db1) = true
  /\ map priority_of (tasks db1) = map priority_of (tasks db).
Proof.
  intros Hq Hkeys F1.
  pose proof (fetch_task_first_pending _ _ _ _ _ queue _ _ None _
                Hq eq_refl eq_refl eq_refl Hkeys F1) as H1.
  destruct found as [t1|].
  - destruct H1 as (i & d1 & p1 & c1 & Hn1 & _ & _ & Ek1 & _ & Hfr1 & Hts).
    pose proof (sort_keys_frame _ _ Hfr1) as Esk1.
    split; [|split].
    + unfold find_queue in *.
      now rewrite (proj1 (fetch_task_keeps_queues _ _ _ _ _ _ _ _ _ F1)).
    + rewrite forallb_forall in *. intros a Ha. rewrite Hts in Ha.
      apply in_replace_nth in Ha. destruct Ha as [->|Ha]; [|now apply Hkeys].
      unfold has_sort_keys. now rewrite Esk1, Ek1.
    + rewrite Hts. apply (map_replace_nth priority_of i t1 d1); [exact Hn1|].
      unfold priority_of. now rewrite (Hfr1 "priority" eq_refl).
  - destruct H1 as [-> _]. auto.
Qed.

(** X27: [n] plain fetches in a row, on a queue that resolves and tasks
    that carry their sort keys, hand out tasks in claim order: priority
    descending, equal priorities by creation date ascending; and in strictly
    decreasing priority when no two tasks of the store share one. *)
Theorem fetch_all_in_priority_order (parse_timeout : string -> result Z)
  (queue_name : string) (queue : Queue) (n : nat) :
  forall (db : Db) (now : Z),
    find_queue db queue_name = Some queue ->
    forallb has_sort_keys (tasks db) = true ->
    Sorted claim_order (fst (fetch_all parse_timeout db now queue_name n))
    /\ (distinct_priorities (tasks db) = true ->
        Sorted strictly_higher
          (fst (fetch_all parse_timeout db now queue_name n))).
Proof.
  induction n as [|m IH]; intros db now Hq Hkeys; [split; constructor|].
  cbn [fetch_all].
  destruct (fetch_task parse_timeout db now queue_name None None None)
    as [[[t1|]|e] db1] eqn:F1; try (split; constructor).
  destruct (fetch_task_preserves _ _ _ _ _ _ _ Hq Hkeys F1)
    as (Hq1 & Hkeys1 & Hpri).
  destruct (IH db1 (now + 1) Hq1 Hkeys1) as [IH1 IH2].
  assert (Hhd : forall t2 r,
             fst (fetch_all parse_timeout db1 (now + 1) queue_name m)
             = t2 :: r ->
             claim_order t1 t2
             /\ (distinct_priorities (tasks db) = true ->
                 strictly_higher t1 t2)).
  { intros t2 r Hr. destruct m as [|m']; [discriminate|].
    cbn [fetch_all] in Hr.
    destruct (fetch_task parse_timeout db1 (now + 1) queue_name None None
                None) as [[[t|]|e] db2] eqn:F2; try discriminate.
    destruct (fetch_all parse_timeout db2 (now + 1 + 1) queue_name m')
      as [r' db3].
    injection Hr as -> _.
    destruct (fetch_task_twice_in_order _ _ _ _ _ _ _ queue _ _ _ _ None _ _
                Hq eq_refl eq_refl eq_refl Hkeys F1 F2)
      as (Ho & _ & _ & Hs).
    now split. }
  destruct (fetch_all parse_timeout db1 (now + 1) queue_name m)
    as [r db''] eqn:Er.
  simpl in *. split.
  - constructor; [exact IH1|].
    destruct r as [|t2 r']; constructor. now apply (Hhd t2 r').
  - intros Hd. constructor.
    + apply IH2. unfold distinct_priorities in *. now rewrite Hpri.
    + destruct r as [|t2 r']; constructor. now apply (Hhd t2 r').
Qed.

(** ** The stamp of the general [update] *)

Lemma update_each_shape (f u : dict) (ts : list dict) :
  Forall2 (fun t t' => t' = t \/ Mongo.apply_update u t = Some t') ts
    (fst (Mongo.update_each f u ts)).
Proof.
  induction ts as [|d r IH]; cbn [Mongo.update_each]; [constructor|].
  destruct (Mongo.matches d (VDict f)).
  - destruct (Mongo.apply_update u d) as [d'|] eqn:E.
    + destruct (Mongo.update_each f u r) as [r' n]. simpl in *.
      constructor; [now right | exact IH].
    + simpl. constructor; [now left|]. clear. induction r; constructor; auto.
  - destruct (Mongo.update_each f u r) as [r' n]. simpl in *.
    constructor; [now left | exact IH].
Qed.

Lemma apply_update_stamped (u : dict) (sets : dict) (now : Z) (t t' : dict) :
  PyDict.get "$set" u = Some (VDict sets) ->
  In ("last_modified", VDate now) sets ->
  Mongo.apply_update u t = Some t' ->
  PyDict.get "last_modified" t' = Some (VDate now).
Proof.
  intros Hg Hin. unfold Mongo.apply_update.
  destruct u as [|[op [| | | | | | |s]] [|]]; try discriminate.
  destruct (String.eqb op "$set") eqn:Eop; [|discriminate].
  apply String.eqb_eq in Eop. subst op. simpl in Hg. injection Hg as ->.
  unfold Mongo.apply_set.
  destruct (Mongo.conflict_free _) eqn:Ecf; [|discriminate].
  destruct (Mongo.set_all sets t) as [d'|] eqn:Es; [|discriminate].
  destruct (Mongo.field_eq _ _); [|discriminate]. intros [= <-].
  now apply (set_all_top "last_modified" (VDate now) sets t d').
Qed.

(** X28: the general [update] overwrites a caller's own [last_modified].
    On a queue that resolves, with a filter of the fragment that carries the
    queue's id, tasks that hold no arrays and an update document that is
    empty or one [$set], whatever the [$set] holds for [last_modified]: a
    task that does not match the filter stays as it was, a task that is
    rewritten carries the time of the call as [last_modified], and when the
    call returns every matching task carries it. *)
Theorem update_stamps_last_modified (db : Db) (now : Z) (queue_name : string)
  (queue : Queue) (q : dict) (sets : option dict) :
  find_queue db queue_name = Some queue ->
  PyDict.get "queue_id" q = Some (VStr (q_id queue)) ->
  Mongo.filter_supported (VDict q) = true ->
  no_arrays (tasks db) = true ->
  Forall2
    (fun t t' =>
       if Mongo.matches t (VDict q)
       then t' = t \/ PyDict.get "last_modified" t' = Some (VDate now)
       else t' = t)
    (tasks db)
    (tasks (snd (update db now queue_name q (set_document sets))))
  /\ (forall b,
         fst (update db now queue_name q (set_document sets)) = Ok b ->
         Forall2
           (fun t t' =>
              if Mongo.matches t (VDict q)
              then PyDict.get "last_modified" t' = Some (VDate now)
              else t' = t)
           (tasks db)
           (tasks (snd (update db now queue_name q (set_document sets))))).
Proof.
  intros Hq Hk Hs _.
  assert (Hw : forall t t',
             Mongo.apply_update
               [("$set",
                  VDict (PyDict.setitem "last_modified" (VDate now)
                           (or_empty sets)))] t = Some t' ->
             PyDict.get "last_modified" t' = Some (VDate now)).
  { intros t t' Ha. rewrite <- (field_top "last_modified" t' eq_refl).
    apply (apply_update_writes _ _ _ _ _ Ha). apply in_setitem_same. }
  rewrite (update_in_fragment _ _ _ _ _ sets Hq Hk Hs).
  cbn [fst snd tasks with_tasks]. split.
  - eapply Forall2_impl; [|apply update_each_selects].
    intros t t'. cbv beta.
    destruct (Mongo.matches t (VDict q)); [|auto].
    intros [->|Ha]; [now left|]. right. now apply (Hw t).
  - intros b Hb.
    eapply Forall2_impl; [|apply update_each_all].
    + intros t t'. cbv beta.
      destruct (Mongo.matches t (VDict q)); [|auto].
      intros Ha. now apply (Hw t).
    + intros Hn. rewrite Hn in Hb. discriminate.
Qed.

Lemma update_stamps_last_modified_witness :
  find_queue Sample.db_pending "exp1" = Some Sample.exp1
  /\ PyDict.get "queue_id" [("queue_id", VStr "Q1")] = Some (VStr "Q1")
  /\ Mongo.filter_supported (VDict [("queue_id", VStr "Q1")]) = true
  /\ no_arrays (tasks Sample.db_pending) = true
  /\ update Sample.db_pending 9 "exp1" [("queue_id", VStr "Q1")]
       (set_document (Some [("last_modified", VDate 3)]))
     = (Ok true,
        with_tasks Sample.db_pending
          [PyDict.setitem "last_modified" (VDate 9) Sample.pendingA;
           PyDict.setitem "last_modified" (VDate 9) Sample.pendingB])
  /\ Forall2
       (fun t t' =>
          if Mongo.matches t (VDict [("queue_id", VStr "Q1")])
          then PyDict.get "last_modified" t' = Some (VDate 9)
          else t' = t)
       (tasks Sample.db_pending)
       (tasks
          (snd (update Sample.db_pending 9 "exp1" [("queue_id", VStr "Q1")]
                  (set_document (Some [("last_modified", VDate 3)]))))).
Proof.
  split; [reflexivity|]. split; [reflexivity|]. split; [reflexivity|].
  split; [reflexivity|]. split; [reflexivity|].
  exact (proj2
           (update_stamps_last_modified Sample.db_pending 9 "exp1"
              Sample.exp1 [("queue_id", VStr "Q1")]
              (Some [("last_modified", VDate 3)]) eq_refl eq_refl eq_refl
              eq_refl)
           true eq_refl).
Defined.

(** ** [fetch_task] returns, with null when nothing is pending *)

Lemma first_sorted_some (spec : list (string * Z)) (f : dict)
  (c : list dict) :
  forall i best j b,
    Mongo.first_sorted spec f i c best = Some (j, b) ->
    best = Some (j, b) \/ (In b c /\ Mongo.matches b (VDict f) = true).
Proof.
  induction c as [|d r IH]; intros i best j b; cbn [Mongo.first_sorted].
  - now left.
  - intros H. apply IH in H. destruct H as [H|[H1 H2]].
    + destruct (Mongo.matches d (VDict f)) eqn:Em; [|now left].
      destruct best as [[j0 b0]|].
      * destruct (Mongo.sorts_before spec d b0); [|now left].
        injection H as <- <-. right. split; [now left | exact Em].
      * injection H as <- <-. right. split; [now left | exact Em].
    + right. split; [now right | exact H2].
Qed.

Lemma first_sorted_none (spec : list (string * Z)) (f : dict)
  (c : list dict) :
  forall i best,
    Mongo.first_sorted spec f i c best = None ->
    best = None /\ forall a, In a c -> Mongo.matches a (VDict f) = false.
Proof.
  induction c as [|d r IH]; intros i best; cbn [Mongo.first_sorted].
  - intros ->. split; [reflexivity | intros a []].
  - intros H. apply IH in H. destruct H as [H Hr].
    destruct (Mongo.matches d (VDict f)) eqn:Em.
    + destruct best as [[j0 b0]|]; [|discriminate].
      destruct (Mongo.sorts_before spec d b0); discriminate.
    + split; [exact H|]. intros a [<-|Ha]; [exact Em | now apply Hr].
Qed.

Lemma claim_apply (now : Z) (w : value) (d : dict) :
  Mongo.apply_update
    [("$set",
       VDict
         [("status", TaskState.RUNNING); ("start_time", VDate now);
          ("last_heartbeat", VDate now); ("last_modified", VDate now);
          ("worker_id", w)])] d
  <> None.
Proof.
  unfold Mongo.apply_update, Mongo.apply_set. simpl.
  rewrite !get_setitem_other by reflexivity. now rewrite id_kept.
Qed.

(** X29: a plain fetch (no worker, no [eta_max], no [extra_filter]) on a
    queue that resolves never raises; it returns null exactly when the queue
    has no pending task. *)
Lemma fetch_task_plain_total (parse_timeout : string -> result Z)
  (db : Db) (now : Z) (queue_name : string) (queue : Queue) :
  find_queue db queue_name = Some queue ->
  exists found db',
    fetch_task parse_timeout db now queue_name None None None
    = (Ok found, db')
    /\ (found = None <->
        forall t, In t (tasks db) -> pending_in (q_id queue) t = false).
Proof.
  intros Hq. unfold fetch_task. simpl. rewrite Hq.
  unfold Mongo.find_one_and_update.
  replace (Mongo.filter_supported _ && Mongo.update_supported _) with true
    by reflexivity.
  match goal with
  | |- context [Mongo.first_sorted ?sp ?f ?i ?c ?b] =>
      destruct (Mongo.first_sorted sp f i c b) as [[i0 d]|] eqn:E
  end.
  - match goal with
    | |- context [Mongo.apply_update ?u d] =>
        destruct (Mongo.apply_update u d) as [d'|] eqn:Ea;
          [|now apply claim_apply in Ea]
    end.
    eexists. eexists. split; [reflexivity|]. split; [discriminate|].
    intros Hno. apply first_sorted_some in E.
    destruct E as [E|[Hin Hm]]; [discriminate|].
    rewrite matches_pending_in, (Hno d Hin) in Hm. discriminate.
  - eexists. eexists. split; [reflexivity|]. split; [|reflexivity].
    intros _ t Ht. apply first_sorted_none in E. destruct E as [_ E].
    rewrite <- matches_pending_in. now apply E.
Qed.

Lemma fetch_order_example :
  find_queue Sample.db_pending "exp1" = Some Sample.exp1
  /\ forallb has_sort_keys (tasks Sample.db_pending) = true
  /\ distinct_priorities (tasks Sample.db_pending) = true
  /\ map (PyDict.get "_id")
       (fst (fetch_all Sample.parse_timeout Sample.db_pending 100 "exp1" 3))
     = [Some (VStr "B"); Some (VStr "A")]
  /\ Sorted claim_order
       (fst (fetch_all Sample.parse_timeout Sample.db_pending 100 "exp1" 3))
  /\ Sorted strictly_higher
       (fst (fetch_all Sample.parse_timeout Sample.db_pending 100 "exp1" 3)).
Proof.
  split; [reflexivity|]. split; [reflexivity|].
  split; [reflexivity|]. split; [reflexivity|].
  destruct (fetch_all_in_priority_order Sample.parse_timeout "exp1"
              Sample.exp1 3 Sample.db_pending 100 eq_refl eq_refl)
    as [H1 H2].
  split; [exact H1 | exact (H2 eq_refl)].
Defined.

(** * Further properties *)

(** ** [merge_filter] *)

Lemma forallb_filter_truthy (g : value -> bool) (fs : list value) :
  forallb g (filter truthy fs) = forallb (fun f => negb (truthy f) || g f) fs.
Proof.
  induction fs as [|f r IH]; [reflexivity|]. simpl.
  destruct (truthy f); simpl; now rewrite IH.
Qed.

Lemma existsb_filter_truthy (g : value -> bool) (fs : list value) :
  existsb g (filter truthy fs) = existsb (fun f => truthy f && g f) fs.
Proof.
  induction fs as [|f r IH]; [reflexivity|]. simpl.
  destruct (truthy f); simpl; now rewrite IH.
Qed.

(** X1: [merge_filter] under ["and"] never raises, and a document matches
    the merged filter exactly when it matches every filter given that is not
    empty; [None] and [{}] among the filters change nothing. *)
Theorem merge_filter_and_is_conjunction (fs : list value) (t : dict) :
  exists m,
    merge_filter fs "and" = Ok m
    /\ Mongo.matches t m
       = forallb (fun f => negb (truthy f) || Mongo.matches t f) fs.
Proof.
  unfold merge_filter. simpl existsb. cbn [negb].
  rewrite <- forallb_filter_truthy.
  destruct (filter truthy fs) as [|f [|g r]].
  - now exists (VDict []).
  - exists f. split; [reflexivity|]. simpl. now rewrite andb_true_r.
  - eexists. split; [reflexivity|].
    change ("$" ++ "and") with "$and".
    rewrite matches_cons, matches_nil, andb_true_r. reflexivity.
Qed.

(** X2: [merge_filter] under ["or"] never raises.  When some filter given
    is not empty, a document matches the merged filter exactly when it
    matches one of the non-empty filters; when all are empty the merged filter
    is [{}], which every document matches. *)
Theorem merge_filter_or_is_disjunction (fs : list value) (t : dict) :
  exists m,
    merge_filter fs "or" = Ok m
    /\ Mongo.matches t m
       = if existsb truthy fs
         then existsb (fun f => truthy f && Mongo.matches t f) fs
         else true.
Proof.
  unfold merge_filter. simpl existsb at 1. cbn [negb].
  rewrite <- existsb_filter_truthy.
  assert (Hex : existsb truthy fs
                = match filter truthy fs with [] => false | _ => true end).
  { induction fs as [|f r IH]; [reflexivity|]. simpl.
    destruct (truthy f); [reflexivity | exact IH]. }
  rewrite Hex.
  destruct (filter truthy fs) as [|f [|g r]].
  - now exists (VDict []).
  - exists f. split; [reflexivity|]. simpl. now rewrite orb_false_r.
  - eexists. split; [reflexivity|].
    change ("$" ++ "or") with "$or".
    rewrite matches_cons, matches_nil, andb_true_r. reflexivity.
Qed.

(** X3: [merge_filter] fails with 500 for every operator name other than
    ["and"], ["or"] and ["nor"], whatever the filters; for these three it
    returns, giving [{}] for no non-empty filter and a single non-empty
    filter as it is, unwrapped. *)
Theorem merge_filter_operator_check (fs : list value) (op : string) :
  (op <> "and" -> op <> "or" -> op <> "nor" ->
   merge_filter fs op = Raise (HTTPException HTTP_500_INTERNAL_SERVER_ERROR))
  /\ (op = "and" \/ op = "or" \/ op = "nor" ->
      (filter truthy fs = [] -> merge_filter fs op = Ok (VDict []))
      /\ (forall f, filter truthy fs = [f] -> merge_filter fs op = Ok f)
      /\ exists m, merge_filter fs op = Ok m).
Proof.
  split.
  - intros H1 H2 H3. unfold merge_filter. simpl.
    apply String.eqb_neq in H1, H2, H3. now rewrite H1, H2, H3.
  - intros H. unfold merge_filter.
    assert (Hop : existsb (String.eqb op) ["and"; "or"; "nor"] = true).
    { destruct H as [-> | [-> | ->]]; reflexivity. }
    rewrite Hop. cbn [negb]. repeat split.
    + now intros ->.
    + now intros f ->.
    + destruct (filter truthy fs) as [|f [|g r]]; eexists; reflexivity.
Qed.

Lemma merge_filter_operator_check_witness :
  "xor" <> "and" /\ "xor" <> "or" /\ "xor" <> "nor"
  /\ merge_filter [VDict [("a", VInt 1)]] "xor"
     = Raise (HTTPException HTTP_500_INTERNAL_SERVER_ERROR).
Proof.
  assert (H1 : "xor" <> "and") by discriminate.
  assert (H2 : "xor" <> "or") by discriminate.
  assert (H3 : "xor" <> "nor") by discriminate.
  split; [exact H1|]. split; [exact H2|]. split; [exact H3|].
  exact (proj1 (merge_filter_operator_check [VDict [("a", VInt 1)]] "xor")
           H1 H2 H3).
Defined.

(** ** [sanitize_dict] *)

Lemma recr_sanitize_dict_spec (v : value) :
  recr_sanitize_dict v
  = if has_operator_key v then Raise (HTTPException HTTP_400_BAD_REQUEST)
    else Ok v.
Proof.
  induction v as [| b | n | q | s | ms | l _ | d IH] using value_ind;
    try reflexivity.
  induction IH as [|[k x] r Hx _ IHr]; [reflexivity|].
  simpl in Hx. simpl. simpl in IHr.
  destruct (operator_like k); [reflexivity|]. simpl.
  assert (Hx' : match x with
                | VDict _ => recr_sanitize_dict x
                | _ => Ok x
                end
                = if has_operator_key x
                  then Raise (HTTPException HTTP_400_BAD_REQUEST) else Ok x).
  { destruct x; try reflexivity. exact Hx. }
  rewrite Hx'. destruct (has_operator_key x); [reflexivity|]. simpl.
  match type of IHr with
  | match ?a with Ok _ => _ | Raise _ => _ end = (if ?m then _ else _) =>
      destruct a as [r'|e]; destruct m; try discriminate; try reflexivity;
        try (injection IHr as ->; reflexivity); exact IHr
  end.
Qed.

(** X4: [sanitize_dict] fails with 400 exactly when some key, at the top or
    inside nested dictionaries, starts with [$] or with a dot, and otherwise
    returns the dictionary as it was given.  Lists are not looked into: a
    value that is a list passes, whatever its items hold. *)
Theorem sanitize_dict_spec (dic : dict) :
  sanitize_dict dic
  = (if has_operator_key (VDict dic)
     then Raise (HTTPException HTTP_400_BAD_REQUEST) else Ok dic)
  /\ (forall k items,
         operator_like k = false ->
         sanitize_dict [(k, VList items)] = Ok [(k, VList items)]).
Proof.
  split.
  - unfold sanitize_dict. rewrite recr_sanitize_dict_spec.
    now destruct (has_operator_key (VDict dic)).
  - intros k items Hk. unfold sanitize_dict. simpl. now rewrite Hk.
Qed.

(** ** [arg_match] *)

(** X5: a [required] tree that holds, at the top or under some key, a value
    that is neither [None] nor a dictionary matches no [provided] value at
    all: [arg_match] returns false for every [provided]. *)
Theorem arg_match_scalar_leaf_never_matches (required : value) :
  has_scalar_leaf required = true ->
  forall provided, arg_match required provided = false.
Proof.
  induction required as [| b | n | q | s | ms | l _ | d IH] using value_ind;
    try discriminate; try (intros _ p; reflexivity).
  intros Hs [| | | | | | |prov]; try reflexivity.
  simpl. destruct (PyDict.same_key_set d prov); [|reflexivity]. simpl.
  simpl in Hs.
  induction IH as [|[k x] r Hx _ IHr]; [discriminate|].
  simpl in Hx.
  destruct (PyDict.get k prov) as [p|]; [|reflexivity].
  destruct (has_scalar_leaf x) eqn:Ex.
  - now rewrite (Hx eq_refl p).
  - simpl in Hs. destruct (arg_match x p); [|reflexivity]. simpl.
    now apply IHr.
Qed.

Lemma arg_match_scalar_leaf_never_matches_witness :
  has_scalar_leaf (VDict [("model", VDict [("name", VStr "x")])]) = true
  /\ arg_match (VDict [("model", VDict [("name", VStr "x")])])
       (VDict [("model", VDict [("name", VStr "x")])]) = false.
Proof.
  split; [reflexivity|].
  apply (arg_match_scalar_leaf_never_matches
           (VDict [("model", VDict [("name", VStr "x")])])).
  reflexivity.
Defined.

(** ** [create_queue] *)

Lemma find_app_none {A : Type} (p : A -> bool) (pre l : list A) :
  List.find p pre = None -> List.find p (pre ++ l) = List.find p l.
Proof.
  induction pre as [|x r IH]; simpl; [reflexivity|].
  destruct (p x); [discriminate | exact IH].
Qed.

Lemma find_app_some {A : Type} (p : A -> bool) (pre l : list A) (x : A) :
  List.find p pre = Some x -> List.find p (pre ++ l) = Some x.
Proof.
  induction pre as [|y r IH]; simpl; [discriminate|].
  destruct (p y); [now intros | exact IH].
Qed.

Lemma find_queue_exists (db : Db) (queue_name : string) (q : Queue) :
  find_queue db queue_name = Some q ->
  In q (queues db) /\ q_queue_name q = queue_name.
Proof.
  unfold find_queue. intros H. apply find_some in H. destruct H as [Hin He].
  apply String.eqb_eq in He. now split.
Qed.

(** X6: [create_queue] refuses the empty name with 400 and a name that is
    already taken with 409; in both cases nothing is stored. *)
Theorem create_queue_refusals (hash_password : string -> hashing) (db : Db)
  (now : Z) (new_id password : string) (metadata : option dict) :
  create_queue hash_password db now new_id "" password metadata
  = (Raise (HTTPException HTTP_400_BAD_REQUEST), db)
  /\ (forall queue_name q h,
         queue_name <> "" ->
         find_queue db queue_name = Some q ->
         hash_password password = Hashed h ->
         create_queue hash_password db now new_id queue_name password metadata
         = (Raise (HTTPException HTTP_409_CONFLICT), db)).
Proof.
  split; [reflexivity|].
  intros queue_name q h Hne Hq Hh. unfold create_queue.
  apply String.eqb_neq in Hne. simpl. rewrite Hne. simpl. rewrite Hh.
  destruct (find_queue_exists _ _ _ Hq) as [Hin Hname].
  assert (Hex : existsb
                  (fun q0 => String.eqb (q_id q0) new_id
                             || String.eqb (q_queue_name q0) queue_name)
                  (queues db) = true).
  { apply existsb_exists. exists q. split; [exact Hin|].
    rewrite Hname, String.eqb_refl. apply orb_true_r. }
  now rewrite Hex.
Qed.

(** X7: after a successful [create_queue] the new name resolves to a queue
    with the given id, the hash of the password, the given metadata (empty
    when none was given) and both timestamps at the time of the call; every
    other name resolves as before, and tasks and workers are untouched. *)
Theorem create_queue_then_find (hash_password : string -> hashing) (db : Db)
  (now : Z) (new_id queue_name password h : string)
  (metadata : option dict) :
  queue_name <> "" ->
  hash_password password = Hashed h ->
  existsb
    (fun q => String.eqb (q_id q) new_id
              || String.eqb (q_queue_name q) queue_name)
    (queues db) = false ->
  exists db',
    create_queue hash_password db now new_id queue_name password metadata
    = (Ok new_id, db')
    /\ find_queue db' queue_name
       = Some (mkQueue new_id queue_name h now now
                 (VDict (or_empty metadata)))
    /\ (forall other,
           other <> queue_name ->
           find_queue db' other = find_queue db other)
    /\ tasks db' = tasks db
    /\ workers db' = workers db.
Proof.
  intros Hne Hh Hex. unfold create_queue.
  apply String.eqb_neq in Hne. simpl. rewrite Hne. simpl. rewrite Hh, Hex.
  eexists. split; [reflexivity|]. simpl. repeat split.
  - unfold find_queue. simpl. rewrite find_app_none.
    + simpl. now rewrite String.eqb_refl.
    + destruct (List.find _ (queues db)) as [q|] eqn:E; [|reflexivity].
      exfalso. apply find_some in E. destruct E as [Hin He].
      assert (existsb
                (fun q0 => String.eqb (q_id q0) new_id
                           || String.eqb (q_queue_name q0) queue_name)
                (queues db) = true); [|congruence].
      apply existsb_exists. exists q. split; [exact Hin|].
      rewrite He. apply orb_true_r.
  - intros other Ho. unfold find_queue. simpl.
    destruct (List.find (fun q => String.eqb (q_queue_name q) other)
                (queues db)) as [q|] eqn:E.
    + now apply find_app_some.
    + rewrite find_app_none by exact E. simpl.
      apply not_eq_sym in Ho. apply String.eqb_neq in Ho. now rewrite Ho.
Qed.

(** ** [create_worker] *)

(** X8: a worker that [create_worker] has just registered may claim: a fetch
    on the same queue with its id passes the worker check (no 404, no 400) and
    returns, and a task it returns is bound to this worker. *)
Theorem create_worker_then_fetch (parse_timeout : string -> result Z)
  (db db1 : Db) (now now' : Z) (new_id queue_name : string) (queue : Queue)
  (worker_name : option string) (metadata : option dict) (max_retries : Z) :
  find_queue db queue_name = Some queue ->
  create_worker db now new_id queue_name worker_name metadata max_retries
  = (Ok new_id, db1) ->
  find_worker db1 new_id (q_id queue)
  = Some (mkWorker new_id (q_id queue) WorkerState.ACTIVE worker_name
            (VDict (or_empty metadata)) 0 max_retries now now)
  /\ exists found db2,
       fetch_task parse_timeout db1 now' queue_name (Some new_id) None None
       = (Ok found, db2)
       /\ (forall t, found = Some t ->
                     PyDict.get "worker_id" t = Some (VStr new_id)).
Proof.
  intros Hq. unfold create_worker. rewrite Hq.
  destruct (existsb (fun w => String.eqb (w_id w) new_id) (workers db))
    eqn:Hex; [discriminate|].
  intros [= <-].
  assert (Hw : find_worker
                 (mkDb (queues db) (tasks db)
                    (workers db
                     ++ [mkWorker new_id (q_id queue) WorkerState.ACTIVE
                           worker_name (VDict (or_empty metadata)) 0
                           max_retries now now]))
                 new_id (q_id queue)
               = Some (mkWorker new_id (q_id queue) WorkerState.ACTIVE
                         worker_name (VDict (or_empty metadata)) 0
                         max_retries now now)).
  { unfold find_worker. simpl. rewrite find_app_none.
    - simpl. unfold worker_is. simpl. now rewrite !String.eqb_refl.
    - destruct (List.find _ (workers db)) as [w|] eqn:E; [|reflexivity].
      exfalso. apply find_some in E. destruct E as [Hin He].
      unfold worker_is in He. apply andb_prop in He. destruct He as [He _].
      assert (existsb (fun w => String.eqb (w_id w) new_id) (workers db)
              = true); [|congruence].
      apply existsb_exists. now exists w. }
  split; [exact Hw|].
  destruct (fetch_task parse_timeout _ now' queue_name (Some new_id) None None)
    as [r db2] eqn:F.
  assert (Hr : exists found, r = Ok found).
  { revert F. unfold fetch_task. cbn [truthy].
    unfold find_queue in *. cbn [queues]. rewrite Hq. cbn [opt_str truthy].
    destruct (negb (String.eqb new_id "")) eqn:Hid.
    - rewrite Hw. cbn [w_status WorkerState.eqb negb].
      unfold Mongo.find_one_and_update.
      replace (Mongo.filter_supported _ && Mongo.update_supported _)
        with true by reflexivity.
      match goal with
      | |- context [Mongo.first_sorted ?sp ?f ?i ?c ?b] =>
          destruct (Mongo.first_sorted sp f i c b) as [[i0 d]|]
      end.
      + match goal with
        | |- context [Mongo.apply_update ?u d] =>
            destruct (Mongo.apply_update u d) as [d'|] eqn:Ea;
              [|now apply claim_apply in Ea]
        end.
        intros [= <- _]. now eexists.
      + intros [= <- _]. now eexists.
    - unfold Mongo.find_one_and_update.
      replace (Mongo.filter_supported _ && Mongo.update_supported _)
        with true by reflexivity.
      match goal with
      | |- context [Mongo.first_sorted ?sp ?f ?i ?c ?b] =>
          destruct (Mongo.first_sorted sp f i c b) as [[i0 d]|]
      end.
      + match goal with
        | |- context [Mongo.apply_update ?u d] =>
            destruct (Mongo.apply_update u d) as [d'|] eqn:Ea;
              [|now apply claim_apply in Ea]
        end.
        intros [= <- _]. now eexists.
      + intros [= <- _]. now eexists. }
  destruct Hr as [found ->]. exists found, db2. split; [reflexivity|].
  intros t ->.
  now destruct (fetch_task_claim_fields _ _ _ _ _ _ _ _ _ F) as (_ & H & _).
Qed.

(** ** [delete_queue] and [delete_task] *)

Lemma matches_in_queue (qid : string) (t : dict) :
  Mongo.matches t (VDict [("queue_id", VStr qid)])
  = value_eqb (get_or_none "queue_id" t) (VStr qid).
Proof.
  rewrite matches_cons, matches_nil, andb_true_r. unfold Mongo.clause.
  simpl. rewrite field_top by reflexivity. apply field_eq_get_or_none.
Qed.

Lemma delete_first_by_id (id : string) (q : Queue) (qs : list Queue) :
  In q qs -> q_id q = id ->
  exists pre q0 post,
    qs = (pre ++ q0 :: post)%list
    /\ q_id q0 = id
    /\ delete_first (fun x => String.eqb (q_id x) id) qs
       = ((pre ++ post)%list, 1).
Proof.
  intros Hin Hid. induction qs as [|x r IH]; [contradiction|]. simpl.
  destruct (String.eqb (q_id x) id) eqn:E.
  - apply String.eqb_eq in E. now exists [], x, r.
  - destruct Hin as [->|Hin].
    { rewrite Hid, String.eqb_refl in E. discriminate. }
    destruct (IH Hin) as (pre & q0 & post & -> & H0 & Hd).
    exists (x :: pre), q0, post. simpl. now rewrite Hd.
Qed.

(** X9: [delete_queue] removes one queue record with the resolved id.  With
    [cascade_delete] no task and no worker of this queue is left, and the
    tasks and workers of other queues stay, in their order; without it tasks
    and workers are all kept, orphans included. *)
Theorem delete_queue_cascade (db : Db) (queue_name : string) (queue : Queue)
  (cascade_delete : bool) :
  find_queue db queue_name = Some queue ->
  exists pre q0 post db',
    delete_queue db queue_name cascade_delete = (Ok true, db')
    /\ queues db = (pre ++ q0 :: post)%list
    /\ q_id q0 = q_id queue
    /\ queues db' = (pre ++ post)%list
    /\ (if cascade_delete then
          tasks db'
          = filter
              (fun t =>
                 negb (value_eqb (get_or_none "queue_id" t)
                         (VStr (q_id queue))))
              (tasks db)
          /\ workers db'
             = filter
                 (fun w => negb (String.eqb (w_queue_id w) (q_id queue)))
                 (workers db)
          /\ (forall t, In t (tasks db') ->
                        PyDict.get "queue_id" t <> Some (VStr (q_id queue)))
          /\ (forall w, In w (workers db') -> w_queue_id w <> q_id queue)
        else tasks db' = tasks db /\ workers db' = workers db).
Proof.
  intros Hq. destruct (find_queue_exists _ _ _ Hq) as [Hin _].
  destruct (delete_first_by_id (q_id queue) queue (queues db) Hin eq_refl)
    as (pre & q0 & post & Hqs & H0 & Hd).
  exists pre, q0, post. unfold delete_queue. rewrite Hq, Hd.
  destruct cascade_delete; eexists; (split; [reflexivity|]);
    (split; [exact Hqs|]); (split; [exact H0|]); (split; [reflexivity|]);
    simpl; [|now split].
  assert (Hts : tasks_delete_many [("queue_id", VStr (q_id queue))] (tasks db)
                = filter
                    (fun t =>
                       negb (value_eqb (get_or_none "queue_id" t)
                               (VStr (q_id queue))))
                    (tasks db)).
  { unfold tasks_delete_many. apply filter_ext. intros t.
    now rewrite matches_in_queue. }
  rewrite Hts. repeat split.
  - intros t Ht Hg. apply filter_In in Ht. destruct Ht as [_ Ht].
    unfold get_or_none in Ht. rewrite Hg in Ht. simpl in Ht.
    now rewrite String.eqb_refl in Ht.
  - intros w Hw He. apply filter_In in Hw. destruct Hw as [_ Hw].
    rewrite He, String.eqb_refl in Hw. discriminate.
Qed.

Lemma delete_first_none {A : Type} (p : A -> bool) (c : list A) :
  (forall a, In a c -> p a = false) -> delete_first p c = (c, 0).
Proof.
  induction c as [|x r IH]; intros H; simpl; [reflexivity|].
  rewrite (H x) by now left. rewrite IH; [reflexivity|].
  intros a Ha. apply H. now right.
Qed.

Lemma delete_first_app {A : Type} (p : A -> bool) (pre post : list A)
  (x : A) :
  (forall a, In a pre -> p a = false) -> p x = true ->
  delete_first p (pre ++ x :: post) = ((pre ++ post)%list, 1).
Proof.
  induction pre as [|y r IH]; intros H Hx; simpl.
  - now rewrite Hx.
  - rewrite (H y) by now left. rewrite IH; [reflexivity| |exact Hx].
    intros a Ha. apply H. now right.
Qed.

(** X10: [delete_task] removes the first task that has the given id and
    belongs to the resolved queue, and nothing else; when there is none, for
    instance because the task is in another queue, it fails with 404 and
    leaves the store alone. *)
Theorem delete_task_scoped (db : Db) (queue_name task_id : string)
  (queue : Queue) :
  find_queue db queue_name = Some queue ->
  ((forall t, In t (tasks db) ->
              PyDict.get "_id" t = Some (VStr task_id) ->
              PyDict.get "queue_id" t <> Some (VStr (q_id queue))) ->
   delete_task db queue_name task_id = (Raise (HTTPException 404), db))
  /\ (forall pre t post,
         tasks db = (pre ++ t :: post)%list ->
         PyDict.get "_id" t = Some (VStr task_id) ->
         PyDict.get "queue_id" t = Some (VStr (q_id queue)) ->
         (forall a, In a pre ->
                    PyDict.get "_id" a <> Some (VStr task_id)) ->
         delete_task db queue_name task_id
         = (Ok true, with_tasks db (pre ++ post))).
Proof.
  intros Hq. unfold delete_task, tasks_delete_one. rewrite Hq. split.
  - intros Hno. rewrite delete_first_none; [reflexivity|].
    intros a Ha. rewrite matches_task_of. unfold get_or_none.
    destruct (PyDict.get "_id" a) as [i|] eqn:Ei; [|reflexivity].
    destruct (value_eqb i (VStr task_id)) eqn:E; [|reflexivity].
    apply value_eqb_eq in E. subst i. simpl.
    destruct (PyDict.get "queue_id" a) as [x|] eqn:Ex; [|reflexivity].
    apply value_eqb_neq. intros ->. now apply (Hno a Ha).
  - intros pre t post Hts Hid Hqid Hpre. rewrite Hts.
    rewrite delete_first_app; [reflexivity| |].
    + intros a Ha. rewrite matches_task_of. unfold get_or_none.
      destruct (PyDict.get "_id" a) as [i|] eqn:Ei; [|reflexivity].
      destruct (value_eqb i (VStr task_id)) eqn:E; [|reflexivity].
      apply value_eqb_eq in E. subst i. exfalso. now apply (Hpre a Ha).
    + rewrite matches_task_of. unfold get_or_none. rewrite Hid, Hqid.
      simpl. now rewrite !String.eqb_refl.
Qed.

(** X11: submitting a task and deleting it again gives back the store as it
    was. *)
Theorem create_task_then_delete (db db1 : Db) (now : Z)
  (new_id queue_name : string) (task_name : option string)
  (args metadata : option dict) (heartbeat_timeout task_timeout : option Z)
  (max_retries priority : Z) :
  create_task db now new_id queue_name task_name args metadata
    heartbeat_timeout task_timeout max_retries priority
  = (Ok new_id, db1) ->
  delete_task db1 queue_name new_id = (Ok true, db).
Proof.
  unfold create_task.
  destruct (find_queue db queue_name) as [queue|] eqn:Hq; [|discriminate].
  match goal with
  | |- context [existsb ?p (tasks db)] =>
      destruct (existsb p (tasks db)) eqn:Hex; [discriminate|]
  end.
  intros [= <-]. unfold delete_task, tasks_delete_one.
  unfold find_queue in *. unfold with_tasks. cbn [queues tasks workers].
  rewrite Hq. rewrite delete_first_app.
  - simpl. rewrite app_nil_r. now destruct db.
  - intros a Ha. rewrite matches_task_of.
    assert (Hf : Mongo.field_eq (PyDict.get "_id" a) (VStr new_id) = false).
    { destruct (Mongo.field_eq (PyDict.get "_id" a) (VStr new_id)) eqn:E;
        [|reflexivity].
      assert (existsb
                (fun t => Mongo.field_eq (PyDict.get "_id" t) (VStr new_id))
                (tasks db) = true); [|congruence].
      apply existsb_exists. now exists a. }
    rewrite field_eq_get_or_none in Hf. now rewrite Hf.
  - rewrite matches_task_of. unfold get_or_none. simpl.
    now rewrite !String.eqb_refl.
Qed.

(** ** [create_task] followed by [fetch_task] *)

Lemma first_sorted_last (spec : list (string * Z)) (f : dict) (x : dict)
  (pre : list dict) :
  forall i,
    (forall a, In a pre -> Mongo.matches a (VDict f) = false) ->
    Mongo.matches x (VDict f) = true ->
    Mongo.first_sorted spec f i (pre ++ [x]) None
    = Some ((i + length pre)%nat, x).
Proof.
  induction pre as [|y r IH]; intros i Hpre Hx; cbn [Mongo.first_sorted app].
  - rewrite Hx. simpl. now rewrite Nat.add_0_r.
  - rewrite (Hpre y) by now left. rewrite IH; [|intros a Ha; apply Hpre;
      now right|exact Hx].
    simpl. now rewrite Nat.add_succ_r.
Qed.

Lemma replace_nth_last (pre : list dict) (x y : dict) :
  Mongo.replace_nth (length pre) y (pre ++ [x]) = (pre ++ [y])%list.
Proof. induction pre as [|a r IH]; simpl; [reflexivity|]. now rewrite IH. Qed.

(** X12: on a queue without pending tasks, the task just submitted is the
    one the next fetch claims: it comes back running, with the id, arguments,
    metadata, priority and creation time of the submission, and takes the
    place of the submitted task in the store. *)
Theorem create_task_then_fetch (parse_timeout : string -> result Z)
  (db db1 : Db) (now now' : Z) (new_id queue_name : string) (queue : Queue)
  (task_name : option string) (args metadata : option dict)
  (heartbeat_timeout task_timeout : option Z) (max_retries priority : Z) :
  find_queue db queue_name = Some queue ->
  (forall t, In t (tasks db) -> pending_in (q_id queue) t = false) ->
  create_task db now new_id queue_name task_name args metadata
    heartbeat_timeout task_timeout max_retries priority
  = (Ok new_id, db1) ->
  exists t,
    fetch_task parse_timeout db1 now' queue_name None None None
    = (Ok (Some t), with_tasks db (tasks db ++ [t]))
    /\ PyDict.get "_id" t = Some (VStr new_id)
    /\ PyDict.get "status" t = Some TaskState.RUNNING
    /\ PyDict.get "args" t = Some (VDict (or_empty args))
    /\ PyDict.get "metadata" t = Some (VDict (or_empty metadata))
    /\ PyDict.get "priority" t = Some (VInt priority)
    /\ PyDict.get "created_at" t = Some (VDate now)
    /\ PyDict.get "start_time" t = Some (VDate now').
Proof.
  intros Hq Hnone. unfold create_task. rewrite Hq.
  match goal with
  | |- context [existsb ?p (tasks db)] =>
      destruct (existsb p (tasks db)) eqn:Hex; [discriminate|]
  end.
  intros [= <-]. unfold fetch_task. cbn [truthy opt_str].
  unfold find_queue in *. unfold with_tasks at 1. cbn [queues].
  rewrite Hq. cbn [or_empty PyDict.update fold_left].
  unfold Mongo.find_one_and_update.
  replace (Mongo.filter_supported _ && Mongo.update_supported _) with true
    by reflexivity.
  unfold with_tasks at 1. cbn [tasks].
  rewrite (first_sorted_last fetch_sort).
  - unfold Mongo.apply_update, Mongo.apply_set. simpl.
    rewrite String.eqb_refl. rewrite replace_nth_last.
    eexists. split; [reflexivity|]. repeat split.
  - intros a Ha. rewrite matches_pending_in. now apply Hnone.
  - rewrite matches_pending_in. unfold pending_in, get_or_none. simpl.
    now rewrite String.eqb_refl.
Qed.

(** ** [update_task_status] *)

Lemma find_is_task (task_id qid : string) (ts : list dict) :
  List.find
    (fun t =>
       Mongo.matches t
         (VDict [("_id", VStr task_id); ("queue_id", VStr qid)])) ts
  = List.find (is_task task_id qid) ts.
Proof.
  induction ts as [|t r IH]; [reflexivity|]. simpl.
  rewrite matches_task_of. fold (is_task task_id qid t). now rewrite IH.
Qed.

(** X13: [update_task_status] writes nothing unless the state machine took
    the event.  A task id that is not in the resolved queue gives 404; a
    [report_status] other than success, failed and cancelled, a task from
    which no machine can be built, and an event the machine refuses all give
    400, whatever was raised; in each case the store is as before. *)
Theorem update_task_status_refusals (ops : FsmOps) (db : Db) (now : Z)
  (queue_name task_id report_status : string) (summary : option dict)
  (queue : Queue) :
  find_queue db queue_name = Some queue ->
  (List.find (is_task task_id (q_id queue)) (tasks db) = None ->
   update_task_status ops db now queue_name task_id report_status summary
   = (Raise (HTTPException 404), db))
  /\ (forall task,
         List.find (is_task task_id (q_id queue)) (tasks db) = Some task ->
         (report_status <> "success" /\ report_status <> "failed"
          /\ report_status <> "cancelled")
         \/ (exists e, from_db_entry ops task = Raise e)
         \/ (exists fsm e,
                from_db_entry ops task = Ok fsm
                /\ ((report_status = "success" /\ complete ops fsm = Raise e)
                    \/ (report_status = "failed" /\ fail ops fsm = Raise e)
                    \/ (report_status = "cancelled"
                        /\ cancel ops fsm = Raise e))) ->
         update_task_status ops db now queue_name task_id report_status
           summary
         = (Raise (HTTPException HTTP_400_BAD_REQUEST), db)).
Proof.
  intros Hq. unfold update_task_status. rewrite Hq, find_is_task. split.
  - now intros ->.
  - intros task -> H.
    assert (Hr : report_event ops task report_status
                 = Raise (HTTPException HTTP_400_BAD_REQUEST));
      [|now rewrite Hr].
    unfold report_event.
    destruct H as [(H1 & H2 & H3)|[[e He]|(fsm & e & Hf & H)]].
    + apply String.eqb_neq in H1, H2, H3. rewrite H1, H2, H3.
      now destruct (from_db_entry ops task).
    + now rewrite He.
    + rewrite Hf.
      destruct H as [[-> He]|[[-> He]|[-> He]]]; simpl; now rewrite He.
Qed.

Lemma in_setitem (kv : string * value) (k : string) (v : value) (d : dict) :
  In kv (PyDict.setitem k v d) -> kv = (k, v) \/ In kv d.
Proof.
  induction d as [|[k' v'] r IH]; simpl.
  - intros [<-|[]]. now left.
  - destruct (String.eqb k k'); simpl.
    + intros [<-|H]; auto.
    + intros [<-|H]; auto. destruct (IH H); auto.
Qed.

Lemma in_update (kv : string * value) (b : dict) :
  forall a, In kv (PyDict.update a b) -> In kv a \/ In kv b.
Proof.
  unfold PyDict.update. induction b as [|[k v] r IH]; intros a; simpl.
  - now left.
  - intros H. apply IH in H. destruct H as [H|H]; [|right; now right].
    apply in_setitem in H. destruct H as [->|H]; [right; now left | now left].
Qed.

Lemma string_app_assoc (a b c : string) : (a ++ b) ++ c = a ++ (b ++ c).
Proof. induction a as [|x a IH]; simpl; [reflexivity|]. now rewrite IH. Qed.

(** Every key [flatten_dict] makes under a parent starts with the parent and
    a dot. *)
Lemma flatten_entries_prefix (v : value) :
  forall parent k x,
    parent <> "" ->
    In (k, x) (flatten_entries parent v) ->
    exists rest, k = parent ++ "." ++ rest.
Proof.
  induction v as [| b | n | q | s | ms | l _ | d IH] using value_ind;
    intros parent k x Hp; try (intros []).
  induction IH as [|[k0 x0] r Hx _ IHr]; [intros []|].
  simpl in Hx. simpl. simpl in IHr.
  apply String.eqb_neq in Hp. rewrite Hp in IHr |- *.
  intros H. apply in_app_or in H.
  destruct H as [H|H].
  - destruct x0; simpl in H;
      try (destruct H as [[= <- _]|[]]; now exists k0).
    apply (Hx (parent ++ "." ++ k0)) in H.
    + destruct H as [rest ->]. exists (k0 ++ "." ++ rest).
      now rewrite !string_app_assoc.
    + destruct parent; discriminate.
  - apply IHr. exact H.
Qed.

Lemma path_of_summary (rest : string) :
  Mongo.path_of ("summary" ++ "." ++ rest) = "summary" :: Mongo.path_of rest.
Proof. reflexivity. Qed.

Lemma update_first_frame (f u : dict) (keep : string -> Prop)
  (ts : list dict) :
  (forall t t' k, Mongo.apply_update u t = Some t' -> keep k ->
                  PyDict.get k t' = PyDict.get k t) ->
  forall ts' n,
    Mongo.update_first f u ts = Some (ts', n) ->
    Forall2 (fun t t' => forall k, keep k -> PyDict.get k t' = PyDict.get k t)
      ts ts'.
Proof.
  intros Hu ts' n H. apply update_first_shape in H.
  eapply Forall2_impl; [|exact H].
  intros t t' [->|Ha] k Hk; [reflexivity|]. now apply (Hu t t' k).
Qed.

(** X14: [update_task_status] patches [status], [retries], [last_modified]
    and entries under [summary] only: whatever the report and its summary,
    every other top-level field of every task ([worker_id], [start_time],
    [args], ...) reads as before, and queues and workers are untouched. *)
Theorem update_task_status_frame (ops : FsmOps) (db : Db) (now : Z)
  (queue_name task_id report_status : string) (summary : option dict) :
  Forall2
    (fun t t' =>
       forall k,
         existsb (String.eqb k) report_written = false ->
         PyDict.get k t' = PyDict.get k t)
    (tasks db)
    (tasks (snd (update_task_status ops db now queue_name task_id
                   report_status summary)))
  /\ queues (snd (update_task_status ops db now queue_name task_id
                    report_status summary)) = queues db
  /\ workers (snd (update_task_status ops db now queue_name task_id
                     report_status summary)) = workers db.
Proof.
  assert (Hsame : Forall2
                    (fun t t' : dict =>
                       forall k,
                         existsb (String.eqb k) report_written = false ->
                         PyDict.get k t' = PyDict.get k t)
                    (tasks db) (tasks db))
    by (apply Forall2_same; auto).
  unfold update_task_status.
  destruct (find_queue db queue_name) as [queue|]; [|now repeat split].
  destruct (List.find _ (tasks db)) as [task|]; [|now repeat split].
  destruct (report_event ops task report_status) as [fsm|e];
    [|now repeat split].
  match goal with
  | |- context [Mongo.update_one ?f ?u ?c] =>
      destruct (Mongo.update_one f u c) as [[ts n]|e] eqn:E
  end; [|now repeat split].
  simpl. split; [|now split].
  unfold Mongo.update_one in E.
  destruct (Mongo.filter_supported _ && Mongo.update_supported _);
    [|discriminate].
  match type of E with
  | context [Mongo.update_first ?f ?u ?c] =>
      destruct (Mongo.update_first f u c) as [[ts1 m]|] eqn:Ef; [|discriminate]
  end.
  injection E as <- _.
  eapply (update_first_frame _ _
            (fun k => existsb (String.eqb k) report_written = false));
    [|exact Ef].
  intros t t' k Ha Hk. apply apply_update_set in Ha.
  eapply set_all_other; [|exact Ha].
  intros [k0 v0] Hin. simpl.
  simpl in Hk. repeat (apply orb_false_iff in Hk; destruct Hk as [? Hk]).
  apply in_update in Hin. destruct Hin as [Hin|Hin].
  - simpl in Hin.
    destruct Hin as [[= <- _]|[[= <- _]|[[= <- _]|[]]]]; simpl;
      now rewrite andb_true_r.
  - unfold flatten_dict in Hin. apply in_update in Hin.
    destruct Hin as [[]|Hin].
    apply flatten_entries_prefix in Hin; [|discriminate].
    destruct Hin as [rest ->]. rewrite path_of_summary. simpl.
    apply andb_false_iff. now left.
Qed.

(** ** More on [handle_timeouts] *)

(** A task the sweeper's query does not select is stored unchanged by the
    sweep and is not reported. *)
Lemma handle_timeouts_spares (db : Db) (now : Z) (i : nat) (t : dict) :
  ids_unique (tasks db) = true ->
  nth_error (tasks db) i = Some t ->
  timed_out now t = false ->
  exists ids db',
    handle_timeouts db now = (Ok ids, db')
    /\ nth_error (tasks db') i = Some t
    /\ ~ In (get_or_none "_id" t) ids.
Proof.
  intros Hu Hn Hno.
  assert (Hfound : forall f, In f (filter (timed_out now) (tasks db)) ->
                             In f (tasks db) /\ f <> t).
  { intros f Hf. apply filter_In in Hf. destruct Hf as [Hf Hto].
    split; [exact Hf|]. intros ->. congruence. }
  assert (Hin : In t (tasks db)) by (eapply nth_error_In; eauto).
  destruct (sweep_spares now (filter (timed_out now) (tasks db))
              (tasks db) [])
    as (ids & ts' & Hsw & _ & Hk & Hids).
  { intros f Hf. apply (ids_unique_some (tasks db)); [exact Hu|].
    now apply Hfound. }
  exists ids, (with_tasks db ts'). unfold handle_timeouts. rewrite Hsw.
  split; [reflexivity|]. split.
  - simpl. apply Hk; [exact Hn|].
    intros f Hf Heq. destruct (Hfound f Hf) as [Hf1 Hf2]. apply Hf2.
    now apply (ids_unique_inj (tasks db)).
  - intros Hi. destruct (Hids _ Hi) as [[]|(f & Hf & Hfx)].
    destruct (Hfound f Hf) as [Hf1 Hf2]. apply Hf2.
    apply (ids_unique_inj (tasks db)); auto.
    destruct (ids_unique_some _ _ Hu Hin) as [s Hs].
    unfold get_or_none in Hfx. rewrite (id_str_get _ _ Hs) in Hfx.
    rewrite Hs. unfold id_str. now rewrite Hfx.
Qed.

Lemma within_not_expired (now t0 limit : Z) :
  now - t0 <= 1000 * limit ->
  expr_gt (elapsed now (Some (VDate t0))) (Some (VInt limit)) = false.
Proof.
  intros H. unfold expr_gt, elapsed, Mongo.as_number, Qcompare. simpl.
  destruct (Z.compare_spec ((now - t0) * 1) (limit * 1000)); try reflexivity.
  lia.
Qed.

(** X15: the sweeper's bound is strict.  In a store whose tasks have
    distinct string ids, a task whose last heartbeat is at most
    [heartbeat_timeout] seconds old (exactly that old included) and whose run
    time is at most [task_timeout] seconds, or has no [task_timeout], is
    stored unchanged by [handle_timeouts] and is not among the ids
    returned. *)
Theorem handle_timeouts_spares_within_bounds (db : Db) (now : Z) (i : nat)
  (t : dict) (lh h : Z) :
  ids_unique (tasks db) = true ->
  nth_error (tasks db) i = Some t ->
  PyDict.get "last_heartbeat" t = Some (VDate lh) ->
  PyDict.get "heartbeat_timeout" t = Some (VInt h) ->
  now - lh <= 1000 * h ->
  (get_or_none "task_timeout" t = VNone
   \/ exists s limit,
        PyDict.get "start_time" t = Some (VDate s)
        /\ PyDict.get "task_timeout" t = Some (VInt limit)
        /\ now - s <= 1000 * limit) ->
  exists ids db',
    handle_timeouts db now = (Ok ids, db')
    /\ nth_error (tasks db') i = Some t
    /\ ~ In (get_or_none "_id" t) ids.
Proof.
  intros Hu Hn Hlh Hh Hle Htask.
  apply handle_timeouts_spares; [exact Hu | exact Hn |].
  unfold timed_out. rewrite Hlh, Hh, (within_not_expired _ _ _ Hle).
  rewrite andb_false_r. cbn [orb].
  destruct Htask as [Hnull|(s & limit & Hs & Hl & Hle')].
  - rewrite (null_not_ne_null _ _ Hnull). cbn [andb]. apply andb_false_r.
  - rewrite Hs, Hl, (within_not_expired _ _ _ Hle').
    now rewrite !andb_false_r.
Qed.

(** X16: the sweeper leaves alone every task that is not RUNNING: in a
    store whose tasks have distinct string ids, a pending or finished task is
    stored unchanged by [handle_timeouts], however old its heartbeat, and is
    not among the ids returned. *)
Theorem handle_timeouts_spares_not_running (db : Db) (now : Z) (i : nat)
  (t : dict) (status : value) :
  ids_unique (tasks db) = true ->
  nth_error (tasks db) i = Some t ->
  PyDict.get "status" t = Some status ->
  status <> TaskState.RUNNING ->
  exists ids db',
    handle_timeouts db now = (Ok ids, db')
    /\ nth_error (tasks db') i = Some t
    /\ ~ In (get_or_none "_id" t) ids.
Proof.
  intros Hu Hn Hst Hne.
  apply handle_timeouts_spares; [exact Hu | exact Hn |].
  unfold timed_out. rewrite Hst. simpl. unfold TaskState.RUNNING in *.
  now rewrite bson_eqb_str, (value_eqb_neq _ _ Hne).
Qed.

Lemma Forall2_frame_trans (keep : string -> Prop) (a b c : list dict) :
  Forall2 (fun t t' => forall k, keep k -> PyDict.get k t' = PyDict.get k t)
    a b ->
  Forall2 (fun t t' => forall k, keep k -> PyDict.get k t' = PyDict.get k t)
    b c ->
  Forall2 (fun t t' => forall k, keep k -> PyDict.get k t' = PyDict.get k t)
    a c.
Proof.
  intros Hab. revert c. induction Hab as [|x y l l' Hxy _ IH]; intros c Hbc.
  - inversion Hbc. constructor.
  - inversion Hbc as [|y' z l0 l1 Hyz Hrest]; subst. constructor.
    + intros k Hk. now rewrite (Hyz k Hk), (Hxy k Hk).
    + now apply IH.
Qed.

Lemma sweep_frame (now : Z) (found : list dict) :
  forall ts acc,
    Forall2
      (fun t t' =>
         forall k,
           existsb (String.eqb k) report_written = false ->
           PyDict.get k t' = PyDict.get k t)
      ts (snd (sweep now found ts acc)).
Proof.
  induction found as [|task rest IH]; intros ts acc; cbn [sweep].
  - simpl. apply Forall2_same. auto.
  - destruct (PyDict.get "_id" task) as [id|]; [|apply Forall2_same; auto].
    destruct (sweep_one now id task ts) as [[ts' b]|] eqn:E; [|apply IH].
    assert (Hstep : Forall2
                      (fun t t' : dict =>
                         forall k,
                           existsb (String.eqb k) report_written = false ->
                           PyDict.get k t' = PyDict.get k t) ts ts').
    { unfold sweep_one in E.
      destruct (PyDict.get "status" task) as [st|]; [|discriminate].
      destruct (TaskFSM.fail _) as [fsm|e]; [|discriminate].
      unfold Mongo.update_one in E.
      destruct (Mongo.filter_supported _ && Mongo.update_supported _);
        [|discriminate].
      match type of E with
      | context [Mongo.update_first ?f ?u ?c] =>
          destruct (Mongo.update_first f u c) as [[ts1 m]|] eqn:Ef;
            [|discriminate]
      end.
      injection E as <- _.
      eapply (update_first_frame _ _
                (fun k => existsb (String.eqb k) report_written = false));
        [|exact Ef].
      intros t t' k Ha Hk. apply apply_update_set in Ha.
      eapply set_all_other; [|exact Ha].
      intros [k0 v0] Hin. simpl in Hk.
      repeat (apply orb_false_iff in Hk; destruct Hk as [? Hk]).
      simpl in Hin.
      destruct Hin as [[= <- _]|[[= <- _]|[[= <- _]|[[= <- _]|[]]]]];
        simpl; rewrite ?andb_true_r; assumption. }
    eapply Forall2_frame_trans; [exact Hstep|].
    destruct b; apply IH.
Qed.

(** X17: [handle_timeouts] writes [status], [retries], [last_modified] and
    [summary] only.  Every other field of every task reads as before; in
    particular a task the sweeper sends back to PENDING keeps the
    [worker_id], [start_time] and [last_heartbeat] it had while running.
    Queues and workers are untouched. *)
Theorem handle_timeouts_frame (db : Db) (now : Z) :
  Forall2
    (fun t t' =>
       forall k,
         existsb (String.eqb k) report_written = false ->
         PyDict.get k t' = PyDict.get k t)
    (tasks db) (tasks (snd (handle_timeouts db now)))
  /\ queues (snd (handle_timeouts db now)) = queues db
  /\ workers (snd (handle_timeouts db now)) = workers db.
Proof.
  unfold handle_timeouts.
  pose proof (sweep_frame now (filter (timed_out now) (tasks db)) (tasks db)
                []) as H.
  destruct (sweep now (filter (timed_out now) (tasks db)) (tasks db) [])
    as [r ts]. simpl in *. now repeat split.
Qed.

(** ** The worker check and [eta_max] of [fetch_task] *)

Lemma fetch_task_unknown_worker (parse_timeout : string -> result Z)
  (db : Db) (now : Z) (queue_name w : string) (queue : Queue)
  (extra_filter : option dict) :
  find_queue db queue_name = Some queue ->
  w <> "" ->
  find_worker db w (q_id queue) = None ->
  fetch_task parse_timeout db now queue_name (Some w) None extra_filter
  = (Raise (HTTPException 404), db).
Proof.
  intros Hq Hw Hf. unfold fetch_task. rewrite Hq. cbn [opt_str truthy].
  apply String.eqb_neq in Hw. rewrite Hw. cbn [negb]. now rewrite Hf.
Qed.

(** X18: a fetch that names a worker claims nothing unless the worker may
    work.  With a non-empty [worker_id] that is not registered in the resolved
    queue (unknown, or registered in another queue) [fetch_task] fails with
    404; with a registered worker that is not ACTIVE it fails with 400; the
    store is unchanged in both cases, whatever tasks are pending. *)
Theorem fetch_task_worker_check (parse_timeout : string -> result Z)
  (db : Db) (now : Z) (queue_name w : string) (queue : Queue)
  (extra_filter : option dict) :
  find_queue db queue_name = Some queue ->
  w <> "" ->
  (find_worker db w (q_id queue) = None ->
   fetch_task parse_timeout db now queue_name (Some w) None extra_filter
   = (Raise (HTTPException 404), db))
  /\ (forall info,
         find_worker db w (q_id queue) = Some info ->
         w_status info <> WorkerState.ACTIVE ->
         fetch_task parse_timeout db now queue_name (Some w) None
           extra_filter
         = (Raise (HTTPException 400), db)).
Proof.
  intros Hq Hw. split; [now apply fetch_task_unknown_worker|].
  intros info Hf Hst. unfold fetch_task. rewrite Hq. cbn [opt_str truthy].
  apply String.eqb_neq in Hw. rewrite Hw. cbn [negb]. rewrite Hf.
  destruct (w_status info); try reflexivity. contradiction.
Qed.

(** X19: [eta_max] replaces the claimed task's [task_timeout] by the parsed
    number of seconds, unless that number is 0: a zero [eta_max] is dropped
    and the task keeps the [task_timeout] it was stored with. *)
Theorem fetch_task_eta_max (parse_timeout : string -> result Z)
  (db db' : Db) (now : Z) (queue_name e : string) (w : option string)
  (extra_filter : option dict) (n : Z) (t : dict) :
  e <> "" ->
  parse_timeout e = Ok n ->
  fetch_task parse_timeout db now queue_name w (Some e) extra_filter
  = (Ok (Some t), db') ->
  exists d,
    In d (tasks db)
    /\ PyDict.get "_id" t = PyDict.get "_id" d
    /\ PyDict.get "task_timeout" t
       = if n =? 0 then PyDict.get "task_timeout" d else Some (VInt n).
Proof.
  intros He Hp. unfold fetch_task. cbn [truthy].
  apply String.eqb_neq in He. rewrite He. cbn [negb]. rewrite Hp.
  destruct (find_queue db queue_name) as [queue|]; [|discriminate].
  match goal with
  | |- context [match ?s with Ok _ => _ | Raise _ => _ end = _] =>
      destruct s as [_|err]
  end; [|discriminate].
  match goal with
  | |- context [Mongo.find_one_and_update ?f ?u ?sp ?c] =>
      destruct (Mongo.find_one_and_update f u sp c) as [[ts found]|err] eqn:E
  end; [|discriminate].
  intros H. injection H as -> _.
  apply find_one_and_update_post_image in E.
  destruct E as (i & d & Hfs & Hu & _).
  apply first_sorted_some in Hfs. destruct Hfs as [Hfs|[Hin _]];
    [discriminate|].
  exists d. split; [exact Hin|].
  apply apply_update_set in Hu. cbn [truthy] in Hu.
  destruct (n =? 0); simpl in Hu; injection Hu as <-; split;
    get_after_sets.
Qed.

(** ** Renaming a queue *)

Lemma replace_queue_find (id0 new : string) (q' : Queue) (qs : list Queue) :
  q_queue_name q' = new ->
  (forall q, In q qs -> q_queue_name q = new -> q_id q = id0) ->
  (exists q, In q qs /\ q_id q = id0) ->
  List.find (fun q => String.eqb (q_queue_name q) new)
    (fst (replace_queue id0 q' qs))
  = Some q'.
Proof.
  intros Hn. induction qs as [|x r IH]; intros Hall [q [Hin Hid]];
    [contradiction|].
  simpl. destruct (String.eqb (q_id x) id0) eqn:E.
  - simpl. now rewrite Hn, String.eqb_refl.
  - destruct (replace_queue id0 q' r) as [r' n] eqn:Er. simpl.
    destruct (String.eqb (q_queue_name x) new) eqn:En.
    + apply String.eqb_eq in En. apply Hall in En; [|now left].
      rewrite En, String.eqb_refl in E. discriminate.
    + simpl in IH. apply IH.
      * intros y Hy. apply Hall. now right.
      * destruct Hin as [->|Hin].
        -- rewrite Hid, String.eqb_refl in E. discriminate.
        -- now exists q.
Qed.

(** X20: renaming a queue.  When no other queue has the new name,
    [update_queue] succeeds and the new name resolves to the queue with its
    old id, creation time and metadata, the new name, [last_modified] at the
    time of the call and the password hashed when one was given (kept
    otherwise); tasks and workers are untouched.  When another queue has the
    new name, the call raises the store's [DuplicateKeyError] as it is (no
    409) and nothing changes. *)
Theorem update_queue_rename (hash_password : string -> string) (db : Db)
  (now : Z) (queue_name new_name : string) (new_password : option string)
  (queue : Queue) :
  find_queue db queue_name = Some queue ->
  new_name <> "" ->
  (existsb
     (fun q => String.eqb (q_queue_name q) new_name
               && negb (String.eqb (q_id q) (q_id queue)))
     (queues db) = true ->
   update_queue hash_password db now queue_name (Some new_name) new_password
     None
   = (Raise DuplicateKeyError, db))
  /\ (existsb
        (fun q => String.eqb (q_queue_name q) new_name
                  && negb (String.eqb (q_id q) (q_id queue)))
        (queues db) = false ->
      exists b db',
        update_queue hash_password db now queue_name (Some new_name)
          new_password None
        = (Ok b, db')
        /\ find_queue db' new_name
           = Some (mkQueue (q_id queue) new_name
                     (match new_password with
                      | Some p =>
                          if String.eqb p "" then q_password queue
                          else hash_password p
                      | None => q_password queue
                      end)
                     (q_created_at queue) now (q_metadata queue))
        /\ tasks db' = tasks db
        /\ workers db' = workers db).
Proof.
  intros Hq Hne. apply String.eqb_neq in Hne.
  unfold update_queue. rewrite Hq. cbn [truthy]. rewrite Hne. cbn [negb].
  split.
  - now intros ->.
  - intros Hex. rewrite Hex.
    match goal with
    | |- context [replace_queue ?i ?q ?c] =>
        pose proof (replace_queue_find i new_name q c eq_refl) as Hfind;
          destruct (replace_queue i q c) as [qs n] eqn:Er
    end.
    eexists. eexists. split; [reflexivity|].
    split; [|now split].
    unfold find_queue. cbn [queues]. simpl in Hfind.
    assert (Hpw : (match new_password with
                   | Some p =>
                       if negb (String.eqb p "") then hash_password p
                       else q_password queue
                   | None => q_password queue
                   end)
                  = (match new_password with
                     | Some p =>
                         if String.eqb p "" then q_password queue
                         else hash_password p
                     | None => q_password queue
                     end)).
    { destruct new_password as [p|]; [|reflexivity].
      now destruct (String.eqb p ""). }
    rewrite <- Hpw. apply Hfind.
    + intros q Hin Hname.
      destruct (String.eqb (q_id q) (q_id queue)) eqn:E;
        [now apply String.eqb_eq in E|].
      exfalso.
      assert (existsb
                (fun q => String.eqb (q_queue_name q) new_name
                          && negb (String.eqb (q_id q) (q_id queue)))
                (queues db) = true); [|congruence].
      apply existsb_exists. exists q. split; [exact Hin|].
      now rewrite Hname, String.eqb_refl, E.
    + exists queue. split; [|reflexivity].
      now destruct (find_queue_exists _ _ _ Hq).
Qed.

(** ** A deleted worker *)

Lemma delete_first_find_none (p : Worker -> bool) (ws : list Worker) :
  (forall a b, In a ws -> In b ws -> p a = true -> p b = true -> a = b) ->
  NoDup ws ->
  List.find p (fst (delete_first p ws)) = None.
Proof.
  induction ws as [|x r IH]; intros Huniq Hnd; [reflexivity|]. simpl.
  inversion Hnd as [|? ? Hx Hr]; subst.
  destruct (p x) eqn:E.
  - simpl. destruct (List.find p r) as [y|] eqn:Ef; [|reflexivity].
    apply find_some in Ef. destruct Ef as [Hin Hy].
    exfalso. apply Hx.
    rewrite (Huniq x y); auto; [now left | now right].
  - destruct (delete_first p r) as [r' n] eqn:Er. simpl. rewrite E.
    simpl in IH. apply IH; [|exact Hr].
    intros a b Ha Hb. apply Huniq; now right.
Qed.

Lemma worker_ids_unique_spec (ws : list Worker) :
  worker_ids_unique ws = true ->
  NoDup ws
  /\ (forall a b, In a ws -> In b ws -> w_id a = w_id b -> a = b).
Proof.
  induction ws as [|x r IH]; simpl; intros H.
  - split; [constructor | intros a b []].
  - apply andb_prop in H. destruct H as [Hx Hr].
    destruct (IH Hr) as [Hnd Hinj]. apply negb_true_iff in Hx.
    assert (Hno : forall y, In y r -> w_id y <> w_id x).
    { intros y Hy He.
      assert (existsb (fun z => String.eqb (w_id z) (w_id x)) r = true);
        [|congruence].
      apply existsb_exists. exists y. split; [exact Hy|].
      now rewrite He, String.eqb_refl. }
    split.
    + constructor; [|exact Hnd]. intros Hin. now apply (Hno x Hin).
    + intros a b [<-|Ha] [<-|Hb] He; auto.
      * exfalso. apply (Hno b Hb). congruence.
      * exfalso. now apply (Hno a Ha).
Qed.

(** X21: a deleted worker cannot claim.  When worker ids are unique, after
    [delete_worker] has succeeded a fetch on the same queue with this
    [worker_id] fails with 404 and claims nothing. *)
Theorem delete_worker_then_fetch (parse_timeout : string -> result Z)
  (db db1 : Db) (now now' : Z) (queue_name w : string) (queue : Queue)
  (cascade_update : bool) (extra_filter : option dict) :
  find_queue db queue_name = Some queue ->
  worker_ids_unique (workers db) = true ->
  w <> "" ->
  delete_worker db now queue_name w cascade_update = (Ok true, db1) ->
  fetch_task parse_timeout db1 now' queue_name (Some w) None extra_filter
  = (Raise (HTTPException 404), db1).
Proof.
  intros Hq Hu Hw Hd.
  destruct (worker_ids_unique_spec _ Hu) as [Hnd Hinj].
  assert (Hnone : List.find (worker_is w (q_id queue))
                    (fst (delete_first (worker_is w (q_id queue))
                            (workers db))) = None).
  { apply delete_first_find_none; [|exact Hnd].
    intros a b Ha Hb Hpa Hpb. apply Hinj; auto.
    unfold worker_is in *. apply andb_prop in Hpa, Hpb.
    destruct Hpa as [Hpa _], Hpb as [Hpb _].
    apply String.eqb_eq in Hpa, Hpb. congruence. }
  revert Hd. unfold delete_worker. rewrite Hq.
  destruct (delete_first (worker_is w (q_id queue)) (workers db))
    as [ws n] eqn:Ed.
  simpl in Hnone.
  destruct (n =? 0); [discriminate|].
  assert (Hfetch : forall ts,
             fetch_task parse_timeout (mkDb (queues db) ts ws) now'
               queue_name (Some w) None extra_filter
             = (Raise (HTTPException 404), mkDb (queues db) ts ws)).
  { intros ts. apply (fetch_task_unknown_worker _ _ _ _ _ queue);
      [exact Hq | exact Hw | exact Hnone]. }
  destruct cascade_update.
  - destruct (Mongo.update_many _ _ _) as [ts r]. simpl.
    destruct r; [|discriminate]. intros [= <-]. apply Hfetch.
  - intros [= <-]. apply Hfetch.
Qed.

(** ** The general [update] with nothing to set *)

Lemma stamp_apply (now : Z) (t : dict) :
  Mongo.apply_update [("$set", VDict [("last_modified", VDate now)])] t
  = Some (PyDict.setitem "last_modified" (VDate now) t).
Proof.
  unfold Mongo.apply_update, Mongo.apply_set. simpl.
  rewrite get_setitem_other by reflexivity. now rewrite id_kept.
Qed.

Lemma stamp_update_each (now : Z) (q : dict) (c : list dict) :
  exists n,
    Mongo.update_each q [("$set", VDict [("last_modified", VDate now)])] c
    = (map
         (fun t =>
            if Mongo.matches t (VDict q)
            then PyDict.setitem "last_modified" (VDate now) t else t) c,
       Some n).
Proof.
  induction c as [|d r [n IH]]; [now exists 0|].
  cbn [Mongo.update_each map]. rewrite IH.
  destruct (Mongo.matches d (VDict q)).
  - rewrite stamp_apply. eexists. reflexivity.
  - now exists n.
Qed.

(** X22: an empty update document is not a no-op.  On a queue that
    resolves, with a filter of the fragment that carries the queue's id and
    tasks that hold no arrays, [update] with [{}] returns and rewrites
    [last_modified] of every task the filter selects to the time of the
    call; these tasks change in nothing else and no other task changes. *)
Theorem update_empty_stamps (db : Db) (now : Z) (queue_name : string)
  (queue : Queue) (q : dict) :
  find_queue db queue_name = Some queue ->
  PyDict.get "queue_id" q = Some (VStr (q_id queue)) ->
  Mongo.filter_supported (VDict q) = true ->
  no_arrays (tasks db) = true ->
  exists b,
    update db now queue_name q []
    = (Ok b,
       with_tasks db
         (map
            (fun t =>
               if Mongo.matches t (VDict q)
               then PyDict.setitem "last_modified" (VDate now) t else t)
            (tasks db))).
Proof.
  intros Hq Hk Hs _. unfold update. rewrite Hq, Hk, value_eqb_refl.
  cbn [negb PyDict.get PyDict.setitem]. unfold Mongo.update_many.
  rewrite Hs. cbn [Mongo.update_supported String.eqb Ascii.eqb Bool.eqb andb].
  destruct (stamp_update_each now q (tasks db)) as [n Hn]. rewrite Hn.
  now eexists.
Qed.

(** ** [cancel_task] that changes nothing *)

Lemma setitem_same_value (k : string) (v : value) (d : dict) :
  PyDict.get k d = Some v -> PyDict.setitem k v d = d.
Proof.
  induction d as [|[k' v'] r IH]; simpl; [discriminate|].
  destruct (String.eqb k k') eqn:E.
  - apply String.eqb_eq in E. subst k'. now intros [= ->].
  - intros H. now rewrite IH.
Qed.

Lemma update_first_no_match (f u : dict) (ts : list dict) :
  (forall t, In t ts -> Mongo.matches t (VDict f) = false) ->
  Mongo.update_first f u ts = Some (ts, 0).
Proof.
  induction ts as [|d r IH]; intros H; cbn [Mongo.update_first];
    [reflexivity|].
  rewrite (H d) by now left. rewrite IH; [reflexivity|].
  intros t Ht. apply H. now right.
Qed.

Lemma update_first_identity (f u : dict) (ts : list dict) (t : dict) :
  List.find (fun x => Mongo.matches x (VDict f)) ts = Some t ->
  Mongo.apply_update u t = Some t ->
  Mongo.update_first f u ts = Some (ts, 0).
Proof.
  induction ts as [|d r IH]; simpl; [discriminate|].
  destruct (Mongo.matches d (VDict f)) eqn:E.
  - intros [= ->] Hu. rewrite Hu. unfold Mongo.doc_eqb.
    now rewrite value_eqb_refl.
  - intros Hf Hu. now rewrite (IH Hf Hu).
Qed.

(** X23: [cancel_task] has no 404 for a task: on a queue that resolves, a
    task id that is not in the queue makes it return false, and so does a
    task that is cancelled already; the store is unchanged in both cases. *)
Theorem cancel_task_returns_false (db : Db) (queue_name task_id : string)
  (queue : Queue) :
  find_queue db queue_name = Some queue ->
  (List.find (is_task task_id (q_id queue)) (tasks db) = None ->
   cancel_task db queue_name task_id = (Ok false, db))
  /\ (forall t,
         List.find (is_task task_id (q_id queue)) (tasks db) = Some t ->
         PyDict.get "status" t = Some TaskState.CANCELLED ->
         cancel_task db queue_name task_id = (Ok false, db)).
Proof.
  intros Hq. unfold cancel_task, Mongo.update_one. rewrite Hq.
  replace (Mongo.filter_supported _ && Mongo.update_supported _) with true
    by reflexivity.
  split.
  - intros Hf. rewrite update_first_no_match.
    + simpl. now rewrite with_tasks_same.
    + intros t Ht. rewrite matches_task_of.
      apply (find_none _ _ Hf t Ht).
  - intros t Hf Hst. rewrite <- find_is_task in Hf.
    rewrite (update_first_identity _ _ _ t Hf).
    + simpl. now rewrite with_tasks_same.
    + unfold Mongo.apply_update, Mongo.apply_set. simpl.
      rewrite (setitem_same_value _ _ _ Hst). now rewrite id_kept.
Qed.

(** ** [update_task_and_reset_pending] without settings *)

(** X24: a reset without settings writes [last_modified], [status] and
    [retries] and nothing else: every other field of every task reads as
    before, so a task reset to PENDING keeps the [worker_id], [start_time] and
    [last_heartbeat] of its last run; and a task id that is not in the queue
    makes the call return false, with no 404, leaving the store as it was. *)
Theorem reset_without_settings_frame (db : Db) (now : Z)
  (queue_name task_id : string) :
  Forall2
    (fun t t' =>
       forall k,
         existsb (String.eqb k) reset_written = false ->
         PyDict.get k t' = PyDict.get k t)
    (tasks db)
    (tasks (snd (update_task_and_reset_pending db now queue_name task_id
                   None)))
  /\ (forall queue,
         find_queue db queue_name = Some queue ->
         List.find (is_task task_id (q_id queue)) (tasks db) = None ->
         update_task_and_reset_pending db now queue_name task_id None
         = (Ok false, db)).
Proof.
  split.
  - unfold update_task_and_reset_pending.
    destruct (find_queue db queue_name) as [queue|];
      [|apply Forall2_same; auto].
    match goal with
    | |- context [Mongo.update_one ?f ?u ?c] =>
        destruct (Mongo.update_one f u c) as [[ts n]|e] eqn:E
    end; [|apply Forall2_same; auto].
    simpl. unfold Mongo.update_one in E.
    destruct (Mongo.filter_supported _ && Mongo.update_supported _);
      [|discriminate].
    match type of E with
    | context [Mongo.update_first ?f ?u ?c] =>
        destruct (Mongo.update_first f u c) as [[ts1 m]|] eqn:Ef;
          [|discriminate]
    end.
    injection E as <- _.
    eapply (update_first_frame _ _
              (fun k => existsb (String.eqb k) reset_written = false));
      [|exact Ef].
    intros t t' k Ha Hk. apply apply_update_set in Ha.
    simpl in Hk. repeat (apply orb_false_iff in Hk; destruct Hk as [? Hk]).
    simpl in Ha. injection Ha as <-.
    now rewrite !get_setitem_other by assumption.
  - intros queue Hq Hf. unfold update_task_and_reset_pending.
    rewrite Hq. unfold Mongo.update_one.
    replace (Mongo.filter_supported _ && Mongo.update_supported _) with true
      by reflexivity.
    rewrite update_first_no_match.
    + simpl. now rewrite with_tasks_same.
    + intros t Ht. rewrite matches_task_of.
      apply (find_none _ _ Hf t Ht).
Qed.

(** ** Task ids under the updating operations *)

Lemma has_id_map (s : string) (a b : list dict) :
  map id_str b = map id_str a ->
  existsb (has_id s) b = existsb (has_id s) a.
Proof.
  revert b. induction a as [|x r IH]; intros [|y r']; simpl;
    try discriminate; [reflexivity|].
  intros [= Hy Hr]. unfold has_id at 1 3. rewrite Hy. now rewrite (IH r' Hr).
Qed.

Lemma ids_unique_map (a b : list dict) :
  map id_str b = map id_str a -> ids_unique b = ids_unique a.
Proof.
  revert b. induction a as [|x r IH]; intros [|y r']; simpl;
    try discriminate; [reflexivity|].
  intros [= Hy Hr]. rewrite Hy. destruct (id_str x); [|reflexivity].
  now rewrite (has_id_map _ _ _ Hr), (IH r' Hr).
Qed.

Lemma same_task_ids_of (db db' : Db) :
  map id_str (tasks db') = map id_str (tasks db) -> same_task_ids db db'.
Proof. intros H. split; [exact H | now apply ids_unique_map]. Qed.

Lemma shape_ids (u : dict) (a b : list dict) :
  Forall2 (fun t t' => t' = t \/ Mongo.apply_update u t = Some t') a b ->
  map id_str b = map id_str a.
Proof.
  induction 1 as [|t t' a b H _ IH]; [reflexivity|]. simpl. rewrite IH.
  destruct H as [->|H]; [reflexivity|]. now rewrite (apply_update_id _ _ _ H).
Qed.

Lemma update_one_ids (f u : dict) (c ts : list dict) (n : Z) :
  Mongo.update_one f u c = Ok (ts, n) -> map id_str ts = map id_str c.
Proof.
  unfold Mongo.update_one.
  destruct (Mongo.filter_supported _ && Mongo.update_supported _);
    [|discriminate].
  destruct (Mongo.update_first f u c) as [[ts1 m]|] eqn:E; [|discriminate].
  intros [= <- _]. apply (shape_ids u).
  now apply (update_first_shape f u c ts1 m).
Qed.

Lemma update_many_ids (f u : dict) (c : list dict) :
  map id_str (fst (Mongo.update_many f u c)) = map id_str c.
Proof.
  unfold Mongo.update_many.
  destruct (Mongo.filter_supported _ && Mongo.update_supported _);
    [|reflexivity].
  pose proof (update_each_shape f u c) as H.
  destruct (Mongo.update_each f u c) as [ts n]. simpl in *.
  now apply (shape_ids u).
Qed.

Lemma first_sorted_nth (spec : list (string * Z)) (f : dict)
  (c : list dict) :
  forall (seen : list dict) (best : option (nat * dict)) j b,
    (forall j0 b0, best = Some (j0, b0) ->
                   nth_error (seen ++ c) j0 = Some b0) ->
    Mongo.first_sorted spec f (length seen) c best = Some (j, b) ->
    nth_error (seen ++ c) j = Some b.
Proof.
  induction c as [|d r IH]; intros seen best j b Hb;
    cbn [Mongo.first_sorted].
  - intros H. now apply Hb.
  - intros H.
    replace (seen ++ d :: r)%list with ((seen ++ [d]) ++ r)%list in *
      by now rewrite <- app_assoc.
    apply (IH (seen ++ [d])%list) with (2 := eq_rect _
             (fun n => Mongo.first_sorted spec f n r _ = Some (j, b)) H _
             (eq_sym (eq_trans (length_app seen [d]) (Nat.add_1_r _)))).
    intros j0 b0 E.
    assert (Hd : nth_error ((seen ++ [d]) ++ r) (length seen) = Some d)
      by (rewrite <- app_assoc; apply nth_error_snoc).
    destruct (Mongo.matches d (VDict f)); [|now apply Hb].
    destruct best as [[j1 b1]|].
    + destruct (Mongo.sorts_before spec d b1); [|now apply Hb].
      now injection E as <- <-.
    + now injection E as <- <-.
Qed.

Lemma find_one_and_update_ids (f u : dict) (spec : list (string * Z))
  (c ts : list dict) (r : option dict) :
  Mongo.find_one_and_update f u spec c = Ok (ts, r) ->
  map id_str ts = map id_str c.
Proof.
  unfold Mongo.find_one_and_update.
  destruct (Mongo.filter_supported _ && Mongo.update_supported _);
    [|discriminate].
  destruct (Mongo.first_sorted spec f 0 c None) as [[i d]|] eqn:E.
  - destruct (Mongo.apply_update u d) as [d'|] eqn:Ea; [|discriminate].
    intros [= <- _].
    apply (map_replace_nth id_str i d' d).
    + apply (first_sorted_nth spec f c [] None i d); [discriminate|exact E].
    + now apply (apply_update_id u).
  - now intros [= <- _].
Qed.

Lemma sweep_ids (now : Z) (found : list dict) :
  forall ts acc,
    map id_str (snd (sweep now found ts acc)) = map id_str ts.
Proof.
  induction found as [|task rest IH]; intros ts acc; cbn [sweep];
    [reflexivity|].
  destruct (PyDict.get "_id" task) as [id|]; [|reflexivity].
  destruct (sweep_one now id task ts) as [[ts' [|]]|] eqn:E;
    try apply IH; rewrite IH; unfold sweep_one in E;
    destruct (PyDict.get "status" task); try discriminate;
    destruct (TaskFSM.fail _); try discriminate;
    match type of E with
    | context [Mongo.update_one ?f ?u ?c] =>
        destruct (Mongo.update_one f u c) as [[ts1 n]|] eqn:Eu;
          [|discriminate]
    end;
    injection E as <- _; now apply (update_one_ids _ _ _ _ _ Eu).
Qed.

(** X25: the updating operations keep the tasks by id.  Whether the call
    returns or raises, [update] (with a filter of the fragment, an update
    document that is empty or one [$set], and tasks that hold no arrays),
    [fetch_task] (with an [extra_filter] of the fragment and tasks that hold
    no arrays), [cancel_task],
    [update_task_and_reset_pending], [update_task_status], [handle_timeouts]
    and [delete_worker] leave the store with as many tasks as before, in the
    same order, each under the string id it had; so pairwise distinct ids
    stay pairwise distinct. *)
Theorem task_ids_stable (parse_timeout : string -> result Z) (ops : FsmOps)
  (db : Db) (now : Z) (queue_name task_id worker_id report_status : string)
  (q : dict) (w eta_max : option string)
  (sets extra_filter settings summary : option dict)
  (cascade_update : bool) :
  (Mongo.filter_supported (VDict q) = true ->
   no_arrays (tasks db) = true ->
   same_task_ids db (snd (update db now queue_name q (set_document sets))))
  /\ (Mongo.filter_supported (VDict (or_empty extra_filter)) = true ->
      no_arrays (tasks db) = true ->
      same_task_ids db
        (snd (fetch_task parse_timeout db now queue_name w eta_max
                extra_filter)))
  /\ same_task_ids db (snd (cancel_task db queue_name task_id))
  /\ same_task_ids db
       (snd (update_task_and_reset_pending db now queue_name task_id
               settings))
  /\ same_task_ids db
       (snd (update_task_status ops db now queue_name task_id report_status
               summary))
  /\ same_task_ids db (snd (handle_timeouts db now))
  /\ same_task_ids db
       (snd (delete_worker db now queue_name worker_id cascade_update)).
Proof.
  split; [intros _ _|split; [intros _ _|]];
    repeat match goal with
           | |- same_task_ids _ _ /\ _ => split
           end;
    apply same_task_ids_of.
  - unfold update.
    destruct (find_queue db queue_name) as [queue|]; [|reflexivity].
    destruct (PyDict.get "queue_id" q) as [qid|]; [|reflexivity].
    destruct (negb _); [reflexivity|]. cbv zeta.
    match goal with
    | |- context [match ?s with Ok _ => _ | Raise _ => _ end] =>
        destruct s as [u'|e]; [|reflexivity]
    end.
    pose proof (update_many_ids q u' (tasks db)) as H.
    destruct (Mongo.update_many q u' (tasks db)) as [ts n]. exact H.
  - unfold fetch_task. cbv zeta.
    repeat match goal with
           | |- context [match ?s with Ok _ => _ | Raise _ => _ end] =>
               lazymatch s with
               | Mongo.find_one_and_update _ _ _ _ => fail
               | _ => destruct s; [|reflexivity]
               end
           | |- context [match find_queue ?a ?b with _ => _ end] =>
               destruct (find_queue a b); [|reflexivity]
           end.
    match goal with
    | |- context [Mongo.find_one_and_update ?f ?v ?sp ?c] =>
        destruct (Mongo.find_one_and_update f v sp c) as [[ts r]|e] eqn:E;
          [|reflexivity]
    end.
    exact (find_one_and_update_ids _ _ _ _ _ _ E).
  - unfold cancel_task.
    destruct (find_queue db queue_name) as [queue|]; [|reflexivity].
    match goal with
    | |- context [Mongo.update_one ?f ?v ?c] =>
        destruct (Mongo.update_one f v c) as [[ts n]|e] eqn:E; [|reflexivity]
    end.
    exact (update_one_ids _ _ _ _ _ E).
  - unfold update_task_and_reset_pending.
    destruct (find_queue db queue_name) as [queue|]; [|reflexivity].
    match goal with
    | |- context [Mongo.update_one ?f ?v ?c] =>
        destruct (Mongo.update_one f v c) as [[ts n]|e] eqn:E; [|reflexivity]
    end.
    exact (update_one_ids _ _ _ _ _ E).
  - unfold update_task_status.
    destruct (find_queue db queue_name) as [queue|]; [|reflexivity].
    destruct (List.find _ (tasks db)) as [task|]; [|reflexivity].
    destruct (report_event ops task report_status) as [m|e]; [|reflexivity].
    match goal with
    | |- context [Mongo.update_one ?f ?v ?c] =>
        destruct (Mongo.update_one f v c) as [[ts n]|e] eqn:E; [|reflexivity]
    end.
    exact (update_one_ids _ _ _ _ _ E).
  - unfold handle_timeouts.
    pose proof (sweep_ids now (filter (timed_out now) (tasks db)) (tasks db)
                  []) as H.
    destruct (sweep now (filter (timed_out now) (tasks db)) (tasks db) [])
      as [r ts]. exact H.
  - unfold delete_worker.
    destruct (find_queue db queue_name) as [queue|]; [|reflexivity].
    destruct (delete_first _ (workers db)) as [ws n].
    destruct (n =? 0); [reflexivity|].
    destruct cascade_update; [|reflexivity].
    cbn [tasks].
    match goal with
    | |- context [Mongo.update_many ?f ?v ?c] =>
        pose proof (update_many_ids f v c) as H;
          destruct (Mongo.update_many f v c) as [ts k]
    end.
    exact H.
Qed.

(** ** What a fetch selects *)

(** X26: what [fetch_task] selects when [extra_filter] is a filter of the
    fragment that leaves [queue_id] and [status] alone, on tasks that carry
    their sort keys and hold no arrays.  A returned task is
    the claimed image of a pending task of the resolved queue that matches
    [extra_filter]; no such task has a higher priority, or the same priority
    and an earlier creation date; the fields the claim does not write read as
    before and the store differs at this task only.  When the call returns
    null, no pending task of the queue matches and the store is as before. *)
Theorem fetch_task_selects_first_pending (parse_timeout : string -> result Z)
  (db db' : Db) (now : Z) (queue_name : string) (queue : Queue)
  (worker_id eta_max : option string) (extra_filter : option dict)
  (found : option dict) :
  find_queue db queue_name = Some queue ->
  Mongo.filter_supported (VDict (or_empty extra_filter)) = true ->
  keys_unique (or_empty extra_filter) = true ->
  PyDict.get "queue_id" (or_empty extra_filter) = None ->
  PyDict.get "status" (or_empty extra_filter) = None ->
  forallb has_sort_keys (tasks db) = true ->
  no_arrays (tasks db) = true ->
  fetch_task parse_timeout db now queue_name worker_id eta_max extra_filter
  = (Ok found, db') ->
  match found with
  | None =>
      db' = db
      /\ forall t,
           In t (tasks db) ->
           pending_in (q_id queue) t
           && Mongo.matches t (VDict (or_empty extra_filter)) = false
  | Some t' =>
      exists i d p c,
        nth_error (tasks db) i = Some d
        /\ pending_in (q_id queue) d = true
        /\ Mongo.matches d (VDict (or_empty extra_filter)) = true
        /\ sort_keys d = Some (p, c)
        /\ (forall a pa ca,
               In a (tasks db) ->
               pending_in (q_id queue) a = true ->
               Mongo.matches a (VDict (or_empty extra_filter)) = true ->
               sort_keys a = Some (pa, ca) ->
               pa < p \/ (pa = p /\ c <= ca))
        /\ (forall k,
               existsb (String.eqb k) fetch_written = false ->
               PyDict.get k t' = PyDict.get k d)
        /\ tasks db' = Mongo.replace_nth i t' (tasks db)
  end.
Proof.
  intros Hq _ Hu Hnq Hns Hkeys _ F.
  exact (fetch_task_first_pending parse_timeout db db' now queue_name queue
           worker_id eta_max extra_filter found Hq Hu Hnq Hns Hkeys F).
Qed.

Lemma fetch_task_selects_first_pending_witness :
  find_queue Sample.db_pending "exp1" = Some Sample.exp1
  /\ Mongo.filter_supported (VDict Scenario.ten) = true
  /\ keys_unique Scenario.ten = true
  /\ PyDict.get "queue_id" Scenario.ten = None
  /\ PyDict.get "status" Scenario.ten = None
  /\ forallb has_sort_keys (tasks Sample.db_pending) = true
  /\ no_arrays (tasks Sample.db_pending) = true
  /\ exists t' db',
       fetch_task Sample.parse_timeout Sample.db_pending 60 "exp1" None None
         (Some Scenario.ten)
       = (Ok (Some t'), db')
       /\ PyDict.get "_id" t' = Some (VStr "A")
       /\ exists i d p c,
            nth_error (tasks Sample.db_pending) i = Some d
            /\ pending_in "Q1" d = true
            /\ Mongo.matches d (VDict Scenario.ten) = true
            /\ sort_keys d = Some (p, c)
            /\ (forall a pa ca,
                   In a (tasks Sample.db_pending) ->
                   pending_in "Q1" a = true ->
                   Mongo.matches a (VDict Scenario.ten) = true ->
                   sort_keys a = Some (pa, ca) ->
                   pa < p \/ (pa = p /\ c <= ca))
            /\ (forall k,
                   existsb (String.eqb k) fetch_written = false ->
                   PyDict.get k t' = PyDict.get k d)
            /\ tasks db' = Mongo.replace_nth i t' (tasks Sample.db_pending).
Proof.
  split; [reflexivity|]. split; [reflexivity|]. split; [reflexivity|].
  split; [reflexivity|]. split; [reflexivity|]. split; [reflexivity|].
  split; [reflexivity|].
  eexists. eexists. split; [reflexivity|]. split; [reflexivity|].
  exact (fetch_task_selects_first_pending Sample.parse_timeout
           Sample.db_pending _ 60 "exp1" Sample.exp1 None None
           (Some Scenario.ten) (Some _) eq_refl eq_refl
           eq_refl eq_refl eq_refl eq_refl eq_refl eq_refl).
Defined.

(** ** [sanitize_query] *)

Lemma filter_andb {A : Type} (f g : A -> bool) (l : list A) :
  filter (fun x => f x && g x) l = filter f (filter g l).
Proof.
  induction l as [|x r IH]; [reflexivity|]. simpl.
  destruct (g x); simpl.
  - rewrite andb_true_r. destruct (f x); now rewrite IH.
  - now rewrite andb_false_r.
Qed.

Lemma matches_sanitize_query (queue_id : string) (q t : dict) :
  Mongo.matches t (VDict (sanitize_query queue_id q))
  = value_eqb (get_or_none "queue_id" t) (VStr queue_id)
    && Mongo.matches t (VDict q).
Proof.
  unfold sanitize_query. rewrite matches_cons, matches_nil, andb_true_r.
  cbn [Mongo.clause String.eqb Ascii.eqb Bool.eqb forallb].
  rewrite matches_cons, matches_nil, !andb_true_r.
  cbn [Mongo.clause String.eqb Ascii.eqb Bool.eqb Mongo.field_cond].
  rewrite (field_top "queue_id" t eq_refl).
  now rewrite field_eq_get_or_none.
Qed.

(** X30: [sanitize_query] confines whatever filter it is given to one
    queue.  The sanitized filter is accepted by the store exactly when the
    caller's filter is, and then selects the documents the caller's filter
    selects that carry the given [queue_id], in their order; so a caller's own
    [queue_id] entry cannot widen the scope, and no document of another queue
    is ever returned. *)
Theorem sanitize_query_scopes (queue_id : string) (q : dict)
  (c : list dict) :
  Mongo.find (sanitize_query queue_id q) c
  = match Mongo.find q c with
    | Ok r =>
        Ok (filter
              (fun t =>
                 value_eqb (get_or_none "queue_id" t) (VStr queue_id)) r)
    | Raise e => Raise e
    end
  /\ (forall r t,
         Mongo.find (sanitize_query queue_id q) c = Ok r ->
         In t r -> PyDict.get "queue_id" t = Some (VStr queue_id)).
Proof.
  assert (Hs : Mongo.filter_supported (VDict (sanitize_query queue_id q))
               = Mongo.filter_supported (VDict q)).
  { assert (Hc : forall k v r,
               Mongo.filter_supported (VDict ((k, v) :: r))
               = Mongo.clause_supported Mongo.filter_supported k v
                 && Mongo.filter_supported (VDict r)) by reflexivity.
    assert (Hn : Mongo.filter_supported (VDict []) = true) by reflexivity.
    unfold sanitize_query. rewrite Hc, Hn.
    cbn [Mongo.clause_supported String.eqb Ascii.eqb Bool.eqb orb forallb].
    rewrite Hc, Hn. cbn. now rewrite !andb_true_r. }
  assert (E : Mongo.find (sanitize_query queue_id q) c
              = match Mongo.find q c with
                | Ok r =>
                    Ok (filter
                          (fun t =>
                             value_eqb (get_or_none "queue_id" t)
                               (VStr queue_id)) r)
                | Raise e => Raise e
                end).
  { unfold Mongo.find. rewrite Hs.
    destruct (Mongo.filter_supported (VDict q)); [|reflexivity].
    rewrite <- filter_andb. f_equal. apply filter_ext.
    intros t. apply matches_sanitize_query. }
  split; [exact E|].
  intros r t Hr Hin. rewrite E in Hr.
  destruct (Mongo.find q c) as [r0|]; [|discriminate].
  injection Hr as <-. apply filter_In in Hin. destruct Hin as [_ Hin].
  unfold get_or_none in Hin.
  destruct (PyDict.get "queue_id" t) as [v|]; [|discriminate].
  apply value_eqb_eq in Hin. now subst.
Qed.

(** ** The further properties at sample stores *)
Lemma create_queue_then_find_witness :
  "exp3" <> ""
  /\ Scenario.hash_password "pw" = Hashed "hashed:pw"
  /\ existsb
       (fun q => String.eqb (q_id q) "Q3"
                 || String.eqb (q_queue_name q) "exp3")
       (queues Sample.db_pending) = false
  /\ exists db',
       create_queue Scenario.hash_password Sample.db_pending 50 "Q3" "exp3"
         "pw" None
       = (Ok "Q3", db')
       /\ find_queue db' "exp3"
          = Some (mkQueue "Q3" "exp3" "hashed:pw" 50 50 (VDict []))
       /\ (forall other,
              other <> "exp3" ->
              find_queue db' other = find_queue Sample.db_pending other)
       /\ tasks db' = tasks Sample.db_pending
       /\ workers db' = workers Sample.db_pending.
Proof.
  assert (H1 : "exp3" <> "") by discriminate.
  split; [exact H1|]. split; [reflexivity|]. split; [reflexivity|].
  exact (create_queue_then_find Scenario.hash_password Sample.db_pending 50
           "Q3" "exp3" "pw" "hashed:pw" None H1 eq_refl eq_refl).
Defined.

Lemma create_worker_then_fetch_witness :
  find_queue Sample.db_pending "exp1" = Some Sample.exp1
  /\ create_worker Sample.db_pending 50 "W2" "exp1" None None 3
     = (Ok "W2",
        mkDb (queues Sample.db_pending) (tasks Sample.db_pending)
          [Sample.w1; Scenario.w2])
  /\ find_worker
       (mkDb (queues Sample.db_pending) (tasks Sample.db_pending)
          [Sample.w1; Scenario.w2]) "W2" "Q1"
     = Some Scenario.w2
  /\ exists found db2,
       fetch_task Sample.parse_timeout
         (mkDb (queues Sample.db_pending) (tasks Sample.db_pending)
            [Sample.w1; Scenario.w2]) 60 "exp1" (Some "W2") None None
       = (Ok found, db2)
       /\ (forall t, found = Some t ->
                     PyDict.get "worker_id" t = Some (VStr "W2")).
Proof.
  split; [reflexivity|]. split; [reflexivity|].
  exact (create_worker_then_fetch Sample.parse_timeout Sample.db_pending
           (mkDb (queues Sample.db_pending) (tasks Sample.db_pending)
              [Sample.w1; Scenario.w2])
           50 60 "W2" "exp1" Sample.exp1 None None 3 eq_refl eq_refl).
Defined.

Lemma delete_queue_cascade_witness :
  find_queue Sample.db_worker "exp1" = Some Sample.exp1
  /\ exists pre q0 post db',
       delete_queue Sample.db_worker "exp1" true = (Ok true, db')
       /\ queues Sample.db_worker = (pre ++ q0 :: post)%list
       /\ q_id q0 = "Q1"
       /\ queues db' = (pre ++ post)%list
       /\ tasks db'
          = filter
              (fun t =>
                 negb (value_eqb (get_or_none "queue_id" t) (VStr "Q1")))
              (tasks Sample.db_worker)
       /\ workers db'
          = filter (fun w => negb (String.eqb (w_queue_id w) "Q1"))
              (workers Sample.db_worker)
       /\ (forall t, In t (tasks db') ->
                     PyDict.get "queue_id" t <> Some (VStr "Q1"))
       /\ (forall w, In w (workers db') -> w_queue_id w <> "Q1").
Proof.
  split; [reflexivity|].
  exact (delete_queue_cascade Sample.db_worker "exp1" Sample.exp1 true
           eq_refl).
Defined.

Lemma delete_task_scoped_witness :
  find_queue Sample.db_two_queues "exp1" = Some Sample.exp1
  /\ delete_task Sample.db_two_queues "exp1" "F"
     = (Raise (HTTPException 404), Sample.db_two_queues)
  /\ find_queue Sample.db_pending "exp1" = Some Sample.exp1
  /\ delete_task Sample.db_pending "exp1" "B"
     = (Ok true, with_tasks Sample.db_pending [Sample.pendingA]).
Proof.
  split; [reflexivity|]. split.
  - apply (proj1 (delete_task_scoped Sample.db_two_queues "exp1" "F"
                    Sample.exp1 eq_refl)).
    intros t [<-|[]] _. discriminate.
  - split; [reflexivity|].
    apply (proj2 (delete_task_scoped Sample.db_pending "exp1" "B"
                    Sample.exp1 eq_refl) [Sample.pendingA] Sample.pendingB []);
      try reflexivity.
    intros a [<-|[]]. discriminate.
Defined.

Lemma create_task_then_delete_witness :
  create_task Sample.db_running 50 "T" "exp1" None None None None None 3 10
  = (Ok "T",
     with_tasks Sample.db_running [Sample.runningC; Scenario.submitted])
  /\ delete_task
       (with_tasks Sample.db_running [Sample.runningC; Scenario.submitted])
       "exp1" "T"
     = (Ok true, Sample.db_running).
Proof.
  split; [reflexivity|].
  exact (create_task_then_delete Sample.db_running
           (with_tasks Sample.db_running
              [Sample.runningC; Scenario.submitted])
           50 "T" "exp1" None None None None None 3 10 eq_refl).
Defined.

Lemma create_task_then_fetch_witness :
  find_queue Sample.db_running "exp1" = Some Sample.exp1
  /\ (forall t, In t (tasks Sample.db_running) -> pending_in "Q1" t = false)
  /\ create_task Sample.db_running 50 "T" "exp1" None None None None None 3
       10
     = (Ok "T",
        with_tasks Sample.db_running [Sample.runningC; Scenario.submitted])
  /\ exists t,
       fetch_task Sample.parse_timeout
         (with_tasks Sample.db_running
            [Sample.runningC; Scenario.submitted]) 60 "exp1" None None None
       = (Ok (Some t),
          with_tasks Sample.db_running (tasks Sample.db_running ++ [t]))
       /\ PyDict.get "_id" t = Some (VStr "T")
       /\ PyDict.get "status" t = Some TaskState.RUNNING
       /\ PyDict.get "args" t = Some (VDict [])
       /\ PyDict.get "metadata" t = Some (VDict [])
       /\ PyDict.get "priority" t = Some (VInt 10)
       /\ PyDict.get "created_at" t = Some (VDate 50)
       /\ PyDict.get "start_time" t = Some (VDate 60).
Proof.
  assert (H : forall t, In t (tasks Sample.db_running) ->
                        pending_in "Q1" t = false)
    by (intros t [<-|[]]; reflexivity).
  split; [reflexivity|]. split; [exact H|]. split; [reflexivity|].
  exact (create_task_then_fetch Sample.parse_timeout Sample.db_running
           (with_tasks Sample.db_running
              [Sample.runningC; Scenario.submitted])
           50 60 "T" "exp1" Sample.exp1 None None None None None 3 10
           eq_refl H eq_refl).
Defined.

Lemma update_task_status_refusals_witness :
  find_queue Scenario.db_finished "exp1" = Some Sample.exp1
  /\ update_task_status Scenario.fsm Scenario.db_finished 9 "exp1" "Z"
       "success" None
     = (Raise (HTTPException 404), Scenario.db_finished)
  /\ update_task_status Scenario.fsm Scenario.db_finished 9 "exp1" "H"
       "running" None
     = (Raise (HTTPException HTTP_400_BAD_REQUEST), Scenario.db_finished)
  /\ update_task_status Scenario.fsm Scenario.db_finished 9 "exp1" "H"
       "failed" None
     = (Raise (HTTPException HTTP_400_BAD_REQUEST), Scenario.db_finished).
Proof.
  split; [reflexivity|]. split; [|split].
  - now apply (proj1 (update_task_status_refusals Scenario.fsm
                        Scenario.db_finished 9 "exp1" "Z" "success" None
                        Sample.exp1 eq_refl)).
  - apply (proj2 (update_task_status_refusals Scenario.fsm
                    Scenario.db_finished 9 "exp1" "H" "running" None
                    Sample.exp1 eq_refl) Scenario.doneH eq_refl).
    left. repeat split; discriminate.
  - apply (proj2 (update_task_status_refusals Scenario.fsm
                    Scenario.db_finished 9 "exp1" "H" "failed" None
                    Sample.exp1 eq_refl) Scenario.doneH eq_refl).
    right. right.
    exists (TaskFSM.make TaskState.SUCCESS (VInt 0) (VInt 3)).
    exists InvalidStateTransition.
    split; [reflexivity|]. right. left. now split.
Defined.
Lemma handle_timeouts_spares_within_bounds_witness :
  ids_unique (tasks Sample.db_sweep) = true
  /\ nth_error (tasks Sample.db_sweep) 1 = Some Sample.runningE
  /\ PyDict.get "last_heartbeat" Sample.runningE = Some (VDate 0)
  /\ PyDict.get "heartbeat_timeout" Sample.runningE = Some (VInt 1)
  /\ 1000 - 0 <= 1000 * 1
  /\ get_or_none "task_timeout" Sample.runningE = VNone
  /\ exists ids db',
       handle_timeouts Sample.db_sweep 1000 = (Ok ids, db')
       /\ nth_error (tasks db') 1 = Some Sample.runningE
       /\ ~ In (get_or_none "_id" Sample.runningE) ids.
Proof.
  assert (H : 1000 - 0 <= 1000 * 1) by lia.
  split; [reflexivity|]. split; [reflexivity|]. split; [reflexivity|].
  split; [reflexivity|]. split; [exact H|]. split; [reflexivity|].
  exact (handle_timeouts_spares_within_bounds Sample.db_sweep 1000 1
           Sample.runningE 0 1 eq_refl eq_refl eq_refl eq_refl H
           (or_introl eq_refl)).
Defined.

Lemma handle_timeouts_spares_not_running_witness :
  ids_unique (tasks Sample.db_pending) = true
  /\ nth_error (tasks Sample.db_pending) 0 = Some Sample.pendingA
  /\ PyDict.get "status" Sample.pendingA = Some TaskState.PENDING
  /\ TaskState.PENDING <> TaskState.RUNNING
  /\ exists ids db',
       handle_timeouts Sample.db_pending 100000 = (Ok ids, db')
       /\ nth_error (tasks db') 0 = Some Sample.pendingA
       /\ ~ In (get_or_none "_id" Sample.pendingA) ids.
Proof.
  assert (H : TaskState.PENDING <> TaskState.RUNNING) by discriminate.
  split; [reflexivity|]. split; [reflexivity|]. split; [reflexivity|].
  split; [exact H|].
  exact (handle_timeouts_spares_not_running Sample.db_pending 100000 0
           Sample.pendingA TaskState.PENDING eq_refl eq_refl eq_refl H).
Defined.

Lemma fetch_task_worker_check_witness :
  find_queue Sample.db_pending "exp1" = Some Sample.exp1
  /\ "W9" <> ""
  /\ find_worker Sample.db_pending "W9" "Q1" = None
  /\ fetch_task Sample.parse_timeout Sample.db_pending 60 "exp1" (Some "W9")
       None None
     = (Raise (HTTPException 404), Sample.db_pending)
  /\ find_queue Scenario.db_finished "exp1" = Some Sample.exp1
  /\ "W3" <> ""
  /\ find_worker Scenario.db_finished "W3" "Q1" = Some Scenario.w3
  /\ w_status Scenario.w3 <> WorkerState.ACTIVE
  /\ fetch_task Sample.parse_timeout Scenario.db_finished 60 "exp1"
       (Some "W3") None None
     = (Raise (HTTPException 400), Scenario.db_finished).
Proof.
  assert (H1 : "W9" <> "") by discriminate.
  assert (H2 : "W3" <> "") by discriminate.
  assert (H3 : w_status Scenario.w3 <> WorkerState.ACTIVE) by discriminate.
  split; [reflexivity|]. split; [exact H1|]. split; [reflexivity|].
  split.
  { exact (proj1 (fetch_task_worker_check Sample.parse_timeout
                    Sample.db_pending 60 "exp1" "W9" Sample.exp1 None
                    eq_refl H1) eq_refl). }
  split; [reflexivity|]. split; [exact H2|]. split; [reflexivity|].
  split; [exact H3|].
  exact (proj2 (fetch_task_worker_check Sample.parse_timeout
                  Scenario.db_finished 60 "exp1" "W3" Sample.exp1 None
                  eq_refl H2) Scenario.w3 eq_refl H3).
Defined.

Lemma fetch_task_eta_max_witness :
  "30s" <> ""
  /\ Scenario.parse_timeout "30s" = Ok 30
  /\ exists t db',
       fetch_task Scenario.parse_timeout Sample.db_pending 60 "exp1" None
         (Some "30s") None
       = (Ok (Some t), db')
       /\ exists d,
            In d (tasks Sample.db_pending)
            /\ PyDict.get "_id" t = PyDict.get "_id" d
            /\ PyDict.get "task_timeout" t = Some (VInt 30).
Proof.
  assert (H : "30s" <> "") by discriminate.
  split; [exact H|]. split; [reflexivity|].
  eexists. eexists. split; [reflexivity|].
  exact (fetch_task_eta_max Scenario.parse_timeout Sample.db_pending _ 60
           "exp1" "30s" None None 30 _ H eq_refl eq_refl).
Defined.

Lemma update_queue_rename_witness :
  find_queue Sample.db_pending "exp1" = Some Sample.exp1
  /\ "exp9" <> ""
  /\ existsb
       (fun q => String.eqb (q_queue_name q) "exp9"
                 && negb (String.eqb (q_id q) "Q1"))
       (queues Sample.db_pending) = false
  /\ (exists b db',
         update_queue Sample.hash_password Sample.db_pending 7 "exp1"
           (Some "exp9") (Some "new") None
         = (Ok b, db')
         /\ find_queue db' "exp9"
            = Some (mkQueue "Q1" "exp9" "hashed:new" 0 7
                      (VDict [("owner", VStr "ann")]))
         /\ tasks db' = tasks Sample.db_pending
         /\ workers db' = workers Sample.db_pending)
  /\ "other" <> ""
  /\ existsb
       (fun q => String.eqb (q_queue_name q) "other"
                 && negb (String.eqb (q_id q) "Q1"))
       (queues Sample.db_pending) = true
  /\ update_queue Sample.hash_password Sample.db_pending 7 "exp1"
       (Some "other") None None
     = (Raise DuplicateKeyError, Sample.db_pending).
Proof.
  assert (H1 : "exp9" <> "") by discriminate.
  assert (H2 : "other" <> "") by discriminate.
  split; [reflexivity|]. split; [exact H1|]. split; [reflexivity|].
  split.
  { exact (proj2 (update_queue_rename Sample.hash_password Sample.db_pending
                    7 "exp1" "exp9" (Some "new") Sample.exp1 eq_refl H1)
             eq_refl). }
  split; [exact H2|]. split; [reflexivity|].
  exact (proj1 (update_queue_rename Sample.hash_password Sample.db_pending
                  7 "exp1" "other" None Sample.exp1 eq_refl H2) eq_refl).
Defined.

Lemma delete_worker_then_fetch_witness :
  find_queue Sample.db_worker "exp1" = Some Sample.exp1
  /\ worker_ids_unique (workers Sample.db_worker) = true
  /\ "W1" <> ""
  /\ exists db1,
       delete_worker Sample.db_worker 50 "exp1" "W1" false = (Ok true, db1)
       /\ db1 = mkDb (queues Sample.db_worker) (tasks Sample.db_worker) []
       /\ fetch_task Sample.parse_timeout db1 60 "exp1" (Some "W1") None
            None
          = (Raise (HTTPException 404), db1).
Proof.
  assert (H : "W1" <> "") by discriminate.
  split; [reflexivity|]. split; [reflexivity|]. split; [exact H|].
  eexists. split; [reflexivity|]. split; [reflexivity|].
  exact (delete_worker_then_fetch Sample.parse_timeout Sample.db_worker _ 50
           60 "exp1" "W1" Sample.exp1 false None eq_refl eq_refl H eq_refl).
Defined.

Lemma update_empty_stamps_witness :
  find_queue Sample.db_pending "exp1" = Some Sample.exp1
  /\ PyDict.get "queue_id" Scenario.q1_twenty = Some (VStr "Q1")
  /\ Mongo.filter_supported (VDict Scenario.q1_twenty) = true
  /\ no_arrays (tasks Sample.db_pending) = true
  /\ exists b,
       update Sample.db_pending 9 "exp1" Scenario.q1_twenty []
       = (Ok b,
          with_tasks Sample.db_pending
            [Sample.pendingA;
             PyDict.setitem "last_modified" (VDate 9) Sample.pendingB]).
Proof.
  split; [reflexivity|]. split; [reflexivity|]. split; [reflexivity|].
  split; [reflexivity|].
  exact (update_empty_stamps Sample.db_pending 9 "exp1" Sample.exp1
           Scenario.q1_twenty eq_refl eq_refl eq_refl eq_refl).
Defined.

Lemma cancel_task_returns_false_witness :
  find_queue Scenario.db_finished "exp1" = Some Sample.exp1
  /\ List.find (is_task "Z" "Q1") (tasks Scenario.db_finished) = None
  /\ cancel_task Scenario.db_finished "exp1" "Z"
     = (Ok false, Scenario.db_finished)
  /\ List.find (is_task "G" "Q1") (tasks Scenario.db_finished)
     = Some Scenario.cancelledG
  /\ PyDict.get "status" Scenario.cancelledG = Some TaskState.CANCELLED
  /\ cancel_task Scenario.db_finished "exp1" "G"
     = (Ok false, Scenario.db_finished).
Proof.
  split; [reflexivity|]. split; [reflexivity|]. split.
  { exact (proj1 (cancel_task_returns_false Scenario.db_finished "exp1" "Z"
                    Sample.exp1 eq_refl) eq_refl). }
  split; [reflexivity|]. split; [reflexivity|].
  exact (proj2 (cancel_task_returns_false Scenario.db_finished "exp1" "G"
                  Sample.exp1 eq_refl) Scenario.cancelledG eq_refl eq_refl).
Defined.

Lemma fetch_task_plain_total_witness :
  find_queue Sample.db_running "exp1" = Some Sample.exp1
  /\ exists found db',
       fetch_task Sample.parse_timeout Sample.db_running 60 "exp1" None None
         None
       = (Ok found, db')
       /\ (found = None <->
           forall t, In t (tasks Sample.db_running) ->
                     pending_in "Q1" t = false).
Proof.
  split; [reflexivity|].
  exact (fetch_task_plain_total Sample.parse_timeout Sample.db_running 60
           "exp1" Sample.exp1 eq_refl).
Defined.
